(** * build.py : the static site generator of unsloppable-analysis

    A shallow embedding of [src/build.py] and the properties of its
    parser, its two page renderers and its driver.

    Text.  A Python [str] is modelled by [string]; one [ascii] stands for
    one code point, so the development covers the texts whose code points
    are below 256.  The character classes below ([isspace], [isdigit],
    [isword], [lower_char]) are the ones of Python 3 on that range.

    Records.  The parser returns a Python [dict] with string keys; it is a
    [gmap string val].  The dictionaries that are iterated ([stats],
    [subs]) are association lists in insertion order.

    Objects.  The parser builds its Record in a dict and lists that it
    changes in place; the module [Mem] runs its statements on a store of
    objects, and the Record read from the store is the one of the
    function [parse_markdown] on the text.

    Exceptions.  A renderer that raises (TypeError, AttributeError) on a
    value of the wrong type returns [None]; a run of [main] that an
    exception stops is [Stopped], with the files written before.

    What is outside the file.  The two templates are read from files that
    are not part of the sources: every renderer takes the text of its
    template as an argument.  [parse_markdown] takes the text of the
    markdown file, [main] the texts of the files that [glob] finds, in
    that order, and returns the files it writes.  Whether the file system
    accepts a write is the argument [write_ok] of [main].  The limit on
    the digits of an integer literal is a setting of the interpreter and
    is the argument [max_str_digits].  What [main] prints is left out. *)

From Stdlib Require Import Ascii String ZArith Lia.
From stdpp Require Import base option list strings gmap pretty.

Local Open Scope string_scope.
Local Open Scope list_scope.

(** ** Python [str] methods *)

Module Py.

(** The double quote and the line feed, as one-character strings. *)
Definition dq : string := String "034"%char EmptyString.
Definition nl : string := String "010"%char EmptyString.

(** [str.isspace] on one code point below 256:
    U+0009..U+000D, U+001C..U+001F, U+0020, U+0085, U+00A0. *)
Definition isspace (c : ascii) : bool :=
  match c with
  | "009" | "010" | "011" | "012" | "013"
  | "028" | "029" | "030" | "031"
  | " " | "133" | "160" => true
  | _ => false
  end%char.

(** [\d] of [re] on a [str] pattern: the decimal digits; below 256 these
    are 0..9. *)
Definition isdigit (c : ascii) : bool :=
  match c with
  | "0" | "1" | "2" | "3" | "4" | "5" | "6" | "7" | "8" | "9" => true
  | _ => false
  end%char.

Definition digit_value (c : ascii) : Z :=
  Z.of_nat (nat_of_ascii c) - 48.

Definition in_range (lo hi : nat) (c : ascii) : bool :=
  let n := nat_of_ascii c in (lo <=? n)%nat && (n <=? hi)%nat.

(** [\w] of [re] on a [str] pattern: [str.isalnum] or the underscore.
    Below 256: 0-9, A-Z, a-z, _, and the Latin-1 letters and numerics
    U+00AA, U+00B2, U+00B3, U+00B5, U+00B9, U+00BA, U+00BC..U+00BE,
    U+00C0..U+00D6, U+00D8..U+00F6, U+00F8..U+00FF. *)
Definition isword (c : ascii) : bool :=
  in_range 48 57 c || in_range 65 90 c || in_range 97 122 c
  || in_range 95 95 c
  || in_range 170 170 c || in_range 178 179 c || in_range 181 181 c
  || in_range 185 186 c || in_range 188 190 c
  || in_range 192 214 c || in_range 216 246 c || in_range 248 255 c.

(** [str.lower] on one code point below 256: A-Z and the capital Latin-1
    letters U+00C0..U+00DE (but U+00D7, the multiplication sign) move up
    by 32. *)
Definition lower_char (c : ascii) : ascii :=
  if in_range 65 90 c
     || (in_range 192 222 c && negb (in_range 215 215 c))
  then ascii_of_nat (nat_of_ascii c + 32)
  else c.

Fixpoint lower (s : string) : string :=
  match s with
  | EmptyString => EmptyString
  | String c s' => String (lower_char c) (lower s')
  end.

(** [s[:n]] and [s[n:]]. *)
Fixpoint take (n : nat) (s : string) : string :=
  match n, s with
  | S n', String c s' => String c (take n' s')
  | _, _ => EmptyString
  end.

Fixpoint drop (n : nat) (s : string) : string :=
  match n, s with
  | S n', String _ s' => drop n' s'
  | _, _ => s
  end.

(** [s.startswith(p)]. *)
Fixpoint startswith (p s : string) : bool :=
  match p, s with
  | EmptyString, _ => true
  | String a p', String b s' => if ascii_dec a b then startswith p' s' else false
  | String _ _, EmptyString => false
  end.

(** [needle in s]. *)
Fixpoint contains (needle s : string) : bool :=
  startswith needle s
  || match s with
     | EmptyString => false
     | String _ s' => contains needle s'
     end.

(** [s.lstrip(chars)], [s.rstrip(chars)], [s.strip(chars)], the set of
    characters given by its membership test. *)
Fixpoint lstrip_with (p : ascii -> bool) (s : string) : string :=
  match s with
  | EmptyString => EmptyString
  | String c s' => if p c then lstrip_with p s' else s
  end.

Fixpoint rstrip_with (p : ascii -> bool) (s : string) : string :=
  match s with
  | EmptyString => EmptyString
  | String c s' =>
      match rstrip_with p s' with
      | EmptyString => if p c then EmptyString else String c EmptyString
      | r => String c r
      end
  end.

Definition strip_with (p : ascii -> bool) (s : string) : string :=
  rstrip_with p (lstrip_with p s).

(** [s.strip()]. *)
Definition strip (s : string) : string := strip_with isspace s.

(** Membership in a string used as a set of characters, for
    [s.strip('-* ')]. *)
Fixpoint char_in (chars : string) (c : ascii) : bool :=
  match chars with
  | EmptyString => false
  | String a chars' => if ascii_dec a c then true else char_in chars' c
  end.

(** The text before and the text after the first occurrence of [sep]. *)
Fixpoint split_first (sep s : string) : option (string * string) :=
  if startswith sep s then Some (EmptyString, drop (String.length sep) s)
  else match s with
       | EmptyString => None
       | String c s' =>
           match split_first sep s' with
           | Some (a, b) => Some (String c a, b)
           | None => None
           end
       end.

(** [s.partition(sep)]. *)
Definition partition (sep s : string) : string * string * string :=
  match split_first sep s with
  | Some (a, b) => (a, sep, b)
  | None => (s, EmptyString, EmptyString)
  end.

(** [s.split(sep)] for a separator that is not empty.  [skip] counts the
    characters of a separator that was just found and is being passed. *)
Fixpoint split_go (sep : string) (skip : nat) (s : string) : list string :=
  match s with
  | EmptyString => [EmptyString]
  | String c s' =>
      match skip with
      | S k => split_go sep k s'
      | O =>
          if startswith sep s
          then EmptyString :: split_go sep (String.length sep - 1) s'
          else match split_go sep 0 s' with
               | h :: t => String c h :: t
               | [] => [String c EmptyString]
               end
      end
  end.

Definition split (sep s : string) : list string := split_go sep 0 s.

(** [sep.join(l)]. *)
Fixpoint join (sep : string) (l : list string) : string :=
  match l with
  | [] => EmptyString
  | [x] => x
  | x :: l' => x +:+ sep +:+ join sep l'
  end.

(** [s.replace(old, new)]: the occurrences of [old] from left to right,
    not overlapping; an empty [old] matches before every character and at
    the end. *)
Fixpoint replace_go (old new : string) (skip : nat) (s : string) : string :=
  match s with
  | EmptyString => if startswith old EmptyString then new else EmptyString
  | String c s' =>
      match skip with
      | S k => replace_go old new k s'
      | O =>
          if startswith old s
          then new +:+
               match old with
               | EmptyString => String c (replace_go old new 0 s')
               | String _ old' => replace_go old new (String.length old') s'
               end
          else String c (replace_go old new 0 s')
      end
  end.

Definition replace (old new s : string) : string := replace_go old new 0 s.

(** [str(n)] for an integer. *)
Definition str_of_Z (n : Z) : string := pretty n.

Definition hex_digit (n : nat) : ascii :=
  if (n <? 10)%nat then ascii_of_nat (48 + n) else ascii_of_nat (87 + n).

(** [repr(s)] for a string: single quotes unless the string holds a single
    quote and no double quote; the quote and the backslash escaped; tab,
    line feed and carriage return as [\t], [\n], [\r]; the other code
    points that are not printable (below U+0020, U+007F..U+00A0, U+00AD)
    as [\xNN]. *)
Definition repr_char (quote : ascii) (c : ascii) : string :=
  let bs := "092"%char in
  if ascii_dec c quote then String bs (String c EmptyString)
  else if ascii_dec c bs then String bs (String bs EmptyString)
  else if ascii_dec c "009"%char then String bs "t"
  else if ascii_dec c "010"%char then String bs "n"
  else if ascii_dec c "013"%char then String bs "r"
  else if in_range 0 31 c || in_range 127 160 c || in_range 173 173 c
  then String bs (String "x"%char
         (String (hex_digit (nat_of_ascii c / 16))
            (String (hex_digit (nat_of_ascii c mod 16)) EmptyString)))
  else String c EmptyString.

Fixpoint repr_chars (quote : ascii) (s : string) : string :=
  match s with
  | EmptyString => EmptyString
  | String c s' => repr_char quote c +:+ repr_chars quote s'
  end.

Definition repr_str (s : string) : string :=
  let quote :=
    if contains "'" s && negb (contains dq s) then "034"%char else "'"%char in
  String quote (repr_chars quote s) +:+ String quote EmptyString.

(** [int(s)] for a string, in base 10: white space around the literal is
    dropped (of the code points below 256 the parser of integers passes
    U+0009..U+000D, U+0020, U+0085 and U+00A0), then an optional sign, then
    digits, single underscores allowed between two digits.  [None] is
    ValueError.  [max_str_digits] is [sys.get_int_max_str_digits()]: when
    it is not 0, a literal with more digits is refused. *)
Definition int_isspace (c : ascii) : bool :=
  match c with
  | "009" | "010" | "011" | "012" | "013" | " " | "133" | "160" => true
  | _ => false
  end%char.

Fixpoint int_digits (acc : Z) (n : nat) (prev_digit : bool) (s : string)
  : option (Z * nat) :=
  match s with
  | EmptyString => if prev_digit then Some (acc, n) else None
  | String c s' =>
      if isdigit c then int_digits (acc * 10 + digit_value c) (S n) true s'
      else if ascii_dec c "_"%char
           then if prev_digit then int_digits acc n false s' else None
           else None
  end.

Definition int_of_str (max_str_digits : nat) (s : string) : option Z :=
  let t := strip_with int_isspace s in
  let '(neg, body) :=
    match t with
    | String "+"%char r => (false, r)
    | String "-"%char r => (true, r)
    | _ => (false, t)
    end in
  match int_digits 0 0 false body with
  | Some (v, n) =>
      if (0 <? max_str_digits)%nat && (max_str_digits <? n)%nat then None
      else Some (if neg then (- v)%Z else v)
  | None => None
  end.

End Py.

(** ** The patterns given to [re] *)

Module Re.

(** [p+], greedy: the longest run first, then shorter ones, each handed
    to the rest of the pattern [k] with the text matched and the text
    left. *)
Fixpoint plus {A : Type} (p : ascii -> bool)
    (k : string -> string -> option A) (acc : string) (s : string)
  : option A :=
  match s with
  | EmptyString => None
  | String c s' =>
      if p c then
        let acc' := acc +:+ String c EmptyString in
        match plus p k acc' s' with
        | Some r => Some r
        | None => k acc' s'
        end
      else None
  end.

Definition not_char (x : ascii) (c : ascii) : bool :=
  if ascii_dec x c then false else true.

(** [re.match(r'#\s+([^(]+)\s+\(([^)]+)\)', line)]: the two groups of the
    match at the start of [line], when there is one. *)
Definition match_title (line : string) : option (string * string) :=
  match line with
  | String "#"%char r0 =>
      plus Py.isspace (fun _ r1 =>
        plus (not_char "("%char) (fun g1 r2 =>
          plus Py.isspace (fun _ r3 =>
            match r3 with
            | String "("%char r4 =>
                plus (not_char ")"%char) (fun g2 r5 =>
                  match r5 with
                  | String ")"%char _ => Some (g1, g2)
                  | _ => None
                  end) EmptyString r4
            | _ => None
            end) EmptyString r2) EmptyString r1) EmptyString r0
  | _ => None
  end.

Fixpoint take_while (p : ascii -> bool) (s : string) : string :=
  match s with
  | EmptyString => EmptyString
  | String c s' => if p c then String c (take_while p s') else EmptyString
  end.

(** [re.search(r'(\d+)', value)]: group 1 of the leftmost match. *)
Fixpoint search_digits (value : string) : option string :=
  match value with
  | EmptyString => None
  | String c s' =>
      if Py.isdigit c then Some (take_while Py.isdigit value)
      else search_digits s'
  end.

(** The length of the match of [\{\{range \.\w+\}\}.*?\{\{end\}\}]
    (with DOTALL) at the start of [s]. *)
Definition match_range_block (s : string) : option nat :=
  if Py.startswith "{{range ." s then
    let r := Py.drop 9 s in
    let w := take_while Py.isword r in
    match w with
    | EmptyString => None
    | _ =>
        let r2 := Py.drop (String.length w) r in
        if Py.startswith "}}" r2 then
          match Py.split_first "{{end}}" (Py.drop 2 r2) with
          | Some (body, _) =>
              Some (9 + String.length w + 2 + String.length body + 7)
          | None => None
          end
        else None
    end
  else None.

(** [re.sub(r'\{\{range \.\w+\}\}.*?\{\{end\}\}', '', s,
    flags=re.DOTALL)]. *)
Fixpoint sub_range_blocks_go (skip : nat) (s : string) : string :=
  match s with
  | EmptyString => EmptyString
  | String c s' =>
      match skip with
      | S k => sub_range_blocks_go k s'
      | O =>
          match match_range_block s with
          | Some (S len) => sub_range_blocks_go len s'
          | _ => String c (sub_range_blocks_go 0 s')
          end
      end
  end.

Definition sub_range_blocks (s : string) : string := sub_range_blocks_go 0 s.

End Re.

(** ** Values and records *)

(** The Python values the program handles: strings, integers (the default
    [0] of a score, the counters) and lists of strings. *)
Inductive val : Type :=
| VStr (s : string)
| VInt (n : Z)
| VList (l : list string).

Global Instance val_eq_dec : EqDecision val.
Proof. solve_decision. Defined.

(** [d.get(k, dflt)]. *)
Definition dict_get (d : gmap string val) (k : string) (dflt : val)
  : val :=
  default dflt (d !! k).

(** The truth value of [v] in a condition. *)
Definition truthy (v : val) : bool :=
  match v with
  | VStr EmptyString => false
  | VStr _ => true
  | VInt n => negb (n =? 0)%Z
  | VList [] => false
  | VList _ => true
  end.

(** [str(v)], which is also what an f-string field prints.  For an
    integer this is its decimal text; [str] raises for an integer with
    more digits than the limit of the interpreter, which no Record of the
    parser holds (its values are strings and one list) and no counter
    reaches. *)
Definition py_str (v : val) : string :=
  match v with
  | VStr s => s
  | VInt n => Py.str_of_Z n
  | VList l => "[" +:+ Py.join ", " (map Py.repr_str l) +:+ "]"
  end.

(** A dictionary that is iterated: the pairs in insertion order. *)
Fixpoint assoc {A : Type} (k : string) (l : list (string * A)) : option A :=
  match l with
  | [] => None
  | (k', v) :: l' => if decide (k' = k) then Some v else assoc k l'
  end.

(** [l[k] = v]: in place when the key is there, at the end otherwise. *)
Fixpoint assoc_set {A : Type} (k : string) (v : A) (l : list (string * A))
  : list (string * A) :=
  match l with
  | [] => [(k, v)]
  | (k', v') :: l' =>
      if decide (k' = k) then (k', v) :: l' else (k', v') :: assoc_set k v l'
  end.

(** ** Classification lookup *)

Definition CLASSIFICATION_MAP : list (string * (string * string * string)) :=
  [ ("Unsloppable + Beneficiary",
      ("bg-green-100 text-green-800",
       "Unsloppable" +:+ Py.nl +:+ "+Beneficiary",
       "UnsloppableBeneficiary"));
    ("Unsloppable + High Transition Risk",
      ("bg-blue-100 text-blue-800",
       "High" +:+ Py.nl +:+ "Transition",
       "UnsloppableHighTransitionRisk"));
    ("Unsloppable + Macro Exposed",
      ("bg-yellow-100 text-yellow-800",
       "Macro" +:+ Py.nl +:+ "Exposed",
       "UnsloppableMacroExposed"));
    ("Sloppable + Beneficiary",
      ("bg-red-100 text-red-800",
       "Sloppable" +:+ Py.nl +:+ "+Beneficiary",
       "SloppableBeneficiary"));
    ("Sloppable + Clankerable",
      ("bg-red-200 text-red-900",
       "Sloppable" +:+ Py.nl +:+ "+Clankerable",
       "SloppableClankerable")) ].

Definition classification_default : string * string * string :=
  ("bg-gray-100 text-gray-800", "Unknown", "").

(** [CLASSIFICATION_MAP.get(classification, (gray, "Unknown", ""))]; a
    list is not hashable and the lookup raises TypeError. *)
Definition classification_lookup (classification : val)
  : option (string * string * string) :=
  match classification with
  | VStr s => Some (default classification_default (assoc s CLASSIFICATION_MAP))
  | VInt _ => Some classification_default
  | VList _ => None
  end.

(** ** Score and macro-risk classes *)

(** [int(score)]: ValueError and TypeError are both caught by the caller. *)
Definition int_of_value (max_str_digits : nat) (score : val) : option Z :=
  match score with
  | VStr s => Py.int_of_str max_str_digits s
  | VInt n => Some n
  | VList _ => None
  end.

Definition get_score_class (max_str_digits : nat) (score : val) : string :=
  match int_of_value max_str_digits score with
  | Some score =>
      if (score <=? 3)%Z then "text-green-600"
      else if (score <=? 6)%Z then "text-yellow-600"
      else "text-red-600"
  | None => "text-gray-600"
  end.

(** [risk.lower()] raises AttributeError when [risk] is not a string. *)
Definition get_macro_risk_class (risk : val) : option string :=
  match risk with
  | VStr risk =>
      let risk_lower := Py.lower risk in
      Some (if Py.contains "low" risk_lower then "text-green-600"
            else if Py.contains "medium" risk_lower then "text-yellow-600"
            else "text-red-600")
  | _ => None
  end.

(** ** parse_markdown *)

(** The dictionary literal [data] starts from. *)
Definition initial_data : gmap string val :=
  <["q8" := VStr ""]> (<["q7" := VStr ""]> (<["q6" := VStr ""]>
  (<["q5" := VStr ""]> (<["q4" := VStr ""]> (<["q3" := VStr ""]>
  (<["q2" := VStr ""]> (<["q1" := VStr ""]>
  (<["key_insights" := VList []]>
  (<["moat_sources" := VStr ""]>
  (<["macro_risk" := VStr ""]>
  (<["final_classification" := VStr "TEMP_MARKER"]>
  (<["value_chain" := VStr ""]>
  (<["robotics_beneficiary" := VStr ""]>
  (<["ai_beneficiary" := VStr ""]>
  (<["robotics_score" := VStr ""]>
  (<["ai_score" := VStr ""]>
  (<["company_name" := VStr ""]>
  (<["ticker" := VStr ""]> ∅)))))))))))))))))).

(** The title loop: the groups of the first line that matches. *)
Fixpoint find_title (lines : list string) : option (string * string) :=
  match lines with
  | [] => None
  | line :: lines' =>
      match Re.match_title (Py.strip line) with
      | Some groups => Some groups
      | None => find_title lines'
      end
  end.

Definition extract_title (lines : list string) (data : gmap string val)
  : gmap string val :=
  match find_title lines with
  | Some (name, code) =>
      <["ticker" := VStr (Py.strip code)]>
        (<["company_name" := VStr (Py.strip name)]> data)
  | None => data
  end.

(** The state of the first scan of the lines. *)
Record scan_state : Type := ScanState {
  scan_data : gmap string val;
  current_section : option string;
  current_value : list string
}.

(** [if current_section and current_value]. *)
Definition pending (st : scan_state) : option string :=
  match current_section st, current_value st with
  | Some EmptyString, _ => None
  | Some section, _ :: _ => Some section
  | _, _ => None
  end.

(** The body of [if current_section and current_value:]. *)
Definition flush (st : scan_state) : gmap string val :=
  match pending st with
  | Some section =>
      if decide (section = "key_insights") then
        <[section :=
            VList (map (Py.lstrip_with (Py.char_in "- "))
                     (filter (fun l => Py.strip l <> "") (current_value st)))]>
          (scan_data st)
      else
        <[section := VStr (Py.strip (Py.join " " (current_value st)))]>
          (scan_data st)
  | None => scan_data st
  end.

(** [key.strip().rstrip('*').strip('-* ')]. *)
Definition clean_key (key : string) : string :=
  Py.strip_with (Py.char_in "-* ")
    (Py.rstrip_with (Py.char_in "*") (Py.strip key)).

Definition set_score (field value : string) (data : gmap string val)
  : gmap string val :=
  match Re.search_digits value with
  | Some digits => <[field := VStr digits]> data
  | None => data
  end.

(** The chain of [if key == ...] for one [key: val] line. *)
Definition store_pair (key value : string) (data : gmap string val)
  : gmap string val :=
  if decide (key = "AI Software Vulnerability Score") then
    set_score "ai_score" value data
  else if decide (key = "Robotics Vulnerability Score") then
    set_score "robotics_score" value data
  else if decide (key = "AI Beneficiary") then
    <["ai_beneficiary" := VStr value]> data
  else if decide (key = "Robotics Beneficiary") then
    <["robotics_beneficiary" := VStr value]> data
  else if decide (key = "Value Chain Position") then
    <["value_chain" := VStr value]> data
  else if decide (key = "Final Classification") then
    <["final_classification" := VStr value]> data
  else if decide (key = "Macro Contagion Risk") then
    <["macro_risk" := VStr value]> data
  else data.

Definition is_boundary (line : string) : bool :=
  match line with
  | EmptyString => true
  | _ => Py.startswith "#" line
  end.

(** One turn of the loop [# Parse sections]. *)
Definition scan_line (st : scan_state) (line : string) : scan_state :=
  let line := Py.strip line in
  if is_boundary line then
    ScanState (flush st) None []
  else if Py.contains ":" line then
    let '(key, _, value) := Py.partition ":" line in
    let key := clean_key key in
    let value := Py.strip value in
    ScanState (store_pair key value (scan_data st))
      (current_section st) (current_value st)
  else st.

(** The state of the second scan. *)
Record section_state : Type := SectionState {
  in_moat : bool;
  in_insights : bool;
  moat_lines : list string;
  insight_lines : list string
}.

(** One turn of the loop over the Moat Sources and Key Insights sections. *)
Definition section_line (st : section_state) (line : string)
  : section_state :=
  let line := Py.strip line in
  if decide (line = "## Moat Sources") then
    SectionState true false (moat_lines st) (insight_lines st)
  else if decide (line = "## Key Insights") then
    SectionState false true (moat_lines st) (insight_lines st)
  else if Py.startswith "## Pressure" line then
    SectionState false false (moat_lines st) (insight_lines st)
  else if in_moat st && truthy (VStr line) then
    SectionState (in_moat st) (in_insights st)
      (moat_lines st ++ [line]) (insight_lines st)
  else if in_insights st && Py.startswith "- " line then
    SectionState (in_moat st) (in_insights st)
      (moat_lines st) (insight_lines st ++ [Py.drop 2 line])
  else st.

Definition first_pass (lines : list string) (data : gmap string val)
  : scan_state :=
  foldl scan_line (ScanState data None []) lines.

Definition second_pass (lines : list string) : section_state :=
  foldl section_line (SectionState false false [] []) lines.

(** [parse_markdown], from the text of the file. *)
Definition parse_markdown (content : string) : gmap string val :=
  let lines := Py.split Py.nl content in
  let data := extract_title lines initial_data in
  let data := scan_data (first_pass lines data) in
  let sections := second_pass lines in
  <["key_insights" := VList (insight_lines sections)]>
    (<["moat_sources" :=
         VStr (Py.strip (Py.join " " (moat_lines sections)))]> data).

(** ** parse_markdown on the objects of the interpreter *)

(** [parse_markdown] builds its Record in objects that are changed in
    place: the dict [data] and the lists [current_value], [moat_lines] and
    [insight_lines]; a name and a dict entry hold a reference to such an
    object.  The definitions of this module run the statements of
    [parse_markdown] on a store of objects, so that what a call reads,
    makes and changes can be stated.  Strings are values, and so is
    [lines], the list made by [content.split], which no statement
    changes. *)
Module Mem.

(** A reference: the place of the object in the store. *)
Abbreviation ref := nat (only parsing).

(** What a dict holds under a key: a string or a reference to a list. *)
Inductive hval : Type :=
| HStr (s : string)
| HRef (r : ref).

Inductive obj : Type :=
| ODict (d : gmap string hval)
| OList (l : list string).

(** The objects made so far, the newest last. *)
Abbreviation store := (list obj) (only parsing).

(** A statement: from a store, the value and the store it ends with, or
    nothing when it raises. *)
Definition M (A : Type) : Type := store -> option (A * store).

Definition ret {A : Type} (a : A) : M A := fun h => Some (a, h).

Definition bind {A B : Type} (m : M A) (k : A -> M B) : M B :=
  fun h =>
    match m h with
    | Some (a, h') => k a h'
    | None => None
    end.

#[export] Instance store_ret : MRet M := @ret.
#[export] Instance store_bind : MBind M := fun A B k m => bind m k.

(** A display ([{...}], [[]]) and a call that returns a new list make a
    new object. *)
Definition alloc (o : obj) : M ref := fun h => Some (length h, h ++ [o]).

(** [d[k] = v]. *)
Definition setitem (r : ref) (k : string) (v : hval) : M unit :=
  fun h =>
    match h !! r with
    | Some (ODict d) => Some (tt, <[r := ODict (<[k := v]> d)]> h)
    | _ => None
    end.

(** The items of a list, read. *)
Definition get_list (r : ref) : M (list string) :=
  fun h =>
    match h !! r with
    | Some (OList l) => Some (l, h)
    | _ => None
    end.

(** [l.append(s)]. *)
Definition append (r : ref) (s : string) : M unit :=
  fun h =>
    match h !! r with
    | Some (OList l) => Some (tt, <[r := OList (l ++ [s])]> h)
    | _ => None
    end.

(** [for x in items: body], with the names the body assigns as [st]. *)
Fixpoint for_each {A S : Type} (body : S -> A -> M S) (st : S)
    (items : list A) : M S :=
  match items with
  | [] => mret st
  | x :: items' => st' ← body st x; for_each body st' items'
  end.

(** The entries of the dictionary literal, [key_insights] with its new
    list. *)
Definition initial_data (key_insights : ref) : gmap string hval :=
  <["q8" := HStr ""]> (<["q7" := HStr ""]> (<["q6" := HStr ""]>
  (<["q5" := HStr ""]> (<["q4" := HStr ""]> (<["q3" := HStr ""]>
  (<["q2" := HStr ""]> (<["q1" := HStr ""]>
  (<["key_insights" := HRef key_insights]>
  (<["moat_sources" := HStr ""]>
  (<["macro_risk" := HStr ""]>
  (<["final_classification" := HStr "TEMP_MARKER"]>
  (<["value_chain" := HStr ""]>
  (<["robotics_beneficiary" := HStr ""]>
  (<["ai_beneficiary" := HStr ""]>
  (<["robotics_score" := HStr ""]>
  (<["ai_score" := HStr ""]>
  (<["company_name" := HStr ""]>
  (<["ticker" := HStr ""]> ∅)))))))))))))))))).

(** The title loop. *)
Definition extract_title (data : ref) (lines : list string) : M unit :=
  match find_title lines with
  | Some (name, code) =>
      setitem data "company_name" (HStr (Py.strip name));;
      setitem data "ticker" (HStr (Py.strip code))
  | None => mret ()
  end.

(** [if current_section and current_value:] with its body. *)
Definition flush (data : ref) (current_section : option string)
    (current_value : ref) : M unit :=
  match current_section with
  | None | Some EmptyString => mret ()
  | Some section =>
      value ← get_list current_value;
      match value with
      | [] => mret ()
      | _ :: _ =>
          if decide (section = "key_insights") then
            cleaned ← alloc
              (OList (map (Py.lstrip_with (Py.char_in "- "))
                        (filter (fun l => Py.strip l <> "") value)));
            setitem data section (HRef cleaned)
          else
            setitem data section (HStr (Py.strip (Py.join " " value)))
      end
  end.

Definition set_score (data : ref) (field value : string) : M unit :=
  match Re.search_digits value with
  | Some digits => setitem data field (HStr digits)
  | None => mret ()
  end.

(** The chain of [if key == ...] for one [key: val] line. *)
Definition store_pair (data : ref) (key value : string) : M unit :=
  if decide (key = "AI Software Vulnerability Score") then
    set_score data "ai_score" value
  else if decide (key = "Robotics Vulnerability Score") then
    set_score data "robotics_score" value
  else if decide (key = "AI Beneficiary") then
    setitem data "ai_beneficiary" (HStr value)
  else if decide (key = "Robotics Beneficiary") then
    setitem data "robotics_beneficiary" (HStr value)
  else if decide (key = "Value Chain Position") then
    setitem data "value_chain" (HStr value)
  else if decide (key = "Final Classification") then
    setitem data "final_classification" (HStr value)
  else if decide (key = "Macro Contagion Risk") then
    setitem data "macro_risk" (HStr value)
  else mret ().

(** One turn of the loop [# Parse sections]; the names it assigns are
    [current_section] and [current_value]. *)
Definition scan_line (data : ref) (st : option string * ref) (line : string)
  : M (option string * ref) :=
  let line := Py.strip line in
  if is_boundary line then
    flush data st.1 st.2;;
    current_value ← alloc (OList []);
    mret (None, current_value)
  else if Py.contains ":" line then
    let '(key, _, value) := Py.partition ":" line in
    store_pair data (clean_key key) (Py.strip value);;
    mret st
  else mret st.

(** One turn of the loop over the two sections; the names it assigns are
    [in_moat] and [in_insights]. *)
Definition section_line (moat_lines insight_lines : ref) (st : bool * bool)
    (line : string) : M (bool * bool) :=
  let line := Py.strip line in
  if decide (line = "## Moat Sources") then mret (true, false)
  else if decide (line = "## Key Insights") then mret (false, true)
  else if Py.startswith "## Pressure" line then mret (false, false)
  else if st.1 && truthy (VStr line) then
    append moat_lines line;; mret st
  else if st.2 && Py.startswith "- " line then
    append insight_lines (Py.drop 2 line);; mret st
  else mret st.

(** [parse_markdown], from the text of the file: the reference to the
    Record. *)
Definition parse_markdown (content : string) : M ref :=
  key_insights ← alloc (OList []);
  data ← alloc (ODict (initial_data key_insights));
  let lines := Py.split Py.nl content in
  extract_title data lines;;
  current_value ← alloc (OList []);
  scanned ← for_each (scan_line data) (None, current_value) lines;
  moat_lines ← alloc (OList []);
  insight_lines ← alloc (OList []);
  flags ← for_each (section_line moat_lines insight_lines) (false, false)
             lines;
  moat ← get_list moat_lines;
  setitem data "moat_sources" (HStr (Py.strip (Py.join " " moat)));;
  setitem data "key_insights" (HRef insight_lines);;
  mret data.

(** What a reader of the store sees under an entry and in a field of a
    Record. *)
Definition value_at (h : store) (v : hval) : option val :=
  match v with
  | HStr s => Some (VStr s)
  | HRef r =>
      match h !! r with
      | Some (OList l) => Some (VList l)
      | _ => None
      end
  end.

Definition field_at (h : store) (r : ref) (k : string) : option val :=
  match h !! r with
  | Some (ODict d) => d !! k ≫= value_at h
  | _ => None
  end.

End Mem.

(** ** generate_index *)

(** The counters [stats] starts from. *)
Definition initial_stats : list (string * Z) :=
  [ ("UnsloppableBeneficiary", 0%Z);
    ("UnsloppableHighTransitionRisk", 0%Z);
    ("UnsloppableMacroExposed", 0%Z);
    ("SloppableBeneficiary", 0%Z);
    ("SloppableClankerable", 0%Z) ].

(** One entry of [company_data]. *)
Record card : Type := Card {
  Ticker : val;
  CompanyName : val;
  ClassificationShort : string;
  ClassificationClass : string;
  BadgeClass : string;
  AIScore : val;
  RoboticsScore : val;
  MoatSources : string
}.

(** [(c.get("moat_sources", "") or "")[:100] + "..."]; slicing an integer
    and adding a string to a list raise TypeError. *)
Definition moat_excerpt (c : gmap string val) : option string :=
  let v := dict_get c "moat_sources" (VStr "") in
  let v := if truthy v then v else VStr "" in
  match v with
  | VStr s => Some (Py.take 100 s +:+ "...")
  | _ => None
  end.

(** [stats[css_class] = stats.get(css_class, 0) + 1]. *)
Definition count_class (css_class : string) (stats : list (string * Z))
  : list (string * Z) :=
  assoc_set css_class (default 0%Z (assoc css_class stats) + 1)%Z stats.

(** One turn of the loop [for c in companies]. *)
Definition index_company (acc : list (string * Z) * list card)
    (c : gmap string val) : option (list (string * Z) * list card) :=
  let '(stats, company_data) := acc in
  let classification := dict_get c "final_classification" (VStr "") in
  '(badge_class, short, css_class) ← classification_lookup classification;
  let stats := count_class css_class stats in
  moat ← moat_excerpt c;
  Some (stats,
        company_data ++
        [ {| Ticker := dict_get c "ticker" (VStr "");
             CompanyName :=
               dict_get c "company_name" (dict_get c "ticker" (VStr ""));
             ClassificationShort := Py.replace Py.nl " " short;
             ClassificationClass := css_class;
             BadgeClass := badge_class;
             AIScore := dict_get c "ai_score" (VStr "N/A");
             RoboticsScore := dict_get c "robotics_score" (VStr "N/A");
             MoatSources := moat |} ]).

Fixpoint index_companies (acc : list (string * Z) * list card)
    (companies : list (gmap string val))
  : option (list (string * Z) * list card) :=
  match companies with
  | [] => Some acc
  | c :: companies' =>
      acc' ← index_company acc c; index_companies acc' companies'
  end.

(** The text one card adds to [companies_html]. *)
Definition card_html (c : card) : string :=
  String.concat "" [
    Py.nl;
    "            <a href="; Py.dq; "/unsloppable-analysis/";
    py_str (Ticker c); ".html"; Py.dq; " "; Py.nl;
    "               class="; Py.dq;
    "block bg-white p-6 rounded-lg shadow hover:shadow-md transition classification-";
    ClassificationClass c; Py.dq; ">"; Py.nl;
    "                <div class="; Py.dq; "flex justify-between items-start";
    Py.dq; ">"; Py.nl;
    "                    <div>"; Py.nl;
    "                        <h3 class="; Py.dq; "text-lg font-bold"; Py.dq;
    ">"; py_str (Ticker c); "</h3>"; Py.nl;
    "                        <p class="; Py.dq; "text-sm text-gray-600";
    Py.dq; ">"; py_str (CompanyName c); "</p>"; Py.nl;
    "                    </div>"; Py.nl;
    "                    <span class="; Py.dq;
    "px-2 py-1 text-xs font-medium rounded "; BadgeClass c; Py.dq; ">"; Py.nl;
    "                        "; Py.replace Py.nl " " (ClassificationShort c); Py.nl;
    "                    </span>"; Py.nl;
    "                </div>"; Py.nl;
    "                <div class="; Py.dq;
    "mt-4 grid grid-cols-2 gap-2 text-sm"; Py.dq; ">"; Py.nl;
    "                    <div>"; Py.nl;
    "                        <span class="; Py.dq; "text-gray-500"; Py.dq;
    ">AI Vuln:</span>"; Py.nl;
    "                        <span class="; Py.dq; "font-medium"; Py.dq; ">";
    py_str (AIScore c); "/10</span>"; Py.nl;
    "                    </div>"; Py.nl;
    "                    <div>"; Py.nl;
    "                        <span class="; Py.dq; "text-gray-500"; Py.dq;
    ">Robot Vuln:</span>"; Py.nl;
    "                        <span class="; Py.dq; "font-medium"; Py.dq; ">";
    py_str (RoboticsScore c); "/10</span>"; Py.nl;
    "                    </div>"; Py.nl;
    "                </div>"; Py.nl;
    "                <div class="; Py.dq; "mt-2 text-xs text-gray-500";
    Py.dq; ">"; Py.nl;
    "                    "; MoatSources c; Py.nl;
    "                </div>"; Py.nl;
    "            </a>"; Py.nl
  ].

(** [for key, value in stats.items(): result = result.replace(...)]. *)
Definition fill_stats (stats : list (string * Z)) (template : string)
  : string :=
  foldl (fun result kv =>
           Py.replace ("{{." +:+ kv.1 +:+ "}}") (Py.str_of_Z kv.2) result)
    template stats.

Definition companies_marker : string := "id=" +:+ Py.dq +:+ "companies" +:+ Py.dq.

(** [generate_index], from the text of [templates/index.html]. *)
Definition generate_index (template : string)
    (companies : list (gmap string val)) : option string :=
  '(stats, company_data) ← index_companies (initial_stats, []) companies;
  let result := fill_stats stats template in
  let companies_html := String.concat "" (map card_html company_data) in
  let result := Re.sub_range_blocks result in
  Some (Py.replace companies_marker
          (companies_marker +:+ ">" +:+ companies_html) result).

(** ** generate_company_page *)

(** [v.split(' - ')[0]]; AttributeError when [v] is not a string. *)
Definition before_separator (v : val) : option string :=
  match v with
  | VStr s => head (Py.split " - " s)
  | _ => None
  end.

(** The dictionary [subs], in the order of its literal. *)
Definition company_subs (max_str_digits : nat) (data : gmap string val)
  : option (list (string * val)) :=
  let classification := dict_get data "final_classification" (VStr "") in
  '(badge_class, _, _) ← classification_lookup classification;
  macro_risk ← before_separator (dict_get data "macro_risk" (VStr "Unknown"));
  macro_risk_class ← get_macro_risk_class (dict_get data "macro_risk" (VStr ""));
  Some
    [ ("Ticker", dict_get data "ticker" (VStr ""));
      ("CompanyName",
        dict_get data "company_name" (dict_get data "ticker" (VStr "")));
      ("FinalClassification",
        dict_get data "final_classification" (VStr "Unknown"));
      ("BadgeClass", VStr badge_class);
      ("AIScore", dict_get data "ai_score" (VStr "N/A"));
      ("RoboticsScore", dict_get data "robotics_score" (VStr "N/A"));
      ("AIScoreClass",
        VStr (get_score_class max_str_digits
                (dict_get data "ai_score" (VInt 0))));
      ("RoboticsScoreClass",
        VStr (get_score_class max_str_digits
                (dict_get data "robotics_score" (VInt 0))));
      ("ValueChain", dict_get data "value_chain" (VStr "Unknown"));
      ("MacroRisk", VStr macro_risk);
      ("MacroRiskClass", VStr macro_risk_class);
      ("AIBeneficiary", dict_get data "ai_beneficiary" (VStr "N/A"));
      ("RoboticsBeneficiary",
        dict_get data "robotics_beneficiary" (VStr "N/A"));
      ("MoatSources", dict_get data "moat_sources" (VStr "N/A"));
      ("KeyInsights", dict_get data "key_insights" (VList []));
      ("Q1", dict_get data "q1" (VStr "N/A"));
      ("Q2", dict_get data "q2" (VStr "N/A"));
      ("Q3", dict_get data "q3" (VStr "N/A"));
      ("Q4", dict_get data "q4" (VStr "N/A"));
      ("Q5", dict_get data "q5" (VStr "N/A"));
      ("Q6", dict_get data "q6" (VStr "N/A"));
      ("Q7", dict_get data "q7" (VStr "N/A"));
      ("Q8", dict_get data "q8" (VStr "N/A")) ].

(** One turn of [for key, value in subs.items()]: a list is passed over,
    any other value replaces the token [f"{{.{key}}}"], which is the text
    [{.key}]. *)
Definition substitute (result : string) (kv : string * val) : string :=
  match kv.2 with
  | VList _ => result
  | v => Py.replace ("{." +:+ kv.1 +:+ "}") (py_str v) result
  end.

Fixpoint chars (s : string) : list string :=
  match s with
  | EmptyString => []
  | String c s' => String c EmptyString :: chars s'
  end.

(** What [for insight in data.get("key_insights", [])] goes through: the
    items of a list, the characters of a string; an integer raises
    TypeError. *)
Definition iterate (v : val) : option (list string) :=
  match v with
  | VList l => Some l
  | VStr s => Some (chars s)
  | VInt _ => None
  end.

Definition insights_html (insights : list string) : string :=
  String.concat ""
    (map (fun insight => "<li>" +:+ insight +:+ "</li>" +:+ Py.nl) insights).

(** [generate_company_page], from the text of [templates/company.html]. *)
Definition generate_company_page (max_str_digits : nat) (template : string)
    (data : gmap string val) : option string :=
  subs ← company_subs max_str_digits data;
  let result := foldl substitute template subs in
  insights ← iterate (dict_get data "key_insights" (VList []));
  Some (Py.replace "<li>{{.}}</li>" (insights_html insights)
          (Py.replace "{{end}}" ""
             (Py.replace "{{range .KeyInsights}}" "" result))).

(** ** main *)

(** What the driver has done so far: the records kept for the index and
    the files written, the latest last, each with the path joined to
    [OUTPUT_DIR] and its text.  A path without a slash is a file of the
    output directory; one with a slash is a file of a directory below it
    or, when it starts with the slash, of a directory outside it. *)
Record run : Type := Run {
  companies : list (gmap string val);
  written : list (string * string)
}.

(** How a part of the run ends: normally, or stopped by an exception,
    with the files written before it. *)
Inductive outcome (A : Type) : Type :=
| Finished (a : A)
| Stopped (files : list (string * string)).

Arguments Finished {A} a.
Arguments Stopped {A} files.

(** One turn of [for md_file in ANALYSIS_DIR.glob("*.md")], from the text
    of the file.  The file is parsed twice and the second record is the
    one used; [data.get("ticker")] is false for a key that is absent.
    [write_ok path text] tells whether [write_text] succeeds: the file
    system refuses a path that is no usable file name (one that holds a
    NUL, one through a directory that does not exist) and the exception
    stops the run; so does an exception of the renderer. *)
Definition process_file (write_ok : string -> string -> bool)
    (max_str_digits : nat) (company_template : string)
    (r : run) (content : string) : outcome run :=
  let data := parse_markdown content in
  let data := parse_markdown content in
  match data !! "ticker" with
  | Some ticker =>
      if truthy ticker then
        match generate_company_page max_str_digits company_template data with
        | Some html =>
            let path := py_str ticker +:+ ".html" in
            if write_ok path html then
              Finished (Run (companies r ++ [data])
                          (written r ++ [(path, html)]))
            else Stopped (written r)
        | None => Stopped (written r)
        end
      else Finished r
  | None => Finished r
  end.

Fixpoint process_files (write_ok : string -> string -> bool)
    (max_str_digits : nat) (company_template : string)
    (r : run) (files : list string) : outcome run :=
  match files with
  | [] => Finished r
  | content :: files' =>
      match process_file write_ok max_str_digits company_template r content with
      | Finished r' =>
          process_files write_ok max_str_digits company_template r' files'
      | Stopped files => Stopped files
      end
  end.

(** [main]: the files written, in order, for the texts of the markdown
    files in the order [glob] gives them; the run is stopped by a write
    that the file system refuses and by an exception of a renderer, and
    the index is then not written.  The output directory is taken to be
    there or to be made by [mkdir], and the files read to be readable. *)
Definition main (write_ok : string -> string -> bool)
    (max_str_digits : nat) (company_template index_template : string)
    (files : list string) : outcome (list (string * string)) :=
  match process_files write_ok max_str_digits company_template (Run [] [])
          files with
  | Finished r =>
      match generate_index index_template (companies r) with
      | Some index_html =>
          if write_ok "index.html" index_html then
            Finished (written r ++ [("index.html", index_html)])
          else Stopped (written r)
      | None => Stopped (written r)
      end
  | Stopped files => Stopped files
  end.

(** ** Vocabulary of the properties *)

(** A string in a text: the text is some prefix, the string, some suffix. *)
Definition occurs (needle s : string) : Prop :=
  exists pre post, s = pre +:+ needle +:+ post.

(** The capital of a small letter a-z: the code point 32 below it. *)
Definition capital (c : ascii) : ascii :=
  ascii_of_nat (nat_of_ascii c - 32).

(** [mid] spells [needle], a word of small letters a-z, in some letter
    case: character by character it has the letter or its capital. *)
Fixpoint same_ignoring_case (needle mid : string) : Prop :=
  match needle, mid with
  | EmptyString, EmptyString => True
  | String a needle', String b mid' =>
      (b = a \/ b = capital a) /\ same_ignoring_case needle' mid'
  | _, _ => False
  end.

(** A word of small letters in a text, letter case ignored: some part of
    the text spells the word in some letter case. *)
Definition occurs_ignoring_case (needle s : string) : Prop :=
  exists pre mid post,
    s = pre +:+ mid +:+ post /\ same_ignoring_case needle mid.

(** [t] is the part of [s] before the first occurrence of [sep], or all of
    [s] when [sep] does not occur. *)
Definition before_first (sep s t : string) : Prop :=
  (~ occurs sep s /\ t = s)
  \/ (exists rest, s = t +:+ sep +:+ rest
      /\ forall pre post, s = pre +:+ sep +:+ post ->
                          String.length t <= String.length pre).

Fixpoint all_chars (p : ascii -> bool) (s : string) : bool :=
  match s with
  | EmptyString => true
  | String c s' => p c && all_chars p s'
  end.

Definition no_digit (s : string) : bool :=
  all_chars (fun c => negb (Py.isdigit c)) s.

(** [run] is the first maximal run of digits of [value]: no digit before
    it, digits only, and no digit right after it. *)
Definition first_digit_run (value run : string) : Prop :=
  exists pre post,
    value = pre +:+ run +:+ post
    /\ no_digit pre = true
    /\ run <> "" /\ all_chars Py.isdigit run = true
    /\ match post with
       | EmptyString => True
       | String c _ => Py.isdigit c = false
       end.

(** The fields of a Record that hold a string. *)
Definition string_fields : list string :=
  [ "ticker"; "company_name"; "ai_score"; "robotics_score";
    "ai_beneficiary"; "robotics_beneficiary"; "value_chain";
    "final_classification"; "macro_risk"; "moat_sources";
    "q1"; "q2"; "q3"; "q4"; "q5"; "q6"; "q7"; "q8" ].

(** A Record of the data model: every string field holds a string and
    [key_insights] holds a list. *)
Definition wf_record (d : gmap string val) : Prop :=
  Forall (fun k => exists s, d !! k = Some (VStr s)) string_fields
  /\ exists l, d !! "key_insights" = Some (VList l).

(** The fields the first scan may write, one per recognised key. *)
Definition overview_fields : list string :=
  [ "ai_score"; "robotics_score"; "ai_beneficiary"; "robotics_beneficiary";
    "value_chain"; "final_classification"; "macro_risk" ].

(** The first scan holds no section: what is true of every state it
    reaches. *)
Definition no_section (st : scan_state) : Prop :=
  current_section st = None /\ current_value st = [].

(** The number of records whose classification is [label]. *)
Definition count_label (label : string) (companies : list (gmap string val))
  : nat :=
  length (filter (fun c => c !! "final_classification" = Some (VStr label))
            companies).

(** The labels of the classification table. *)
Definition known_labels : list string := map fst CLASSIFICATION_MAP.

(** A heading that sets or clears the flags of the second scan. *)
Definition is_toggle (line : string) : bool :=
  bool_decide (line = "## Moat Sources")
  || bool_decide (line = "## Key Insights")
  || Py.startswith "## Pressure" line.




(** The two keys that hold a score, each with its field. *)
Definition score_keys : list (string * string) :=
  [ ("AI Software Vulnerability Score", "ai_score");
    ("Robotics Vulnerability Score", "robotics_score") ].

(** What the first scan reads on a line: the cleaned key and the trimmed
    value when the line is a [key: value] pair, nothing on a blank line,
    a heading or a line without a colon. *)
Definition line_pair (line : string) : option (string * string) :=
  let line := Py.strip line in
  if is_boundary line then None
  else if Py.contains ":" line then
    Some (clean_key (Py.partition ":" line).1.1,
          Py.strip (Py.partition ":" line).2)
  else None.

(** The line has the key [key]. *)
Definition has_key (key line : string) : Prop :=
  exists value, line_pair line = Some (key, value).

(** The keys whose value is stored as it is, each with its field. *)
Definition verbatim_keys : list (string * string) :=
  [ ("AI Beneficiary", "ai_beneficiary");
    ("Robotics Beneficiary", "robotics_beneficiary");
    ("Value Chain Position", "value_chain");
    ("Final Classification", "final_classification");
    ("Macro Contagion Risk", "macro_risk") ].

(** All the recognised keys. *)
Definition overview_keys : list (string * string) :=
  score_keys ++ verbatim_keys.

(** The two score fields hold digits only. *)
Definition digit_scores (d : gmap string val) : Prop :=
  Forall (fun field =>
            exists s, d !! field = Some (VStr s)
                      /\ all_chars Py.isdigit s = true)
    ["ai_score"; "robotics_score"].

(** The lines of a section that are not blank, trimmed. *)
Definition paragraph (body : list string) : list string :=
  filter (fun line => line <> "") (map Py.strip body).

(** The driver keeps the document: its Record has a ticker that is not
    empty. *)
Definition has_ticker (content : string) : bool :=
  match parse_markdown content !! "ticker" with
  | Some ticker => truthy ticker
  | None => false
  end.

(** The name of the detail page of a document. *)
Definition page_name (content : string) : string :=
  py_str (dict_get (parse_markdown content) "ticker" (VStr "")) +:+ ".html".

(** The sum of the counters. *)
Definition total (stats : list (string * Z)) : Z :=
  foldr (fun kv acc => (kv.2 + acc)%Z) 0%Z stats.

(** The card of a Record of the data model. *)
Definition card_of (c : gmap string val) : card :=
  let entry :=
    default classification_default
      (assoc (py_str (dict_get c "final_classification" (VStr "")))
         CLASSIFICATION_MAP) in
  {| Ticker := dict_get c "ticker" (VStr "");
     CompanyName := dict_get c "company_name" (dict_get c "ticker" (VStr ""));
     ClassificationShort := Py.replace Py.nl " " entry.1.2;
     ClassificationClass := entry.2;
     BadgeClass := entry.1.1;
     AIScore := dict_get c "ai_score" (VStr "N/A");
     RoboticsScore := dict_get c "robotics_score" (VStr "N/A");
     MoatSources :=
       Py.take 100 (py_str (dict_get c "moat_sources" (VStr ""))) +:+ "..." |}.

(** A title line: the heading marker, white space, a name without an
    opening parenthesis, white space, and a code without a closing
    parenthesis between parentheses. *)
Definition title_shape (line name code : string) : Prop :=
  exists ws1 ws2 rest,
    line = "#" +:+ ws1 +:+ name +:+ ws2 +:+ "(" +:+ code +:+ ")" +:+ rest
    /\ ws1 <> "" /\ all_chars Py.isspace ws1 = true
    /\ name <> "" /\ all_chars (Re.not_char "(") name = true
    /\ ws2 <> "" /\ all_chars Py.isspace ws2 = true
    /\ code <> "" /\ all_chars (Re.not_char ")") code = true.

(** The lists of [h] are in [h'] with the same items. *)
Definition keeps_lists (h h' : Mem.store) : Prop :=
  forall r l, h !! r = Some (Mem.OList l) -> h' !! r = Some (Mem.OList l).

(** The entries of the dict [D] read, in the store [h], as the Record
    [d]. *)
Definition reads_as (h : Mem.store) (D : gmap string Mem.hval)
    (d : gmap string val) : Prop :=
  forall k,
    option_Forall2 (fun hv v => Mem.value_at h hv = Some v) (D !! k) (d !! k).

(** The object at [r] is a dict that reads as the Record [d]. *)
Definition record_at (h : Mem.store) (r : Mem.ref) (d : gmap string val)
  : Prop :=
  exists D, h !! r = Some (Mem.ODict D) /\ reads_as h D d.

(** What holds of the store while [parse_markdown] runs from the store
    [h0]: the objects of [h0] are as they were, and [data] is a new dict
    that reads as [d]. *)
Definition running (h0 : Mem.store) (data : Mem.ref) (d : gmap string val)
    (h : Mem.store) : Prop :=
  h0 `prefix_of` h /\ length h0 <= data /\ record_at h data d.

(** ** Sample documents *)

(** The document of the end-to-end scenario. *)
Definition acme_document : string :=
  Py.join Py.nl
    [ "# Acme Robotics (ACME)";
      "";
      "- **Final Classification**: Unsloppable + Beneficiary";
      "- **AI Software Vulnerability Score**: 2";
      "- **Macro Contagion Risk**: Low - little exposure to credit";
      "";
      "## Moat Sources";
      "Installed base and service contracts.";
      "";
      "## Key Insights";
      "- Alpha";
      "- Beta";
      "";
      "## Pressure Test";
      "- Gamma" ].

(** A document with a label outside the table and no score. *)
Definition other_document : string :=
  Py.join Py.nl
    [ "# Borealis Mining (BOR)";
      "Final Classification: Under review";
      "AI Software Vulnerability Score: n/a" ].

(** A document with its macro risk in capitals. *)
Definition capitals_document : string :=
  Py.join Py.nl
    [ "# Delta Freight (DLT)";
      "Macro Contagion Risk: MEDIUM - Fuel And Credit" ].



(** A document with two lines for one score, the later one with no
    digit. *)
Definition rescored_document : string :=
  Py.join Py.nl
    [ "# Acme (ACME)";
      "AI Software Vulnerability Score: 7/10";
      "AI Software Vulnerability Score: n/a" ].

(** A document with no title line. *)
Definition untitled_document : string :=
  Py.join Py.nl
    [ "Acme Robotics";
      "Final Classification: Unsloppable + Beneficiary" ].

(** A document whose code holds a slash. *)
Definition slash_document : string := "# Slash Co (A/B)".

(** A document whose title has a code and white space for a name. *)
Definition nameless_document : string := "#   (ACME)".

(** * Properties *)

(** ** Strings *)

Lemma app_cons (c : ascii) (s t : string) :
  String c s +:+ t = String c (s +:+ t).
Proof. reflexivity. Qed.

Lemma app_empty_l (s : string) : "" +:+ s = s.
Proof. reflexivity. Qed.

Lemma app_empty_r (s : string) : s +:+ "" = s.
Proof. induction s as [|c s IH]; [done|]. by rewrite app_cons, IH. Qed.

Lemma app_assoc_str (a b c : string) : (a +:+ b) +:+ c = a +:+ (b +:+ c).
Proof. induction a as [|x a IH]; [done|]. by rewrite !app_cons, IH. Qed.

Lemma length_app_str (a b : string) :
  String.length (a +:+ b) = String.length a + String.length b.
Proof. induction a as [|x a IH]; [done|]. rewrite app_cons. simpl. by rewrite IH. Qed.

Lemma startswith_spec (p s : string) :
  Py.startswith p s = true <-> exists r, s = p +:+ r.
Proof.
  revert s. induction p as [|a p IH]; intros s; simpl.
  - split; [eauto|done].
  - destruct s as [|b s].
    + split; [done|]. intros [r Hr]. by rewrite app_cons in Hr.
    + destruct (ascii_dec a b) as [->|Hne].
      * rewrite IH. split; intros [r Hr]; exists r.
        -- by rewrite app_cons, Hr.
        -- rewrite app_cons in Hr. by injection Hr.
      * split; [done|]. intros [r Hr]. rewrite app_cons in Hr.
        injection Hr as Hab _. by destruct Hne.
Qed.

Lemma contains_spec (needle s : string) :
  Py.contains needle s = true <-> occurs needle s.
Proof.
  induction s as [|c s IH].
  - simpl. rewrite orb_false_r, startswith_spec. split.
    + intros [r Hr]. by exists "", r.
    + intros ([|x pre] & post & H).
      * by exists post.
      * by rewrite app_cons in H.
  - simpl. rewrite orb_true_iff, startswith_spec, IH. split.
    + intros [[r Hr]|(pre & post & H)].
      * by exists "", r.
      * exists (String c pre), post. by rewrite app_cons, H.
    + intros ([|x pre] & post & H).
      * left. by exists post.
      * right. rewrite app_cons in H. injection H as _ H. by exists pre, post.
Qed.

Lemma take_drop_str (n : nat) (s : string) : Py.take n s +:+ Py.drop n s = s.
Proof.
  revert s. induction n as [|n IH]; intros [|c s]; simpl; try done.
  by rewrite app_cons, IH.
Qed.

Lemma length_take_str (n : nat) (s : string) :
  String.length (Py.take n s) = Nat.min n (String.length s).
Proof.
  revert s. induction n as [|n IH]; intros [|c s]; simpl; try done.
  by rewrite IH.
Qed.

Lemma drop_app_length (a b : string) : Py.drop (String.length a) (a +:+ b) = b.
Proof. induction a as [|x a IH]; [by destruct b|]. rewrite app_cons. by simpl. Qed.

Lemma lower_app (a b : string) : Py.lower (a +:+ b) = Py.lower a +:+ Py.lower b.
Proof. induction a as [|x a IH]; [done|]. rewrite app_cons. simpl. by rewrite IH, app_cons. Qed.

Lemma lower_app_inv (s a b : string) :
  Py.lower s = a +:+ b ->
  exists s1 s2, s = s1 +:+ s2 /\ Py.lower s1 = a /\ Py.lower s2 = b.
Proof.
  revert s. induction a as [|x a IH]; intros s H.
  - by exists "", s.
  - destruct s as [|c s]; [done|]. simpl in H. rewrite app_cons in H.
    injection H as Hc H. destruct (IH _ H) as (s1 & s2 & -> & H1 & H2).
    exists (String c s1), s2. simpl. by rewrite Hc, H1.
Qed.

Lemma in_range_spec (lo hi : nat) (c : ascii) :
  Py.in_range lo hi c = true <-> (lo <= nat_of_ascii c <= hi)%nat.
Proof.
  unfold Py.in_range. cbv zeta.
  rewrite andb_true_iff, !Nat.leb_le. tauto.
Qed.

Lemma nat_of_ascii_inj (x y : ascii) : nat_of_ascii x = nat_of_ascii y -> x = y.
Proof.
  intros H. rewrite <- (ascii_nat_embedding x), <- (ascii_nat_embedding y).
  by rewrite H.
Qed.

(** The code points [str.lower] sends to a small letter a-z are the
    letter and its capital. *)
Lemma lower_char_small (a b : ascii) :
  Py.in_range 97 122 a = true ->
  Py.lower_char b = a <-> b = a \/ b = capital a.
Proof.
  intros Ha%in_range_spec.
  pose proof (nat_ascii_bounded b) as Hb.
  unfold Py.lower_char, capital.
  destruct (Py.in_range 65 90 b) eqn:E1; simpl.
  - apply in_range_spec in E1. split.
    + intros H. right. apply nat_of_ascii_inj.
      apply (f_equal nat_of_ascii) in H.
      rewrite nat_ascii_embedding in H |- * by lia. lia.
    + intros [->| ->]; [lia|].
      apply nat_of_ascii_inj.
      rewrite nat_ascii_embedding in E1 by lia.
      rewrite !nat_ascii_embedding; rewrite ?nat_ascii_embedding; lia.
  - assert (~ (65 <= nat_of_ascii b <= 90)%nat) as Hn1.
    { intros H%in_range_spec. congruence. }
    destruct (Py.in_range 192 222 b && negb (Py.in_range 215 215 b)) eqn:E2.
    + apply andb_true_iff in E2 as [E2%in_range_spec _]. split.
      * intros H. apply (f_equal nat_of_ascii) in H.
        rewrite nat_ascii_embedding in H by lia. lia.
      * intros [->| ->]; [lia|].
        rewrite nat_ascii_embedding in E2 by lia. lia.
    + split; [by left|]. intros [->| ->]; [done|].
      rewrite nat_ascii_embedding in Hn1 by lia. lia.
Qed.

Lemma lower_same (needle mid : string) :
  all_chars (Py.in_range 97 122) needle = true ->
  Py.lower mid = needle <-> same_ignoring_case needle mid.
Proof.
  revert mid. induction needle as [|a needle IH]; intros [|b mid] Hn; simpl;
    try (split; [done|tauto]).
  simpl in Hn. apply andb_true_iff in Hn as [Ha Hn].
  rewrite <- (IH mid Hn), <- (lower_char_small a b Ha).
  split; [by intros [= -> ->]|by intros [-> ->]].
Qed.

Lemma contains_lower_spec (needle s : string) :
  all_chars (Py.in_range 97 122) needle = true ->
  Py.contains needle (Py.lower s) = true <-> occurs_ignoring_case needle s.
Proof.
  intros Hn. rewrite contains_spec. split.
  - intros (pre & post & H).
    apply lower_app_inv in H as (s1 & s2 & -> & H1 & H2).
    apply lower_app_inv in H2 as (s3 & s4 & -> & H3 & H4).
    exists s1, s3, s4. split; [done|]. by apply lower_same.
  - intros (pre & mid & post & -> & H%lower_same); [|done].
    exists (Py.lower pre), (Py.lower post). by rewrite !lower_app, H.
Qed.

Lemma split_first_Some (sep s a b : string) :
  Py.split_first sep s = Some (a, b) -> s = a +:+ sep +:+ b.
Proof.
  revert a b. induction s as [|c s IH]; intros a b; simpl.
  - destruct (Py.startswith sep "") eqn:E; [|done].
    intros [= <- <-]. apply startswith_spec in E as [r Hr].
    destruct sep; [done|by rewrite app_cons in Hr].
  - destruct (Py.startswith sep (String c s)) eqn:E.
    + intros [= <- <-]. apply startswith_spec in E as [r Hr].
      by rewrite Hr, drop_app_length.
    + destruct (Py.split_first sep s) as [[a' b']|]; [|done].
      intros [= <- <-]. by rewrite app_cons, <- (IH a' b').
Qed.

Lemma split_first_least (sep s a b pre post : string) :
  Py.split_first sep s = Some (a, b) -> s = pre +:+ sep +:+ post ->
  String.length a <= String.length pre.
Proof.
  revert a b pre. induction s as [|c s IH]; intros a b pre; simpl.
  - destruct (Py.startswith sep ""); [|done]. intros [= <- <-] _. simpl. lia.
  - destruct (Py.startswith sep (String c s)) eqn:E.
    + intros [= <- <-] _. simpl. lia.
    + destruct (Py.split_first sep s) as [[a' b']|] eqn:E'; [|done].
      intros [= <- <-] H. destruct pre as [|x pre].
      * assert (Py.startswith sep (String c s) = true) as E2
          by (apply startswith_spec; by exists post).
        congruence.
      * rewrite app_cons in H. injection H as _ H. simpl.
        specialize (IH a' b' pre eq_refl H). lia.
Qed.

Lemma split_first_None (sep s : string) :
  Py.split_first sep s = None <-> Py.contains sep s = false.
Proof.
  induction s as [|c s IH]; simpl.
  - destruct (Py.startswith sep ""); simpl; split; done.
  - destruct (Py.startswith sep (String c s)); simpl; [split; done|].
    rewrite <- IH. destruct (Py.split_first sep s) as [[??]|]; split; done.
Qed.

Lemma head_split (sep s : string) :
  head (Py.split sep s)
  = Some (match Py.split_first sep s with Some (a, _) => a | None => s end).
Proof.
  unfold Py.split. induction s as [|c s IH]; simpl.
  - destruct (Py.startswith sep ""); done.
  - destruct (Py.startswith sep (String c s)); [done|].
    destruct (Py.split_go sep 0 s) as [|h t]; [done|]. simpl in *.
    injection IH as ->. by destruct (Py.split_first sep s) as [[??]|].
Qed.

Lemma before_separator_spec (sep s t : string) :
  head (Py.split sep s) = Some t -> before_first sep s t.
Proof.
  rewrite head_split. intros [= <-].
  destruct (Py.split_first sep s) as [[a b]|] eqn:E.
  - right. exists b. split; [by apply split_first_Some|].
    intros pre post. by apply split_first_least with (b := b).
  - left. split; [|done]. apply split_first_None in E.
    intros H%contains_spec. congruence.
Qed.

Lemma take_while_digits (s : string) :
  exists post,
    s = Re.take_while Py.isdigit s +:+ post
    /\ all_chars Py.isdigit (Re.take_while Py.isdigit s) = true
    /\ match post with
       | EmptyString => True
       | String c _ => Py.isdigit c = false
       end.
Proof.
  induction s as [|c s (post & Hs & Hall & Hpost)]; simpl.
  - by exists "".
  - destruct (Py.isdigit c) eqn:E.
    + exists post. rewrite app_cons, <- Hs. simpl. by rewrite E.
    + exists (String c s). by rewrite E.
Qed.

Lemma search_digits_Some (value run : string) :
  Re.search_digits value = Some run -> first_digit_run value run.
Proof.
  revert run. induction value as [|c s IH]; intros run; simpl; [done|].
  destruct (Py.isdigit c) eqn:E.
  - intros [= <-]. destruct (take_while_digits (String c s)) as (post & Hs & Hall & Hpost).
    simpl in Hs, Hall. rewrite E in Hs, Hall.
    exists "", post. by repeat split.
  - intros H. destruct (IH _ H) as (pre & post & -> & Hpre & Hne & Hall & Hpost).
    exists (String c pre), post. repeat split; try done.
    unfold no_digit in *. simpl. by rewrite E.
Qed.

Lemma search_digits_None (value : string) :
  Re.search_digits value = None <-> no_digit value = true.
Proof.
  unfold no_digit. induction value as [|c s IH]; simpl; [done|].
  destruct (Py.isdigit c); simpl; [split; done|done].
Qed.

Lemma lstrip_with_keep (p : ascii -> bool) (c : ascii) (s : string) :
  p c = false -> Py.lstrip_with p (String c s) = String c s.
Proof. intros H. simpl. by rewrite H. Qed.

Lemma rstrip_with_keep (p : ascii -> bool) (c : ascii) (s : string) :
  p c = false -> exists r, Py.rstrip_with p (String c s) = String c r.
Proof.
  intros H. simpl. destruct (Py.rstrip_with p s); [|by eauto].
  rewrite H. by eauto.
Qed.

Lemma strip_with_keep (p : ascii -> bool) (c : ascii) (s : string) :
  p c = false -> exists r, Py.strip_with p (String c s) = String c r.
Proof.
  intros H. unfold Py.strip_with. rewrite lstrip_with_keep by done.
  by apply rstrip_with_keep.
Qed.

Lemma clean_key_hash (key : string) :
  exists r, clean_key (String "#" key) = String "#" r.
Proof.
  unfold clean_key, Py.strip.
  destruct (strip_with_keep Py.isspace "#" key eq_refl) as [r1 ->].
  destruct (rstrip_with_keep (Py.char_in "*") "#" r1 eq_refl) as [r2 ->].
  by apply strip_with_keep.
Qed.

(** ** The parser *)

Lemma key_insights_not_string_field : "key_insights" ∉ string_fields.
Proof.
  unfold string_fields. intros H.
  repeat (apply elem_of_cons in H as [H|H]; [done|]).
  by apply elem_of_nil in H.
Qed.

Lemma wf_record_initial : wf_record initial_data.
Proof. split; [repeat constructor; by eexists | by eexists]. Qed.

Lemma wf_record_insert_str (k s : string) (d : gmap string val) :
  k ∈ string_fields -> wf_record d -> wf_record (<[k := VStr s]> d).
Proof.
  intros Hk [Hs [l Hl]]. split.
  - eapply Forall_impl; [exact Hs|]. intros k' [s' H]. simpl.
    destruct (decide (k = k')) as [->|Hne].
    + exists s. apply lookup_insert_eq.
    + exists s'. by rewrite lookup_insert_ne.
  - exists l. rewrite lookup_insert_ne; [done|].
    intros ->. by apply key_insights_not_string_field.
Qed.

Lemma wf_record_insert_list (l : list string) (d : gmap string val) :
  wf_record d -> wf_record (<["key_insights" := VList l]> d).
Proof.
  intros [Hs _]. split.
  - apply Forall_forall. intros k Hk.
    rewrite Forall_forall in Hs. destruct (Hs k Hk) as [s H].
    exists s. rewrite lookup_insert_ne; [done|].
    intros <-. by apply key_insights_not_string_field.
  - exists l. apply lookup_insert_eq.
Qed.

Lemma wf_record_string (k : string) (d : gmap string val) :
  wf_record d -> k ∈ string_fields -> exists s, d !! k = Some (VStr s).
Proof. intros [Hs _] Hk. rewrite Forall_forall in Hs. by apply Hs. Qed.

Lemma wf_record_extract_title (lines : list string) (d : gmap string val) :
  wf_record d -> wf_record (extract_title lines d).
Proof.
  intros H. unfold extract_title.
  destruct (find_title lines) as [[name code]|]; [|done].
  apply wf_record_insert_str; [set_solver|].
  apply wf_record_insert_str; [set_solver|done].
Qed.

Lemma wf_record_store_pair (key value : string) (d : gmap string val) :
  wf_record d -> wf_record (store_pair key value d).
Proof.
  intros H. unfold store_pair, set_score.
  repeat case_decide; repeat case_match; try done;
    (apply wf_record_insert_str; [set_solver|done]).
Qed.

Lemma store_pair_other (key value k : string) (d : gmap string val) :
  k ∉ overview_fields -> store_pair key value d !! k = d !! k.
Proof.
  intros Hk. unfold store_pair, set_score.
  repeat case_decide; repeat case_match; try done;
    (rewrite lookup_insert_ne; [done|]; intros <-; apply Hk; set_solver).
Qed.

Lemma no_section_pending (st : scan_state) : no_section st -> pending st = None.
Proof. intros [H1 H2]. unfold pending. by rewrite H1. Qed.

Lemma no_section_flush (st : scan_state) :
  no_section st -> flush st = scan_data st.
Proof. intros H. unfold flush. by rewrite no_section_pending. Qed.

Lemma scan_line_no_section (st : scan_state) (line : string) :
  no_section st -> no_section (scan_line st line).
Proof.
  intros H. unfold scan_line.
  destruct (is_boundary (Py.strip line)); [done|].
  destruct (Py.contains ":" (Py.strip line)); [|done].
  by destruct (Py.partition ":" (Py.strip line)) as [[key sep] value].
Qed.

Lemma scan_line_wf (st : scan_state) (line : string) :
  no_section st -> wf_record (scan_data st) ->
  wf_record (scan_data (scan_line st line)).
Proof.
  intros Hn H. unfold scan_line.
  destruct (is_boundary (Py.strip line)); [simpl; by rewrite no_section_flush|].
  destruct (Py.contains ":" (Py.strip line)); [|done].
  destruct (Py.partition ":" (Py.strip line)) as [[key sep] value]. simpl.
  by apply wf_record_store_pair.
Qed.

Lemma scan_line_other (st : scan_state) (line k : string) :
  no_section st -> k ∉ overview_fields ->
  scan_data (scan_line st line) !! k = scan_data st !! k.
Proof.
  intros Hn Hk. unfold scan_line.
  destruct (is_boundary (Py.strip line)); [simpl; by rewrite no_section_flush|].
  destruct (Py.contains ":" (Py.strip line)); [|done].
  destruct (Py.partition ":" (Py.strip line)) as [[key sep] value]. simpl.
  by apply store_pair_other.
Qed.

Lemma scan_lines_no_section (lines : list string) (st : scan_state) :
  no_section st -> no_section (foldl scan_line st lines).
Proof.
  revert st. induction lines as [|line lines IH]; intros st H; simpl; [done|].
  by apply IH, scan_line_no_section.
Qed.

Lemma scan_lines_wf (lines : list string) (st : scan_state) :
  no_section st -> wf_record (scan_data st) ->
  wf_record (scan_data (foldl scan_line st lines)).
Proof.
  revert st. induction lines as [|line lines IH]; intros st Hn H; simpl; [done|].
  apply IH; [by apply scan_line_no_section|by apply scan_line_wf].
Qed.

Lemma scan_lines_other (lines : list string) (st : scan_state) (k : string) :
  no_section st -> k ∉ overview_fields ->
  scan_data (foldl scan_line st lines) !! k = scan_data st !! k.
Proof.
  revert st. induction lines as [|line lines IH]; intros st Hn Hk; simpl; [done|].
  rewrite IH; [by apply scan_line_other|by apply scan_line_no_section|done].
Qed.

Lemma parse_markdown_wf (content : string) : wf_record (parse_markdown content).
Proof.
  unfold parse_markdown, first_pass.
  apply wf_record_insert_list, wf_record_insert_str; [set_solver|].
  apply scan_lines_wf; [done|]. simpl.
  apply wf_record_extract_title, wf_record_initial.
Qed.

(** ** The index page *)

Lemma dict_get_Some (d : gmap string val) (k : string) (v dflt : val) :
  d !! k = Some v -> dict_get d k dflt = v.
Proof. intros H. unfold dict_get. by rewrite H. Qed.

Lemma take_all (n : nat) (s : string) :
  String.length s <= n -> Py.take n s = s.
Proof.
  revert s. induction n as [|n IH]; intros [|c s] H; simpl in *; try done; [lia|].
  rewrite IH; [done|lia].
Qed.

Lemma moat_excerpt_str (c : gmap string val) (s : string) :
  c !! "moat_sources" = Some (VStr s) ->
  moat_excerpt c = Some (Py.take 100 s +:+ "...").
Proof.
  intros H. unfold moat_excerpt. rewrite (dict_get_Some _ _ _ _ H).
  by destruct s.
Qed.

Lemma assoc_assoc_set {A : Type} (k k' : string) (v : A) (l : list (string * A)) :
  assoc k' (assoc_set k v l) = if decide (k = k') then Some v else assoc k' l.
Proof.
  induction l as [|[k0 v0] l IH]; simpl.
  - done.
  - destruct (decide (k0 = k)) as [->|Hne]; simpl.
    + by destruct (decide (k = k')).
    + destruct (decide (k0 = k')) as [->|Hne'].
      * by rewrite decide_False by done.
      * done.
Qed.

Lemma index_company_wf (stats : list (string * Z)) (cards : list card)
    (c : gmap string val) :
  wf_record c ->
  exists s m css,
    c !! "final_classification" = Some (VStr s)
    /\ c !! "moat_sources" = Some (VStr m)
    /\ classification_lookup (VStr s)
       = Some (css.1.1, css.1.2, css.2)
    /\ index_company (stats, cards) c
       = Some (count_class css.2 stats,
               cards ++
               [ {| Ticker := dict_get c "ticker" (VStr "");
                    CompanyName :=
                      dict_get c "company_name" (dict_get c "ticker" (VStr ""));
                    ClassificationShort := Py.replace Py.nl " " css.1.2;
                    ClassificationClass := css.2;
                    BadgeClass := css.1.1;
                    AIScore := dict_get c "ai_score" (VStr "N/A");
                    RoboticsScore := dict_get c "robotics_score" (VStr "N/A");
                    MoatSources := Py.take 100 m +:+ "..." |} ]).
Proof.
  intros Hwf.
  destruct (wf_record_string "final_classification" c Hwf) as [s Hs]; [set_solver|].
  destruct (wf_record_string "moat_sources" c Hwf) as [m Hm]; [set_solver|].
  exists s, m, (default classification_default (assoc s CLASSIFICATION_MAP)).
  repeat split; try done.
  - simpl. by destruct (default _ _) as [[??]?].
  - unfold index_company. rewrite (dict_get_Some _ _ _ _ Hs). simpl.
    destruct (default _ _) as [[badge short] css]. simpl.
    by rewrite (moat_excerpt_str _ _ Hm).
Qed.

Lemma classification_lookup_id (s label : string) (x : string * string * string) :
  (label, x) ∈ CLASSIFICATION_MAP ->
  (default classification_default (assoc s CLASSIFICATION_MAP)).2 = x.2
  <-> s = label.
Proof.
  intros H. unfold CLASSIFICATION_MAP in *.
  repeat (apply elem_of_cons in H as [[= -> ->]|H]);
    [..|by apply elem_of_nil in H];
    simpl; repeat case_decide; subst; simpl; split; done.
Qed.

Lemma count_label_cons (label : string) (c : gmap string val)
    (companies : list (gmap string val)) :
  count_label label (c :: companies)
  = (if decide (c !! "final_classification" = Some (VStr label)) then 1 else 0)
    + count_label label companies.
Proof.
  unfold count_label. case_decide.
  - by rewrite filter_cons_True.
  - by rewrite filter_cons_False.
Qed.

Lemma index_companies_counts (companies : list (gmap string val)) :
  forall stats cards,
    Forall wf_record companies ->
    exists stats' cards',
      index_companies (stats, cards) companies = Some (stats', cards')
      /\ length cards' = length cards + length companies
      /\ forall label x n,
           (label, x) ∈ CLASSIFICATION_MAP ->
           assoc x.2 stats = Some n ->
           assoc x.2 stats'
           = Some (n + Z.of_nat (count_label label companies))%Z.
Proof.
  induction companies as [|c companies IH]; intros stats cards Hwf.
  - exists stats, cards. repeat split; [simpl; lia|].
    intros label x n _ H. rewrite H. apply (f_equal Some).
    unfold count_label. simpl. lia.
  - apply Forall_cons in Hwf as [Hc Hwf].
    destruct (index_company_wf stats cards c Hc) as (s & m & css & Hs & Hm & Hl & Hi).
    change (index_companies (stats, cards) (c :: companies))
      with (index_company (stats, cards) c ≫= fun acc => index_companies acc companies).
    rewrite Hi. simpl.
    destruct (IH (count_class css.2 stats)
                (cards ++ [ {| Ticker := dict_get c "ticker" (VStr "");
                    CompanyName :=
                      dict_get c "company_name" (dict_get c "ticker" (VStr ""));
                    ClassificationShort := Py.replace Py.nl " " css.1.2;
                    ClassificationClass := css.2;
                    BadgeClass := css.1.1;
                    AIScore := dict_get c "ai_score" (VStr "N/A");
                    RoboticsScore := dict_get c "robotics_score" (VStr "N/A");
                    MoatSources := Py.take 100 m +:+ "..." |} ]) Hwf)
      as (stats' & cards' & Hrun & Hlen & Hcount).
    exists stats', cards'. split; [done|]. split.
    { rewrite Hlen, length_app. simpl. lia. }
    intros label x n Hx Hn.
    assert (css.2 = x.2 <-> s = label) as Hiff.
    { simpl in Hl. injection Hl as Hl.
      rewrite <- (classification_lookup_id s label x Hx).
      destruct (default _ _) as [[??]?]. destruct css as [[??]?].
      simpl in *. by simplify_eq. }
    rewrite count_label_cons, Hs. unfold count_class in Hcount.
    destruct (decide (s = label)) as [->|Hne].
    + rewrite decide_True by done.
      erewrite Hcount; [|done|].
      2:{ rewrite assoc_assoc_set. rewrite (proj2 Hiff eq_refl).
          rewrite decide_True by done. by rewrite Hn. }
      change (default 0%Z (Some n)) with n. apply (f_equal Some). lia.
    + rewrite decide_False by congruence.
      erewrite Hcount; [|done|].
      2:{ rewrite assoc_assoc_set. rewrite decide_False; [done|].
          intros H. by apply Hiff in H. }
      apply (f_equal Some). lia.
Qed.

(** C3: the counters start at zero for exactly the five identifiers of
    the classification table; over any sequence of Records the index
    loop ends, and the counter of each known identifier is the number of
    Records whose [final_classification] is the label of that identifier;
    a label outside the table gets the default tuple (gray badge,
    "Unknown", empty identifier), so it is counted by none of the five. *)
Theorem index_counts_known_classifications
    (companies : list (gmap string val)) :
  Forall wf_record companies ->
  initial_stats
  = map (fun entry => (entry.2.2, 0%Z)) CLASSIFICATION_MAP
  /\ (exists stats cards,
        index_companies (initial_stats, []) companies = Some (stats, cards)
        /\ forall label x,
             (label, x) ∈ CLASSIFICATION_MAP ->
             assoc x.2 stats = Some (Z.of_nat (count_label label companies)))
  /\ (forall s, s ∉ known_labels ->
        classification_lookup (VStr s)
        = Some ("bg-gray-100 text-gray-800", "Unknown", "")
        /\ forall stats label x,
             (label, x) ∈ CLASSIFICATION_MAP ->
             assoc x.2 (count_class "" stats) = assoc x.2 stats).
Proof.
  intros Hwf. split; [done|]. split.
  - destruct (index_companies_counts companies initial_stats [] Hwf)
      as (stats & cards & Hrun & _ & Hcount).
    exists stats, cards. split; [done|]. intros label x Hx.
    rewrite (Hcount label x 0%Z Hx); [done|].
    unfold CLASSIFICATION_MAP in Hx.
    repeat (apply elem_of_cons in Hx as [[= -> ->]|Hx]);
      [..|by apply elem_of_nil in Hx]; done.
  - intros s Hs. split.
    + unfold classification_lookup, known_labels, CLASSIFICATION_MAP in *.
      simpl in *. repeat case_decide; subst; try done; exfalso; apply Hs; set_solver.
    + intros stats label x Hx. unfold count_class.
      rewrite assoc_assoc_set, decide_False; [done|].
      unfold CLASSIFICATION_MAP in Hx.
      repeat (apply elem_of_cons in Hx as [[= -> ->]|Hx]);
        [..|by apply elem_of_nil in Hx]; done.
Qed.

Local Ltac solve_wf_record :=
  split;
  [ unfold string_fields;
    repeat (apply Forall_cons; split; [eexists; vm_compute; reflexivity|]);
    apply Forall_nil_2
  | eexists; vm_compute; reflexivity ].

Local Ltac solve_wf_records :=
  repeat (apply Forall_cons; split; [solve_wf_record|]); apply Forall_nil_2.

Lemma index_counts_known_classifications_witness :
  Forall wf_record
    [parse_markdown acme_document; parse_markdown other_document;
     parse_markdown acme_document]
  /\ exists stats cards,
       index_companies (initial_stats, [])
         [parse_markdown acme_document; parse_markdown other_document;
          parse_markdown acme_document]
       = Some (stats, cards)
       /\ assoc "UnsloppableBeneficiary" stats = Some 2%Z.
Proof.
  assert (Forall wf_record
            [parse_markdown acme_document; parse_markdown other_document;
             parse_markdown acme_document]) as Hwf
    by solve_wf_records.
  split; [exact Hwf|].
  destruct (index_counts_known_classifications _ Hwf)
    as (_ & (stats & cards & Hrun & Hcount) & _).
  exists stats, cards. split; [exact Hrun|].
  apply (Hcount "Unsloppable + Beneficiary"
           ("bg-green-100 text-green-800",
            "Unsloppable" +:+ Py.nl +:+ "+Beneficiary",
            "UnsloppableBeneficiary")).
  apply list_elem_of_here.
Defined.

(** C6: on the index card of every Record the moat-sources excerpt is the
    first 100 characters of [moat_sources] followed by "...", whatever the
    length of the text: a text of at most 100 characters, the empty one
    included, is shown whole and still followed by "...". *)
Theorem moat_excerpt_always_ellipsis
    (stats : list (string * Z)) (cards : list card)
    (c : gmap string val) (s : string) :
  wf_record c ->
  c !! "moat_sources" = Some (VStr s) ->
  exists stats' card,
    index_company (stats, cards) c = Some (stats', cards ++ [card])
    /\ MoatSources card = Py.take 100 s +:+ "..."
    /\ String.length (Py.take 100 s) = Nat.min 100 (String.length s)
    /\ Py.take 100 s +:+ Py.drop 100 s = s
    /\ (String.length s <= 100 -> MoatSources card = s +:+ "...").
Proof.
  intros Hwf Hs.
  destruct (index_company_wf stats cards c Hwf) as (cl & m & css & _ & Hm & _ & Hi).
  assert (m = s) as -> by congruence.
  eexists _, _. split; [exact Hi|]. split; [reflexivity|].
  split; [apply length_take_str|]. split; [apply take_drop_str|].
  intros H. cbn [MoatSources]. by rewrite take_all.
Qed.

Lemma moat_excerpt_always_ellipsis_witness :
  wf_record (parse_markdown acme_document)
  /\ parse_markdown acme_document !! "moat_sources"
     = Some (VStr "Installed base and service contracts.")
  /\ exists stats' card,
       index_company (initial_stats, []) (parse_markdown acme_document)
       = Some (stats', [] ++ [card])
       /\ MoatSources card = "Installed base and service contracts....".
Proof.
  assert (wf_record (parse_markdown acme_document)) as Hwf by solve_wf_record.
  assert (parse_markdown acme_document !! "moat_sources"
          = Some (VStr "Installed base and service contracts.")) as Hs
    by (vm_compute; reflexivity).
  split; [exact Hwf|]. split; [exact Hs|].
  destruct (moat_excerpt_always_ellipsis initial_stats [] _ _ Hwf Hs)
    as (stats' & card & Hrun & Hm & _).
  exists stats', card. split; [exact Hrun|]. exact Hm.
Defined.

(** C8, at the failing input: the Record of [nameless_document] has the
    ticker "ACME" and an empty company name; the key [company_name] is in
    the Record, so the default of [c.get] (the ticker) is not taken and
    the card shows an empty name. *)
Theorem index_card_shows_empty_name :
  parse_markdown nameless_document !! "ticker" = Some (VStr "ACME")
  /\ parse_markdown nameless_document !! "company_name" = Some (VStr "")
  /\ exists stats card,
       index_companies (initial_stats, []) [parse_markdown nameless_document]
       = Some (stats, [card])
       /\ Ticker card = VStr "ACME"
       /\ CompanyName card = VStr ""
       /\ CompanyName card <> Ticker card.
Proof.
  split; [by vm_compute|]. split; [by vm_compute|].
  eexists _, _. split; [vm_compute; reflexivity|]. by simpl.
Qed.

(** For every Record of the data model the name on the card is the value
    of [company_name], empty or not: the fallback needs the key to be
    absent. *)
Lemma index_card_name_is_field (stats : list (string * Z)) (cards : list card)
    (c : gmap string val) :
  wf_record c ->
  exists stats' card name,
    index_company (stats, cards) c = Some (stats', cards ++ [card])
    /\ c !! "company_name" = Some (VStr name)
    /\ CompanyName card = VStr name.
Proof.
  intros Hwf.
  destruct (index_company_wf stats cards c Hwf) as (cl & m & css & _ & _ & _ & Hi).
  destruct (wf_record_string "company_name" c Hwf) as [name Hn]; [set_solver|].
  eexists _, _, name. split; [exact Hi|]. split; [done|]. simpl.
  by apply dict_get_Some.
Qed.

(** ** The detail page *)

Lemma company_subs_wf (max_str_digits : nat) (d : gmap string val) :
  wf_record d ->
  exists fc risk subs,
    d !! "final_classification" = Some (VStr fc)
    /\ d !! "macro_risk" = Some (VStr risk)
    /\ company_subs max_str_digits d = Some subs
    /\ assoc "BadgeClass" subs
       = Some (VStr (default classification_default
                       (assoc fc CLASSIFICATION_MAP)).1.1)
    /\ assoc "MacroRisk" subs = VStr <$> head (Py.split " - " risk)
    /\ assoc "MacroRiskClass" subs = VStr <$> get_macro_risk_class (VStr risk)
    /\ assoc "AIScore" subs = Some (dict_get d "ai_score" (VStr "N/A"))
    /\ assoc "RoboticsScore" subs
       = Some (dict_get d "robotics_score" (VStr "N/A"))
    /\ assoc "CompanyName" subs
       = Some (dict_get d "company_name" (dict_get d "ticker" (VStr "")))
    /\ assoc "AIScoreClass" subs
       = Some (VStr (get_score_class max_str_digits
                       (dict_get d "ai_score" (VInt 0)))).
Proof.
  intros Hwf.
  destruct (wf_record_string "final_classification" d Hwf) as [fc Hfc]; [set_solver|].
  destruct (wf_record_string "macro_risk" d Hwf) as [risk Hrisk]; [set_solver|].
  exists fc, risk.
  unfold company_subs.
  rewrite (dict_get_Some _ _ _ (VStr "") Hfc).
  rewrite (dict_get_Some _ _ _ (VStr "Unknown") Hrisk).
  rewrite (dict_get_Some _ _ _ (VStr "") Hrisk).
  unfold classification_lookup, before_separator, get_macro_risk_class.
  destruct (default classification_default (assoc fc CLASSIFICATION_MAP))
    as [[badge short] css].
  rewrite head_split.
  eexists. split; [done|]. split; [done|]. split; [reflexivity|].
  repeat split; reflexivity.
Qed.

Lemma generate_company_page_total (max_str_digits : nat) (template : string)
    (d : gmap string val) :
  wf_record d -> is_Some (generate_company_page max_str_digits template d).
Proof.
  intros Hwf.
  destruct (company_subs_wf max_str_digits d Hwf) as (fc & risk & subs & _ & _ & Hsubs & _).
  destruct Hwf as [_ [l Hl]].
  unfold generate_company_page.
  rewrite Hsubs, (dict_get_Some _ _ _ _ Hl). by eexists.
Qed.

(** C7: on the detail page of every Record the macro-risk class is found
    on the whole [macro_risk] text, letter case ignored: green when "low"
    occurs in it in some letter case ("low", "Low", "LOW", "lOw", ...),
    else yellow when "medium" occurs in it in some letter case, else red;
    the text shown is the part of [macro_risk] before its first " - ". *)
Theorem macro_risk_class_and_text
    (max_str_digits : nat) (d : gmap string val) (risk : string) :
  wf_record d ->
  d !! "macro_risk" = Some (VStr risk) ->
  exists subs class text,
    company_subs max_str_digits d = Some subs
    /\ assoc "MacroRiskClass" subs = Some (VStr class)
    /\ assoc "MacroRisk" subs = Some (VStr text)
    /\ (occurs_ignoring_case "low" risk -> class = "text-green-600")
    /\ (~ occurs_ignoring_case "low" risk ->
        occurs_ignoring_case "medium" risk -> class = "text-yellow-600")
    /\ (~ occurs_ignoring_case "low" risk ->
        ~ occurs_ignoring_case "medium" risk -> class = "text-red-600")
    /\ before_first " - " risk text.
Proof.
  intros Hwf Hrisk.
  destruct (company_subs_wf max_str_digits d Hwf)
    as (fc & risk' & subs & _ & Hrisk' & Hsubs & _ & Htext & Hclass & _).
  assert (risk' = risk) as -> by congruence.
  destruct (head (Py.split " - " risk)) as [text|] eqn:Hhead;
    [|by rewrite head_split in Hhead].
  simpl in Hclass.
  eexists subs, _, text. split; [done|]. split; [exact Hclass|].
  split; [exact Htext|].
  pose proof (contains_lower_spec "low" risk eq_refl) as Hlow.
  pose proof (contains_lower_spec "medium" risk eq_refl) as Hmed.
  destruct (Py.contains "low" (Py.lower risk));
    destruct (Py.contains "medium" (Py.lower risk));
    repeat split; try done; try (by apply before_separator_spec);
    intuition congruence.
Qed.

Lemma macro_risk_class_and_text_witness :
  (wf_record (parse_markdown acme_document)
   /\ parse_markdown acme_document !! "macro_risk"
      = Some (VStr "Low - little exposure to credit")
   /\ exists subs text,
        company_subs 4300 (parse_markdown acme_document) = Some subs
        /\ assoc "MacroRiskClass" subs = Some (VStr "text-green-600")
        /\ assoc "MacroRisk" subs = Some (VStr text)
        /\ before_first " - " "Low - little exposure to credit" text)
  /\ (wf_record (parse_markdown capitals_document)
      /\ parse_markdown capitals_document !! "macro_risk"
         = Some (VStr "MEDIUM - Fuel And Credit")
      /\ exists subs text,
           company_subs 4300 (parse_markdown capitals_document) = Some subs
           /\ assoc "MacroRiskClass" subs = Some (VStr "text-yellow-600")
           /\ assoc "MacroRisk" subs = Some (VStr text)
           /\ before_first " - " "MEDIUM - Fuel And Credit" text).
Proof.
  split.
  - assert (wf_record (parse_markdown acme_document)) as Hwf
      by solve_wf_record.
    assert (parse_markdown acme_document !! "macro_risk"
            = Some (VStr "Low - little exposure to credit")) as Hrisk
      by (vm_compute; reflexivity).
    split; [exact Hwf|]. split; [exact Hrisk|].
    destruct (macro_risk_class_and_text 4300 _ _ Hwf Hrisk)
      as (subs & class & text & H1 & H2 & H3 & Hlow & _ & _ & H4).
    exists subs, text.
    rewrite <- (Hlow (ex_intro _ ""
      (ex_intro _ "Low" (ex_intro _ " - little exposure to credit"
         (conj eq_refl
            (conj (or_intror eq_refl)
               (conj (or_introl eq_refl)
                  (conj (or_introl eq_refl) I)))))))).
    repeat split; assumption.
  - assert (wf_record (parse_markdown capitals_document)) as Hwf
      by solve_wf_record.
    assert (parse_markdown capitals_document !! "macro_risk"
            = Some (VStr "MEDIUM - Fuel And Credit")) as Hrisk
      by (vm_compute; reflexivity).
    split; [exact Hwf|]. split; [exact Hrisk|].
    destruct (macro_risk_class_and_text 4300 _ _ Hwf Hrisk)
      as (subs & class & text & H1 & H2 & H3 & _ & Hmed & _ & H4).
    exists subs, text.
    rewrite <- Hmed.
    + repeat split; assumption.
    + rewrite <- (contains_lower_spec "low" _ eq_refl).
      vm_compute. discriminate.
    + exists "", "MEDIUM", " - Fuel And Credit". split; [reflexivity|].
      simpl. unfold capital. simpl. tauto.
Defined.

(** The class of some texts in mixed letter case. *)
Example macro_risk_classes :
  get_macro_risk_class (VStr "LOW") = Some "text-green-600"
  /\ get_macro_risk_class (VStr "Low - little exposure to credit")
     = Some "text-green-600"
  /\ get_macro_risk_class (VStr "Very lOw") = Some "text-green-600"
  /\ get_macro_risk_class (VStr "MeDiUm") = Some "text-yellow-600"
  /\ get_macro_risk_class (VStr "Medium to low") = Some "text-green-600"
  /\ get_macro_risk_class (VStr "HIGH") = Some "text-red-600"
  /\ get_macro_risk_class (VStr "") = Some "text-red-600"
  /\ get_macro_risk_class (VStr "Slow growth") = Some "text-green-600".
Proof. repeat split. Qed.

(** C1, at the failing input: the Record of [other_document] has no
    digits in its AI score line and no robotics score line; both score
    keys are in the Record with the empty string, so the default "N/A" of
    [data.get] is not taken and the detail page gets the empty string,
    not "N/A", in both score places and in the other empty fields. *)
Theorem detail_page_shows_empty_score (max_str_digits : nat) :
  parse_markdown other_document !! "ai_score" = Some (VStr "")
  /\ parse_markdown other_document !! "robotics_score" = Some (VStr "")
  /\ (exists subs,
        company_subs max_str_digits (parse_markdown other_document) = Some subs
        /\ assoc "AIScore" subs = Some (VStr "")
        /\ assoc "RoboticsScore" subs = Some (VStr "")
        /\ assoc "AIBeneficiary" subs = Some (VStr "")
        /\ assoc "Q1" subs = Some (VStr ""))
  /\ generate_company_page max_str_digits
       "<b>{{.AIScore}}</b><i>{{.RoboticsScore}}</i>"
       (parse_markdown other_document)
     = Some "<b>{}</b><i>{}</i>"
  /\ Py.replace "{.AIScore}" "N/A" "<b>{{.AIScore}}</b>" = "<b>{N/A}</b>".
Proof.
  split; [by vm_compute|]. split; [by vm_compute|].
  split; [eexists; split; [vm_compute; reflexivity|by repeat split]|].
  split; by vm_compute.
Qed.

(** For every document the score on the detail page is the value of the
    score field of its Record: the default of [data.get] needs the key to
    be absent, and the parser sets every key. *)
Lemma detail_page_score_is_field (max_str_digits : nat) (content : string) :
  exists subs score,
    company_subs max_str_digits (parse_markdown content) = Some subs
    /\ parse_markdown content !! "ai_score" = Some (VStr score)
    /\ assoc "AIScore" subs = Some (VStr score).
Proof.
  pose proof (parse_markdown_wf content) as Hwf.
  destruct (company_subs_wf max_str_digits _ Hwf)
    as (fc & risk & subs & _ & _ & Hsubs & _ & _ & _ & Hai & _).
  destruct (wf_record_string "ai_score" _ Hwf) as [score Hscore]; [set_solver|].
  exists subs, score. split; [done|]. split; [done|].
  by rewrite Hai, (dict_get_Some _ _ _ _ Hscore).
Qed.

(** ** The two scans of the parser *)

Lemma extract_title_other (lines : list string) (d : gmap string val)
    (k : string) :
  k <> "ticker" -> k <> "company_name" -> extract_title lines d !! k = d !! k.
Proof.
  intros H1 H2. unfold extract_title.
  destruct (find_title lines) as [[name code]|]; [|done].
  by rewrite !lookup_insert_ne.
Qed.

Lemma first_pass_other (lines : list string) (d : gmap string val) (k : string) :
  k ∉ overview_fields -> scan_data (first_pass lines d) !! k = d !! k.
Proof. intros Hk. unfold first_pass. by rewrite scan_lines_other. Qed.

Lemma parse_markdown_other (content k : string) :
  k ∉ overview_fields -> k <> "ticker" -> k <> "company_name" ->
  k <> "moat_sources" -> k <> "key_insights" ->
  parse_markdown content !! k = initial_data !! k.
Proof.
  intros H1 H2 H3 H4 H5. unfold parse_markdown.
  rewrite !lookup_insert_ne by done.
  by rewrite first_pass_other, extract_title_other.
Qed.

Lemma not_overview_field (k : string) :
  bool_decide (k ∈ overview_fields) = false -> k ∉ overview_fields.
Proof. intros H. by apply bool_decide_eq_false in H. Qed.

Local Ltac solve_not_overview := apply not_overview_field; reflexivity.

(** C10: in the first scan no state that is reached holds a section key,
    so nothing is pending at a blank line or a heading and the flush
    leaves the Record as it is; the first scan leaves [moat_sources] and
    [key_insights] at their initial values and the Record gets them from
    the second scan alone; [q1] to [q8] are the empty string in the Record
    of every document. *)
Theorem first_scan_never_opens_a_section (content : string) :
  let lines := Py.split Py.nl content in
  let data := extract_title lines initial_data in
  (forall pre post,
     lines = pre ++ post ->
     current_section (first_pass pre data) = None
     /\ pending (first_pass pre data) = None
     /\ flush (first_pass pre data) = scan_data (first_pass pre data))
  /\ scan_data (first_pass lines data) !! "moat_sources" = Some (VStr "")
  /\ scan_data (first_pass lines data) !! "key_insights" = Some (VList [])
  /\ parse_markdown content !! "moat_sources"
     = Some (VStr (Py.strip (Py.join " " (moat_lines (second_pass lines)))))
  /\ parse_markdown content !! "key_insights"
     = Some (VList (insight_lines (second_pass lines)))
  /\ Forall (fun q => parse_markdown content !! q = Some (VStr ""))
       ["q1"; "q2"; "q3"; "q4"; "q5"; "q6"; "q7"; "q8"].
Proof.
  intros lines data. split; [|split; [|split; [|split; [|split]]]].
  - intros pre post _.
    assert (no_section (first_pass pre data)) as H
      by (by apply scan_lines_no_section).
    split; [apply H|]. split; [by apply no_section_pending|].
    by apply no_section_flush.
  - rewrite first_pass_other by solve_not_overview.
    unfold data. by rewrite extract_title_other.
  - rewrite first_pass_other by solve_not_overview.
    unfold data. by rewrite extract_title_other.
  - unfold parse_markdown. fold lines.
    rewrite lookup_insert_ne by done. by rewrite lookup_insert_eq.
  - unfold parse_markdown. fold lines. by rewrite lookup_insert_eq.
  - repeat (apply Forall_cons; split;
            [by rewrite parse_markdown_other by (done || solve_not_overview)|]).
    apply Forall_nil_2.
Qed.

(** ** The parser on the store of objects *)

Lemma keeps_lists_app (h ext : Mem.store) : keeps_lists h (h ++ ext).
Proof. intros r l H. by apply lookup_app_l_Some. Qed.

Lemma keeps_lists_dict (h : Mem.store) (r : Mem.ref)
    (D D' : gmap string Mem.hval) :
  h !! r = Some (Mem.ODict D) -> keeps_lists h (<[r := Mem.ODict D']> h).
Proof.
  intros H r' l Hl. rewrite list_lookup_insert_ne; [done|]. intros ->. congruence.
Qed.

Lemma value_at_keeps (h h' : Mem.store) (hv : Mem.hval) (v : val) :
  keeps_lists h h' ->
  Mem.value_at h hv = Some v -> Mem.value_at h' hv = Some v.
Proof.
  intros Hk. destruct hv as [s|r]; simpl; [done|].
  destruct (h !! r) as [[D|l]|] eqn:E; try done.
  by rewrite (Hk _ _ E).
Qed.

Lemma reads_as_keeps (h h' : Mem.store) (D : gmap string Mem.hval)
    (d : gmap string val) :
  keeps_lists h h' -> reads_as h D d -> reads_as h' D d.
Proof.
  intros Hk H k. destruct (H k) as [hv v Hv|]; constructor.
  by apply (value_at_keeps h).
Qed.

Lemma reads_as_insert (h : Mem.store) (D : gmap string Mem.hval)
    (d : gmap string val) (k : string) (hv : Mem.hval) (v : val) :
  reads_as h D d -> Mem.value_at h hv = Some v ->
  reads_as h (<[k := hv]> D) (<[k := v]> d).
Proof.
  intros H Hv k'. destruct (decide (k' = k)) as [->|Hne].
  - rewrite !lookup_insert_eq. by constructor.
  - rewrite !lookup_insert_ne by done. apply H.
Qed.

Lemma reads_as_initial (h : Mem.store) (r : Mem.ref) :
  h !! r = Some (Mem.OList []) ->
  reads_as h (Mem.initial_data r) initial_data.
Proof.
  intros Hr. unfold Mem.initial_data, initial_data.
  repeat (apply reads_as_insert; [|simpl; by rewrite ?Hr]).
  intros k. rewrite !lookup_empty. constructor.
Qed.

Lemma record_at_field (h : Mem.store) (r : Mem.ref) (d : gmap string val)
    (k : string) :
  record_at h r d -> Mem.field_at h r k = d !! k.
Proof.
  intros (D & Hr & HD). unfold Mem.field_at. rewrite Hr.
  by destruct (HD k) as [hv v Hv|].
Qed.

Lemma record_at_app (h ext : Mem.store) (r : Mem.ref) (d : gmap string val) :
  record_at h r d -> record_at (h ++ ext) r d.
Proof.
  intros (D & Hr & HD). exists D. split; [by apply lookup_app_l_Some|].
  apply (reads_as_keeps h); [apply keeps_lists_app|done].
Qed.

Lemma prefix_of_insert (h0 h : Mem.store) (r : Mem.ref) (o : Mem.obj) :
  h0 `prefix_of` h -> length h0 <= r -> h0 `prefix_of` <[r := o]> h.
Proof.
  intros [ext ->] Hr. rewrite insert_app_r_alt by done. by eexists.
Qed.

Lemma running_alloc (h0 h : Mem.store) (data : Mem.ref)
    (d : gmap string val) (o : Mem.obj) :
  running h0 data d h -> running h0 data d (h ++ [o]).
Proof.
  intros (Hp & Hd & Hr). split; [by apply prefix_app_r|].
  split; [done|]. by apply record_at_app.
Qed.

Lemma running_setitem (h0 h : Mem.store) (data : Mem.ref)
    (d : gmap string val) (k s : string) :
  running h0 data d h ->
  exists h',
    Mem.setitem data k (Mem.HStr s) h = Some ((), h')
    /\ running h0 data (<[k := VStr s]> d) h'.
Proof.
  intros (Hp & Hd & D & Hr & HD). unfold Mem.setitem. rewrite Hr.
  eexists. split; [done|]. split; [by apply prefix_of_insert|].
  split; [done|]. eexists. split.
  - apply list_lookup_insert_eq. by apply lookup_lt_Some in Hr.
  - apply reads_as_insert; [|done].
    apply (reads_as_keeps h); [by apply (keeps_lists_dict _ _ D)|done].
Qed.

Lemma running_set_score (h0 h : Mem.store) (data : Mem.ref)
    (d : gmap string val) (field value : string) :
  running h0 data d h ->
  exists h',
    Mem.set_score data field value h = Some ((), h')
    /\ running h0 data (set_score field value d) h'.
Proof.
  intros H. unfold Mem.set_score, set_score.
  destruct (Re.search_digits value); [by apply running_setitem|by exists h].
Qed.

Lemma running_store_pair (h0 h : Mem.store) (data : Mem.ref)
    (d : gmap string val) (key value : string) :
  running h0 data d h ->
  exists h',
    Mem.store_pair data key value h = Some ((), h')
    /\ running h0 data (store_pair key value d) h'.
Proof.
  intros H. unfold Mem.store_pair, store_pair.
  repeat case_decide;
    try (by apply running_set_score); try (by apply running_setitem).
  by exists h.
Qed.

Lemma running_extract_title (h0 h : Mem.store) (data : Mem.ref)
    (d : gmap string val) (lines : list string) :
  running h0 data d h ->
  exists h',
    Mem.extract_title data lines h = Some ((), h')
    /\ running h0 data (extract_title lines d) h'.
Proof.
  intros H. unfold Mem.extract_title, extract_title.
  destruct (find_title lines) as [[name code]|]; [|by exists h].
  destruct (running_setitem _ _ _ _ "company_name" (Py.strip name) H)
    as (h1 & E1 & H1).
  destruct (running_setitem _ _ _ _ "ticker" (Py.strip code) H1)
    as (h2 & E2 & H2).
  exists h2. split; [|done].
  unfold mbind, Mem.store_bind, Mem.bind. by rewrite E1.
Qed.

(** A turn of the first scan: no section is ever held, so nothing is
    flushed, and the dict is changed as the Record of the scan is. *)
Lemma running_scan_line (h0 h : Mem.store) (data cv : Mem.ref)
    (d : gmap string val) (line : string) :
  running h0 data d h ->
  exists cv' h',
    Mem.scan_line data (None, cv) line h = Some ((None, cv'), h')
    /\ scan_line (ScanState d None []) line
       = ScanState (scan_data (scan_line (ScanState d None []) line)) None []
    /\ running h0 data (scan_data (scan_line (ScanState d None []) line)) h'.
Proof.
  intros H. unfold Mem.scan_line, scan_line.
  destruct (is_boundary (Py.strip line)).
  - exists (length h), (h ++ [Mem.OList []]). split; [done|]. split; [done|].
    by apply running_alloc.
  - destruct (Py.contains ":" (Py.strip line)); [|by exists cv, h].
    destruct (Py.partition ":" (Py.strip line)) as [[key sep] value].
    destruct (running_store_pair _ _ _ _ (clean_key key) (Py.strip value) H)
      as (h' & E & H').
    exists cv, h'. split; [|done].
    unfold mbind, Mem.store_bind, Mem.bind. by rewrite E.
Qed.

Lemma running_scan_lines (lines : list string) (h0 h : Mem.store)
    (data cv : Mem.ref) (d : gmap string val) :
  running h0 data d h ->
  exists cv' h',
    Mem.for_each (Mem.scan_line data) (None, cv) lines h
    = Some ((None, cv'), h')
    /\ running h0 data (scan_data (foldl scan_line (ScanState d None []) lines))
         h'.
Proof.
  revert h cv d. induction lines as [|line lines IH]; intros h cv d H.
  - by exists cv, h.
  - destruct (running_scan_line _ _ _ cv _ line H) as (cv1 & h1 & E1 & Est & H1).
    destruct (IH _ cv1 _ H1) as (cv2 & h2 & E2 & H2).
    exists cv2, h2. split.
    + cbn [Mem.for_each]. unfold mbind, Mem.store_bind, Mem.bind.
      by rewrite E1.
    + cbn [foldl]. by rewrite Est.
Qed.

(** The second scan changes the two lists it was given, and nothing
    else. *)
Lemma section_line_run (p : Mem.store) (st : section_state) (line : string) :
  Mem.section_line (length p) (S (length p)) (in_moat st, in_insights st) line
    (p ++ [Mem.OList (moat_lines st); Mem.OList (insight_lines st)])
  = Some ((in_moat (section_line st line), in_insights (section_line st line)),
          p ++ [Mem.OList (moat_lines (section_line st line));
                Mem.OList (insight_lines (section_line st line))]).
Proof.
  unfold Mem.section_line, section_line. cbn [fst snd].
  repeat case_decide; try done.
  destruct (Py.startswith "## Pressure" (Py.strip line)); [done|].
  destruct (in_moat st && truthy (VStr (Py.strip line))).
  - unfold mbind, Mem.store_bind, Mem.bind, Mem.append.
    rewrite list_lookup_middle by done. cbn.
    rewrite (insert_app_r_alt p) by lia.
    by replace (length p - length p) with 0 by lia.
  - destruct (in_insights st && Py.startswith "- " (Py.strip line)); [|done].
    unfold mbind, Mem.store_bind, Mem.bind, Mem.append.
    rewrite (lookup_app_r p) by lia.
    replace (S (length p) - length p) with 1 by lia. cbn.
    rewrite (insert_app_r_alt p) by lia.
    by replace (S (length p) - length p) with 1 by lia.
Qed.

Lemma section_lines_run (lines : list string) (p : Mem.store)
    (st : section_state) :
  Mem.for_each (Mem.section_line (length p) (S (length p)))
    (in_moat st, in_insights st) lines
    (p ++ [Mem.OList (moat_lines st); Mem.OList (insight_lines st)])
  = Some ((in_moat (foldl section_line st lines),
           in_insights (foldl section_line st lines)),
          p ++ [Mem.OList (moat_lines (foldl section_line st lines));
                Mem.OList (insight_lines (foldl section_line st lines))]).
Proof.
  revert st. induction lines as [|line lines IH]; intros st; [done|].
  cbn [Mem.for_each foldl]. unfold mbind, Mem.store_bind, Mem.bind.
  rewrite section_line_run. apply IH.
Qed.

(** A call of [parse_markdown] ends from every store: it changes no
    object of the store it starts from, and returns a new dict that reads
    as the Record of the text. *)
Lemma parse_markdown_run (content : string) (h : Mem.store) :
  exists r h',
    Mem.parse_markdown content h = Some (r, h')
    /\ h `prefix_of` h'
    /\ length h <= r
    /\ record_at h' r (parse_markdown content).
Proof.
  set (lines := Py.split Py.nl content).
  assert (running h (S (length h)) initial_data
            (h ++ [Mem.OList []]
               ++ [Mem.ODict (Mem.initial_data (length h))])) as H0.
  { split; [by eexists|]. split; [lia|].
    exists (Mem.initial_data (length h)). split.
    - rewrite lookup_app_r by lia. by replace (S (length h) - length h) with 1 by lia.
    - apply reads_as_initial. by apply list_lookup_middle. }
  destruct (running_extract_title _ _ _ _ lines H0) as (h1 & E1 & H1).
  pose proof (running_alloc _ _ _ _ (Mem.OList []) H1) as H1'.
  destruct (running_scan_lines lines _ _ _ (length h1) _ H1')
    as (cv & h2 & E2 & H2).
  fold (first_pass lines (extract_title lines initial_data)) in H2.
  set (d := scan_data (first_pass lines (extract_title lines initial_data)))
    in *.
  pose proof (section_lines_run lines h2 (SectionState false false [] []))
    as E3.
  fold (second_pass lines) in E3. cbn [in_moat in_insights moat_lines insight_lines] in E3.
  set (sections := second_pass lines) in *.
  destruct H2 as (Hp & Hd & D & Hr & HD).
  assert (S (length h) < length h2) as Hlt by (by apply lookup_lt_Some in Hr).
  exists (S (length h)). eexists. split.
  - unfold Mem.parse_markdown. fold lines.
    unfold mbind, Mem.store_bind, Mem.bind, Mem.alloc at 1 2.
    rewrite length_app. cbn [length]. replace (length h + 1) with (S (length h)) by lia.
    rewrite <- app_assoc. rewrite E1.
    unfold Mem.alloc at 1. rewrite E2.
    unfold Mem.alloc at 1 2.
    rewrite length_app. cbn [length]. replace (length h2 + 1) with (S (length h2)) by lia.
    rewrite <- app_assoc. cbn [app]. rewrite E3.
    unfold Mem.get_list. rewrite list_lookup_middle by done.
    unfold Mem.setitem at 1. rewrite (lookup_app_l_Some _ _ _ _ Hr).
    unfold Mem.setitem. rewrite list_lookup_insert_eq
      by (rewrite length_app; lia).
    rewrite list_insert_insert_eq. reflexivity.
  - split.
    { apply prefix_of_insert; [|lia]. by apply prefix_app_r. }
    split; [lia|].
    eexists. split.
    { apply list_lookup_insert_eq. rewrite length_app. lia. }
    unfold parse_markdown. fold lines. fold d. fold sections.
    apply reads_as_insert.
    + apply reads_as_insert; [|done].
      apply (reads_as_keeps h2); [|done].
      intros r l Hl. rewrite list_lookup_insert_ne by congruence.
      by apply lookup_app_l_Some.
    + cbn. rewrite list_lookup_insert_ne by lia.
      rewrite lookup_app_r by lia.
      by replace (S (length h2) - length h2) with 1 by lia.
Qed.

(** C9: parsing is deterministic.  A call of [parse_markdown] reads
    nothing but the text and builds its Record in objects of its own:
    from every state of the store of objects it ends and leaves the
    objects it found as they were.  Two calls in a row on the same text,
    as the driver makes them, return two Records that are different
    objects and are the same in every field, and the second call leaves
    the Record of the first as it was; a call from any other state of the
    store returns a Record with the same fields again.  The fields are
    those of the Record of the text, and every field of the schema is
    among them. *)
Theorem parse_markdown_deterministic (content : string) (h h' : Mem.store) :
  exists r1 h1 r2 h2 r3 h3,
    Mem.parse_markdown content h = Some (r1, h1)
    /\ Mem.parse_markdown content h1 = Some (r2, h2)
    /\ Mem.parse_markdown content h' = Some (r3, h3)
    /\ r1 <> r2
    /\ h `prefix_of` h1
    /\ h1 `prefix_of` h2
    /\ (forall k,
          Mem.field_at h2 r2 k = Mem.field_at h1 r1 k
          /\ Mem.field_at h2 r1 k = Mem.field_at h1 r1 k
          /\ Mem.field_at h3 r3 k = Mem.field_at h1 r1 k
          /\ Mem.field_at h1 r1 k = parse_markdown content !! k)
    /\ Forall (fun k => is_Some (Mem.field_at h1 r1 k))
         ("key_insights" :: string_fields).
Proof.
  destruct (parse_markdown_run content h) as (r1 & h1 & E1 & P1 & F1 & R1).
  destruct (parse_markdown_run content h1) as (r2 & h2 & E2 & P2 & F2 & R2).
  destruct (parse_markdown_run content h') as (r3 & h3 & E3 & P3 & F3 & R3).
  exists r1, h1, r2, h2, r3, h3.
  split; [done|]. split; [done|]. split; [done|].
  split.
  { destruct R1 as (D & Hr & _). apply lookup_lt_Some in Hr. lia. }
  split; [done|]. split; [done|].
  assert (record_at h2 r1 (parse_markdown content)) as R1'.
  { destruct P2 as [ext ->]. by apply record_at_app. }
  split.
  - intros k.
    rewrite (record_at_field _ _ _ k R1), (record_at_field _ _ _ k R2),
      (record_at_field _ _ _ k R3), (record_at_field _ _ _ k R1').
    done.
  - destruct (parse_markdown_wf content) as [Hs [l Hl]].
    apply Forall_cons. split.
    + rewrite (record_at_field _ _ _ _ R1), Hl. by eexists.
    + eapply Forall_impl; [exact Hs|].
      intros k [s Hk]. rewrite (record_at_field _ _ _ _ R1), Hk. by eexists.
Qed.

(** Two calls in a row from the empty store, on the document of the
    scenario: the Records are the objects 1 and 14. *)
Example parse_markdown_twice :
  exists h1 h2,
    Mem.parse_markdown acme_document [] = Some (1, h1)
    /\ Mem.parse_markdown acme_document h1 = Some (14, h2)
    /\ Mem.field_at h2 1 "ticker" = Some (VStr "ACME")
    /\ Mem.field_at h2 14 "ticker" = Some (VStr "ACME")
    /\ Mem.field_at h2 1 "key_insights" = Some (VList ["Alpha"; "Beta"])
    /\ Mem.field_at h2 14 "key_insights" = Some (VList ["Alpha"; "Beta"]).
Proof.
  eexists _, _. split; [vm_compute; reflexivity|].
  split; [vm_compute; reflexivity|]. vm_compute. repeat split.
Qed.

(** ** The driver *)

Lemma find_title_None (lines : list string) :
  Forall (fun line => Re.match_title (Py.strip line) = None) lines ->
  find_title lines = None.
Proof.
  induction 1 as [|line lines H _ IH]; simpl; [done|]. by rewrite H.
Qed.

Lemma parse_markdown_untitled (content : string) :
  Forall (fun line => Re.match_title (Py.strip line) = None)
    (Py.split Py.nl content) ->
  parse_markdown content !! "ticker" = Some (VStr "").
Proof.
  intros H. unfold parse_markdown.
  rewrite !lookup_insert_ne by done.
  rewrite first_pass_other by solve_not_overview.
  unfold extract_title. by rewrite find_title_None.
Qed.

Lemma generate_index_total (template : string)
    (companies : list (gmap string val)) :
  Forall wf_record companies -> is_Some (generate_index template companies).
Proof.
  intros Hwf.
  destruct (index_companies_counts companies initial_stats [] Hwf)
    as (stats & cards & Hrun & _).
  unfold generate_index. rewrite Hrun. by eexists.
Qed.

Lemma process_files_app (write_ok : string -> string -> bool)
    (max_str_digits : nat) (company_template : string)
    (files1 files2 : list string) (r : run) :
  process_files write_ok max_str_digits company_template r (files1 ++ files2)
  = match process_files write_ok max_str_digits company_template r files1 with
    | Finished r' =>
        process_files write_ok max_str_digits company_template r' files2
    | Stopped files => Stopped files
    end.
Proof.
  revert r. induction files1 as [|content files1 IH]; intros r; simpl; [done|].
  destruct (process_file write_ok max_str_digits company_template r content);
    [apply IH|done].
Qed.

(** C2: a document none of whose lines matches the title pattern is
    parsed to a Record with an empty ticker; the driver passes it over
    (no page written, no Record kept), and the outcome of the run for a
    set of documents, the files written and the index page among them,
    is the same with the document in the set and without it. *)
Theorem untitled_document_is_dropped
    (write_ok : string -> string -> bool)
    (max_str_digits : nat) (company_template index_template : string)
    (before after : list string) (doc : string) :
  Forall (fun line => Re.match_title (Py.strip line) = None)
    (Py.split Py.nl doc) ->
  parse_markdown doc !! "ticker" = Some (VStr "")
  /\ (forall r,
        process_file write_ok max_str_digits company_template r doc
        = Finished r)
  /\ (forall r,
        process_files write_ok max_str_digits company_template r
          (before ++ doc :: after)
        = process_files write_ok max_str_digits company_template r
            (before ++ after))
  /\ main write_ok max_str_digits company_template index_template
       (before ++ doc :: after)
     = main write_ok max_str_digits company_template index_template
         (before ++ after).
Proof.
  intros Hdoc.
  pose proof (parse_markdown_untitled doc Hdoc) as Hticker.
  assert (forall r,
    process_file write_ok max_str_digits company_template r doc = Finished r)
    as Hskip by (intros r; unfold process_file; by rewrite Hticker).
  assert (forall r,
    process_files write_ok max_str_digits company_template r
      (before ++ doc :: after)
    = process_files write_ok max_str_digits company_template r
        (before ++ after)) as Hfiles.
  { intros r. rewrite !process_files_app.
    destruct (process_files write_ok max_str_digits company_template r before)
      as [r'|]; [|done].
    simpl. by rewrite Hskip. }
  split; [done|]. split; [done|]. split; [done|].
  unfold main. by rewrite Hfiles.
Qed.

Lemma untitled_document_is_dropped_witness :
  Forall (fun line => Re.match_title (Py.strip line) = None)
    (Py.split Py.nl untitled_document)
  /\ main (fun _ _ => true) 4300 "<h1>{{.Ticker}}</h1>"
       "<p>{{.UnsloppableBeneficiary}}</p>"
       ([acme_document] ++ untitled_document :: [other_document])
     = main (fun _ _ => true) 4300 "<h1>{{.Ticker}}</h1>"
         "<p>{{.UnsloppableBeneficiary}}</p>"
         ([acme_document] ++ [other_document]).
Proof.
  assert (Forall (fun line => Re.match_title (Py.strip line) = None)
            (Py.split Py.nl untitled_document)) as H.
  { vm_compute. repeat (apply Forall_cons; split; [reflexivity|]).
    apply Forall_nil_2. }
  split; [exact H|].
  exact (proj2 (proj2 (proj2
    (untitled_document_is_dropped (fun _ _ => true) 4300
       "<h1>{{.Ticker}}</h1>" "<p>{{.UnsloppableBeneficiary}}</p>"
       [acme_document] [other_document] untitled_document H)))).
Defined.

(** ** Key Insights *)











(** ** Scores *)

Lemma take_while_run (p : ascii -> bool) (run post : string) :
  all_chars p run = true ->
  match post with
  | EmptyString => True
  | String c _ => p c = false
  end ->
  Re.take_while p (run +:+ post) = run.
Proof.
  intros Hrun Hpost. induction run as [|c run IH].
  - rewrite app_empty_l. destruct post as [|c post]; [done|]. simpl. by rewrite Hpost.
  - rewrite app_cons. simpl in *. apply andb_true_iff in Hrun as [Hc Hrun].
    by rewrite Hc, IH.
Qed.

Lemma search_digits_first_run (value run : string) :
  first_digit_run value run -> Re.search_digits value = Some run.
Proof.
  intros (pre & post & -> & Hpre & Hne & Hrun & Hpost).
  unfold no_digit in Hpre. induction pre as [|c pre IH].
  - rewrite app_empty_l. destruct run as [|c run]; [done|].
    rewrite app_cons. simpl in Hrun. apply andb_true_iff in Hrun as [Hc Hrun].
    cbn [Re.search_digits]. rewrite Hc. rewrite <- app_cons.
    f_equal. apply take_while_run; [|done]. simpl. by rewrite Hc, Hrun.
  - rewrite app_cons. simpl in Hpre. apply andb_true_iff in Hpre as [Hc Hpre].
    apply negb_true_iff in Hc. cbn [Re.search_digits]. rewrite Hc. by apply IH.
Qed.

Lemma all_chars_lstrip (p q : ascii -> bool) (s : string) :
  all_chars p s = true -> all_chars p (Py.lstrip_with q s) = true.
Proof.
  induction s as [|c s IH]; simpl; [done|]. intros H.
  destruct (q c); [|done]. apply andb_true_iff in H as [_ H]. by apply IH.
Qed.

Lemma all_chars_rstrip (p q : ascii -> bool) (s : string) :
  all_chars p s = true -> all_chars p (Py.rstrip_with q s) = true.
Proof.
  induction s as [|c s IH]; simpl; [done|]. intros H.
  apply andb_true_iff in H as [Hc H]. specialize (IH H).
  destruct (Py.rstrip_with q s) as [|c' r].
  - destruct (q c); simpl; [done|]. by rewrite Hc.
  - simpl in *. by rewrite Hc, IH.
Qed.

Lemma int_digits_no_digit (acc : Z) (n : nat) (body : string) :
  no_digit body = true -> Py.int_digits acc n false body = None.
Proof.
  unfold no_digit. destruct body as [|c body]; simpl; [done|]. intros H.
  apply andb_true_iff in H as [Hc _]. apply negb_true_iff in Hc.
  rewrite Hc. by destruct (ascii_dec c "_").
Qed.

Lemma int_of_str_no_digit (max_str_digits : nat) (s : string) :
  no_digit s = true -> Py.int_of_str max_str_digits s = None.
Proof.
  intros H. unfold Py.int_of_str.
  assert (no_digit (Py.strip_with Py.int_isspace s) = true) as Ht
    by (by apply all_chars_rstrip, all_chars_lstrip).
  destruct (Py.strip_with Py.int_isspace s) as [|c t].
  - done.
  - assert (no_digit t = true) as Ht'
      by (unfold no_digit in *; simpl in Ht; by apply andb_true_iff in Ht as [_ ?]).
    destruct (ascii_dec c "+") as [->|Hplus];
      [by rewrite int_digits_no_digit|].
    destruct (ascii_dec c "-") as [->|Hminus];
      [by rewrite int_digits_no_digit|].
    assert (Py.int_digits 0 0 false (String c t) = None) as Hd
      by (by apply int_digits_no_digit).
    destruct c as [[] [] [] [] [] [] [] []]; try (by rewrite Hd); done.
Qed.

(** ** The end-to-end scenario *)

Example title_groups :
  Re.match_title "# Acme Robotics (ACME)" = Some ("Acme Robotics", "ACME").
Proof. reflexivity. Qed.

Example title_needs_a_name : Re.match_title "# (ACME)" = None.
Proof. reflexivity. Qed.

Example score_classes :
  map (get_score_class 4300) [VStr "2"; VStr "6"; VStr "7"; VStr ""; VInt 0]
  = ["text-green-600"; "text-yellow-600"; "text-red-600"; "text-gray-600";
     "text-green-600"].
Proof. reflexivity. Qed.

Example acme_record :
  map (fun k => parse_markdown acme_document !! k)
    [ "ticker"; "company_name"; "final_classification"; "ai_score";
      "robotics_score"; "macro_risk"; "moat_sources"; "key_insights"; "q1" ]
  = [ Some (VStr "ACME"); Some (VStr "Acme Robotics");
      Some (VStr "Unsloppable + Beneficiary"); Some (VStr "2");
      Some (VStr ""); Some (VStr "Low - little exposure to credit");
      Some (VStr "Installed base and service contracts.");
      Some (VList ["Alpha"; "Beta"]); Some (VStr "") ].
Proof. vm_compute. reflexivity. Qed.

Example acme_site :
  main (fun _ _ => true) 4300
    "<h1>{{.Ticker}}</h1><b class={{.AIScoreClass}}>{{.AIScore}}/10</b>"
    "<p>{{.UnsloppableBeneficiary}} of {{.SloppableClankerable}}</p>"
    [acme_document; untitled_document]
  = Finished
      [ ("ACME.html", "<h1>{ACME}</h1><b class={text-green-600}>{2}/10</b>");
        ("index.html", "<p>1 of 0</p>") ].
Proof. vm_compute. reflexivity. Qed.

(** * Further properties *)

(** ** The key and value lines *)

Lemma scan_line_data (st : scan_state) (line : string) :
  no_section st ->
  scan_data (scan_line st line)
  = match line_pair line with
    | Some (key, value) => store_pair key value (scan_data st)
    | None => scan_data st
    end.
Proof.
  intros Hn. unfold scan_line, line_pair.
  destruct (is_boundary (Py.strip line)); [simpl; by apply no_section_flush|].
  destruct (Py.contains ":" (Py.strip line)); [|done].
  by destruct (Py.partition ":" (Py.strip line)) as [[key sep] value].
Qed.

Lemma overview_keys_cases (key field : string) :
  (key, field) ∈ overview_keys ->
  (key, field) ∈ score_keys \/ (key, field) ∈ verbatim_keys.
Proof. unfold overview_keys. by rewrite elem_of_app. Qed.

Lemma store_pair_other_key (key field key' value : string)
    (d : gmap string val) :
  (key, field) ∈ overview_keys -> key' <> key ->
  store_pair key' value d !! field = d !! field.
Proof.
  intros Hk Hne. unfold overview_keys, score_keys, verbatim_keys in Hk. simpl in Hk.
  repeat (apply elem_of_cons in Hk as [[= -> ->]|Hk]);
    [..|by apply elem_of_nil in Hk];
    unfold store_pair, set_score;
    repeat case_decide; repeat case_match; subst; try done;
    by rewrite lookup_insert_ne.
Qed.

Lemma store_pair_verbatim (key field value : string) (d : gmap string val) :
  (key, field) ∈ verbatim_keys ->
  store_pair key value d !! field = Some (VStr value).
Proof.
  intros Hk. unfold verbatim_keys in Hk.
  repeat (apply elem_of_cons in Hk as [[= -> ->]|Hk]);
    [..|by apply elem_of_nil in Hk];
    unfold store_pair; repeat case_decide; try done;
    by rewrite lookup_insert_eq.
Qed.

Lemma scan_line_without_key (st : scan_state) (line key field : string) :
  no_section st -> (key, field) ∈ overview_keys -> ~ has_key key line ->
  scan_data (scan_line st line) !! field = scan_data st !! field.
Proof.
  intros Hn Hk Hl. rewrite scan_line_data by done.
  destruct (line_pair line) as [[key' value]|] eqn:E; [|done].
  apply store_pair_other_key with (key := key); [done|].
  intros ->. apply Hl. by exists value.
Qed.

Lemma scan_lines_without_key (lines : list string) (st : scan_state)
    (key field : string) :
  no_section st -> (key, field) ∈ overview_keys ->
  Forall (fun line => ~ has_key key line) lines ->
  scan_data (foldl scan_line st lines) !! field = scan_data st !! field.
Proof.
  intros Hn Hk H. revert st Hn.
  induction H as [|line lines Hl _ IH]; intros st Hn; simpl; [done|].
  rewrite IH by (by apply scan_line_no_section).
  by apply scan_line_without_key with (key := key).
Qed.

Lemma overview_field_not_title (key field : string) :
  (key, field) ∈ overview_keys ->
  field <> "ticker" /\ field <> "company_name"
  /\ field <> "moat_sources" /\ field <> "key_insights".
Proof.
  intros Hk. unfold overview_keys, score_keys, verbatim_keys in Hk. simpl in Hk.
  repeat (apply elem_of_cons in Hk as [[= -> ->]|Hk]);
    [..|by apply elem_of_nil in Hk]; done.
Qed.

Lemma parse_markdown_overview_field (content key field : string) :
  (key, field) ∈ overview_keys ->
  parse_markdown content !! field
  = scan_data (first_pass (Py.split Py.nl content)
                 (extract_title (Py.split Py.nl content) initial_data))
      !! field.
Proof.
  intros Hk. destruct (overview_field_not_title _ _ Hk) as (_ & _ & H3 & H4).
  unfold parse_markdown. by rewrite !lookup_insert_ne.
Qed.

(** X1: a field of the overview keeps the value the Record starts with
    when no line of the document has its key: the empty string, and
    "TEMP_MARKER" for [final_classification]. *)
Theorem field_without_line_keeps_initial_value (content key field : string) :
  (key, field) ∈ overview_keys ->
  Forall (fun line => ~ has_key key line) (Py.split Py.nl content) ->
  parse_markdown content !! field = initial_data !! field.
Proof.
  intros Hk Hlines. rewrite (parse_markdown_overview_field _ _ _ Hk).
  unfold first_pass. rewrite (scan_lines_without_key _ _ key) by done.
  destruct (overview_field_not_title _ _ Hk) as (H1 & H2 & _).
  simpl. by apply extract_title_other.
Qed.

(** X2: for a key whose value is stored as it is, the last line with the
    key wins: the field is the trimmed value of that line, whatever the
    lines before it hold. *)
Theorem last_line_with_key_wins
    (content key field value line : string) (pre post : list string) :
  (key, field) ∈ verbatim_keys ->
  Py.split Py.nl content = pre ++ line :: post ->
  line_pair line = Some (key, value) ->
  Forall (fun line' => ~ has_key key line') post ->
  parse_markdown content !! field = Some (VStr value).
Proof.
  intros Hk Hlines Hline Hpost.
  assert ((key, field) ∈ overview_keys) as Hk'
    by (unfold overview_keys; apply elem_of_app; by right).
  rewrite (parse_markdown_overview_field _ _ _ Hk'), Hlines.
  unfold first_pass. rewrite foldl_app. simpl.
  set (st := foldl scan_line _ pre).
  assert (no_section st) as Hn by (by apply scan_lines_no_section).
  rewrite (scan_lines_without_key _ _ key) by
    (done || by apply scan_line_no_section).
  rewrite scan_line_data, Hline by done.
  by apply store_pair_verbatim.
Qed.

Local Ltac solve_no_key :=
  repeat (apply Forall_cons; split;
          [intros [? Hpair]; vm_compute in Hpair; discriminate Hpair|]);
  apply Forall_nil_2.

Lemma field_without_line_keeps_initial_value_witness :
  parse_markdown nameless_document !! "final_classification"
  = Some (VStr "TEMP_MARKER").
Proof.
  refine (field_without_line_keeps_initial_value nameless_document
            "Final Classification" "final_classification" _ _).
  - unfold overview_keys. apply elem_of_app. right.
    do 3 apply list_elem_of_further. apply list_elem_of_here.
  - vm_compute Py.split. solve_no_key.
Defined.

Lemma last_line_with_key_wins_witness :
  parse_markdown acme_document !! "final_classification"
  = Some (VStr "Unsloppable + Beneficiary").
Proof.
  refine (last_line_with_key_wins acme_document
    "Final Classification" "final_classification" "Unsloppable + Beneficiary"
    "- **Final Classification**: Unsloppable + Beneficiary"
    [ "# Acme Robotics (ACME)"; "" ]
    [ "- **AI Software Vulnerability Score**: 2";
      "- **Macro Contagion Risk**: Low - little exposure to credit";
      ""; "## Moat Sources"; "Installed base and service contracts."; "";
      "## Key Insights"; "- Alpha"; "- Beta"; ""; "## Pressure Test";
      "- Gamma" ] _ _ _ _).
  - do 3 apply list_elem_of_further. apply list_elem_of_here.
  - vm_compute. reflexivity.
  - vm_compute. reflexivity.
  - solve_no_key.
Defined.

(** ** The scores of the parser *)

Lemma take_while_all (p : ascii -> bool) (s : string) :
  all_chars p (Re.take_while p s) = true.
Proof. induction s as [|c s IH]; simpl; [done|]. destruct (p c) eqn:E; simpl; [by rewrite E|done]. Qed.

Lemma search_digits_all_digits (value run : string) :
  Re.search_digits value = Some run ->
  all_chars Py.isdigit run = true /\ run <> "".
Proof.
  revert run. induction value as [|c s IH]; intros run; simpl; [done|].
  destruct (Py.isdigit c) eqn:E; [|by apply IH].
  intros [= <-]. split; [|done]. simpl. rewrite E. simpl. apply take_while_all.
Qed.

Lemma all_chars_impl (p q : ascii -> bool) (s : string) :
  (forall c, p c = true -> q c = true) ->
  all_chars p s = true -> all_chars q s = true.
Proof.
  intros Hpq. induction s as [|c s IH]; simpl; [done|].
  intros [Hc Hs]%andb_true_iff. by rewrite (Hpq c Hc), IH.
Qed.

Lemma lstrip_with_none (q : ascii -> bool) (s : string) :
  all_chars (fun c => negb (q c)) s = true -> Py.lstrip_with q s = s.
Proof.
  destruct s as [|c s]; simpl; [done|].
  intros [Hc _]%andb_true_iff. apply negb_true_iff in Hc. by rewrite Hc.
Qed.

Lemma rstrip_with_none (q : ascii -> bool) (s : string) :
  all_chars (fun c => negb (q c)) s = true -> Py.rstrip_with q s = s.
Proof.
  induction s as [|c s IH]; simpl; [done|].
  intros [Hc Hs]%andb_true_iff. apply negb_true_iff in Hc.
  rewrite IH by done. destruct s; [by rewrite Hc|done].
Qed.

Lemma digit_not_int_space (c : ascii) :
  Py.isdigit c = true -> negb (Py.int_isspace c) = true.
Proof. by destruct c as [[] [] [] [] [] [] [] []]. Qed.

Lemma int_digits_digits (s : string) :
  all_chars Py.isdigit s = true ->
  forall acc n prev,
    s <> "" \/ prev = true ->
    exists v, Py.int_digits acc n prev s = Some (v, n + String.length s).
Proof.
  induction s as [|c s IH]; intros Hs acc n prev Hne; simpl.
  - destruct Hne as [?| ->]; [done|]. exists acc. by rewrite Nat.add_0_r.
  - simpl in Hs. apply andb_true_iff in Hs as [Hc Hs]. rewrite Hc.
    destruct (IH Hs (acc * 10 + Py.digit_value c)%Z (S n) true) as [v Hv];
      [by right|].
    exists v. rewrite Hv. by rewrite Nat.add_succ_r.
Qed.

Lemma int_of_str_digits (max_str_digits : nat) (s : string) :
  all_chars Py.isdigit s = true -> s <> "" ->
  exists v,
    Py.int_of_str max_str_digits s
    = if (0 <? max_str_digits)%nat && (max_str_digits <? String.length s)%nat
      then None else Some v.
Proof.
  intros Hs Hne. unfold Py.int_of_str, Py.strip_with.
  assert (all_chars (fun c => negb (Py.int_isspace c)) s = true) as Hsp
    by (eapply all_chars_impl; [apply digit_not_int_space|done]).
  rewrite lstrip_with_none, rstrip_with_none by done.
  destruct (int_digits_digits s Hs 0%Z 0 false) as [v Hv]; [by left|].
  destruct s as [|c t]; [done|].
  assert (Py.isdigit c = true) as Hc
    by (simpl in Hs; by apply andb_true_iff in Hs as [? _]).
  exists v.
  destruct c as [[] [] [] [] [] [] [] []]; try done; by rewrite Hv.
Qed.

Lemma digit_scores_insert_other (k : string) (v : val) (d : gmap string val) :
  k <> "ai_score" -> k <> "robotics_score" ->
  digit_scores d -> digit_scores (<[k := v]> d).
Proof.
  intros H1 H2 Hd. unfold digit_scores in *.
  apply Forall_cons in Hd as [(s1 & Hs1 & Hd1) Hd].
  apply Forall_cons in Hd as [(s2 & Hs2 & Hd2) _].
  repeat (apply Forall_cons; split); [..|apply Forall_nil_2].
  - exists s1. by rewrite lookup_insert_ne.
  - exists s2. by rewrite lookup_insert_ne.
Qed.

Lemma digit_scores_set_score (field value : string) (d : gmap string val) :
  field ∈ ["ai_score"; "robotics_score"] ->
  digit_scores d -> digit_scores (set_score field value d).
Proof.
  intros Hf Hd. unfold set_score.
  destruct (Re.search_digits value) as [run|] eqn:E; [|done].
  apply search_digits_all_digits in E as [Hrun _].
  unfold digit_scores in *.
  apply Forall_cons in Hd as [(s1 & Hs1 & Hd1) Hd].
  apply Forall_cons in Hd as [(s2 & Hs2 & Hd2) _].
  repeat (apply elem_of_cons in Hf as [->|Hf]); [..|by apply elem_of_nil in Hf].
  - repeat (apply Forall_cons; split); [..|apply Forall_nil_2].
    + exists run. by rewrite lookup_insert_eq.
    + exists s2. by rewrite lookup_insert_ne.
  - repeat (apply Forall_cons; split); [..|apply Forall_nil_2].
    + exists s1. by rewrite lookup_insert_ne.
    + exists run. by rewrite lookup_insert_eq.
Qed.

Lemma digit_scores_store_pair (key value : string) (d : gmap string val) :
  digit_scores d -> digit_scores (store_pair key value d).
Proof.
  intros Hd. unfold store_pair.
  repeat case_decide;
    try (apply digit_scores_set_score; [|done];
         (apply list_elem_of_here
          || (apply list_elem_of_further; apply list_elem_of_here)));
    try (by apply digit_scores_insert_other); done.
Qed.

Lemma digit_scores_scan_lines (lines : list string) (st : scan_state) :
  no_section st -> digit_scores (scan_data st) ->
  digit_scores (scan_data (foldl scan_line st lines)).
Proof.
  revert st. induction lines as [|line lines IH]; intros st Hn Hd; simpl; [done|].
  apply IH; [by apply scan_line_no_section|].
  rewrite scan_line_data by done.
  destruct (line_pair line) as [[key value]|]; [|done].
  by apply digit_scores_store_pair.
Qed.

Lemma digit_scores_parse_markdown (content : string) :
  digit_scores (parse_markdown content).
Proof.
  unfold parse_markdown, first_pass.
  do 2 (apply digit_scores_insert_other; [done..|]).
  apply digit_scores_scan_lines; [done|]. simpl.
  unfold extract_title. destruct (find_title _) as [[name code]|].
  - do 2 (apply digit_scores_insert_other; [done..|]).
    repeat (apply Forall_cons; split; [by eexists|]). apply Forall_nil_2.
  - repeat (apply Forall_cons; split; [by eexists|]). apply Forall_nil_2.
Qed.

(** X3: in the Record of every document each of the two scores is the
    empty string or a run of digits, and its class on the detail page is
    the gray one exactly when the score is empty or has more digits than
    the limit of the interpreter on integer literals. *)
Theorem parsed_scores_are_digit_runs (max_str_digits : nat) (content : string) :
  Forall (fun field =>
            exists s,
              parse_markdown content !! field = Some (VStr s)
              /\ all_chars Py.isdigit s = true
              /\ (get_score_class max_str_digits (VStr s) = "text-gray-600"
                  <-> s = ""
                      \/ (0 < max_str_digits
                          /\ max_str_digits < String.length s)))
    ["ai_score"; "robotics_score"].
Proof.
  pose proof (digit_scores_parse_markdown content) as Hd.
  unfold digit_scores in Hd. eapply Forall_impl; [exact Hd|].
  intros field (s & Hs & Hdigits). exists s. split; [done|]. split; [done|].
  destruct (decide (s = "")) as [->|Hne].
  - split; [by left|done].
  - destruct (int_of_str_digits max_str_digits s Hdigits Hne) as [v Hv].
    unfold get_score_class, int_of_value. rewrite Hv.
    destruct (Nat.ltb_spec 0 max_str_digits) as [E1|E1];
      destruct (Nat.ltb_spec max_str_digits (String.length s)) as [E2|E2];
      simpl.
    + split; [intros _; right; lia|done].
    + split; [|intros [?|[? ?]]; [done|lia]].
      by destruct (v <=? 3)%Z; [|destruct (v <=? 6)%Z].
    + split; [|intros [?|[? ?]]; [done|lia]].
      by destruct (v <=? 3)%Z; [|destruct (v <=? 6)%Z].
    + split; [|intros [?|[? ?]]; [done|lia]].
      by destruct (v <=? 3)%Z; [|destruct (v <=? 6)%Z].
Qed.

(** ** The title line *)

Lemma plus_sound {A : Type} (p : ascii -> bool)
    (k : string -> string -> option A) (s : string) :
  forall acc r,
    Re.plus p k acc s = Some r ->
    exists run rest,
      s = run +:+ rest /\ run <> "" /\ all_chars p run = true
      /\ k (acc +:+ run) rest = Some r.
Proof.
  induction s as [|c s IH]; intros acc r; simpl; [done|].
  destruct (p c) eqn:Hc; [|done].
  destruct (Re.plus p k (acc +:+ String c "") s) as [r'|] eqn:E.
  - intros [= <-]. destruct (IH _ _ E) as (run & rest & -> & _ & Hrun & Hk).
    exists (String c run), rest. repeat split; try done.
    + simpl. by rewrite Hc, Hrun.
    + rewrite app_assoc_str in Hk. by rewrite app_cons, app_empty_l in Hk.
  - intros Hk. exists (String c ""), s. repeat split; try done.
    simpl. by rewrite Hc.
Qed.

Lemma plus_complete {A : Type} (p : ascii -> bool)
    (k : string -> string -> option A) (run rest : string) :
  forall acc,
    run <> "" -> all_chars p run = true ->
    is_Some (k (acc +:+ run) rest) ->
    is_Some (Re.plus p k acc (run +:+ rest)).
Proof.
  induction run as [|c run IH]; intros acc Hne Hrun Hk; [done|].
  simpl in Hrun. apply andb_true_iff in Hrun as [Hc Hrun].
  rewrite app_cons. simpl. rewrite Hc.
  destruct run as [|c' run].
  - rewrite app_empty_l.
    destruct (Re.plus p k (acc +:+ String c "") rest); [by eexists|done].
  - assert (is_Some (Re.plus p k (acc +:+ String c "") (String c' run +:+ rest)))
      as [r Hr].
    { apply IH; [done|done|].
      rewrite app_assoc_str. by rewrite app_cons, app_empty_l. }
    rewrite Hr. by eexists.
Qed.

Lemma match_title_sound (line name code : string) :
  Re.match_title line = Some (name, code) -> title_shape line name code.
Proof.
  destruct line as [|c r0]; [done|].
  destruct c as [[] [] [] [] [] [] [] []]; try done.
  unfold Re.match_title. intros H.
  apply plus_sound in H as (ws1 & r1 & -> & Hws1 & Hsp1 & H).
  apply plus_sound in H as (g1 & r2 & -> & Hg1 & Hn1 & H).
  apply plus_sound in H as (ws2 & r3 & -> & Hws2 & Hsp2 & H).
  destruct r3 as [|c3 r4]; [done|].
  destruct c3 as [[] [] [] [] [] [] [] []]; try done.
  apply plus_sound in H as (g2 & r5 & -> & Hg2 & Hn2 & H).
  destruct r5 as [|c5 rest]; [done|].
  destruct c5 as [[] [] [] [] [] [] [] []]; try done.
  rewrite !app_empty_l in H. injection H as <- <-.
  exists ws1, ws2, rest. by repeat split.
Qed.

Lemma match_title_complete (line name code : string) :
  title_shape line name code -> is_Some (Re.match_title line).
Proof.
  intros (ws1 & ws2 & rest & -> & Hws1 & Hsp1 & Hn & Hname & Hws2 & Hsp2 & Hc & Hcode).
  rewrite !app_cons, !app_empty_l. unfold Re.match_title.
  apply plus_complete; [done..|].
  apply plus_complete; [done..|].
  apply plus_complete; [done..|]. cbv beta iota.
  apply plus_complete; [done..|]. cbv beta iota. by eexists.
Qed.

Lemma first_char_unique (c : ascii) (a a' x x' : string) :
  all_chars (Re.not_char c) a = true ->
  all_chars (Re.not_char c) a' = true ->
  a +:+ String c x = a' +:+ String c x' -> a = a' /\ x = x'.
Proof.
  revert a'. induction a as [|b a IH]; intros [|b' a'] Ha Ha' H.
  - rewrite !app_empty_l in H. by injection H.
  - rewrite app_empty_l, app_cons in H. injection H as <- _.
    simpl in Ha'. unfold Re.not_char in Ha' at 1.
    by destruct (ascii_dec c c).
  - rewrite app_empty_l, app_cons in H. injection H as -> _.
    simpl in Ha. unfold Re.not_char in Ha at 1.
    by destruct (ascii_dec c c).
  - rewrite !app_cons in H. injection H as <- H.
    simpl in Ha, Ha'. apply andb_true_iff in Ha as [_ Ha].
    apply andb_true_iff in Ha' as [_ Ha'].
    destruct (IH a' Ha Ha' H) as [-> ->]. done.
Qed.

Lemma all_chars_app (p : ascii -> bool) (a b : string) :
  all_chars p (a +:+ b) = all_chars p a && all_chars p b.
Proof.
  induction a as [|c a IH]; [done|]. rewrite app_cons. simpl.
  by rewrite IH, andb_assoc.
Qed.

Lemma lstrip_with_all (p : ascii -> bool) (s : string) :
  all_chars p s = true -> Py.lstrip_with p s = "".
Proof.
  induction s as [|c s IH]; simpl; [done|].
  intros [Hc Hs]%andb_true_iff. rewrite Hc. by apply IH.
Qed.

Lemma rstrip_with_all (p : ascii -> bool) (s : string) :
  all_chars p s = true -> Py.rstrip_with p s = "".
Proof.
  induction s as [|c s IH]; simpl; [done|].
  intros [Hc Hs]%andb_true_iff. by rewrite IH, Hc.
Qed.

Lemma lstrip_with_app_all (p : ascii -> bool) (ws s : string) :
  all_chars p ws = true -> Py.lstrip_with p (ws +:+ s) = Py.lstrip_with p s.
Proof.
  induction ws as [|c ws IH]; [done|]. rewrite app_cons. simpl.
  intros [Hc Hs]%andb_true_iff. rewrite Hc. by apply IH.
Qed.

Lemma rstrip_with_app_all (p : ascii -> bool) (s ws : string) :
  all_chars p ws = true -> Py.rstrip_with p (s +:+ ws) = Py.rstrip_with p s.
Proof.
  intros Hws. induction s as [|c s IH].
  - rewrite app_empty_l. by apply rstrip_with_all.
  - rewrite app_cons. simpl. by rewrite IH.
Qed.

Lemma strip_with_between (p : ascii -> bool) (ws1 s ws2 : string) :
  all_chars p ws1 = true -> all_chars p ws2 = true ->
  Py.strip_with p (ws1 +:+ s +:+ ws2) = Py.strip_with p s.
Proof.
  intros H1 H2. unfold Py.strip_with. rewrite lstrip_with_app_all by done.
  induction s as [|c s IH].
  - rewrite app_empty_l. by rewrite lstrip_with_all.
  - rewrite app_cons. simpl. destruct (p c); [done|].
    rewrite <- app_cons. by apply rstrip_with_app_all.
Qed.

Lemma space_not_paren (c : ascii) :
  Py.isspace c = true -> Re.not_char "(" c = true.
Proof. by destruct c as [[] [] [] [] [] [] [] []]. Qed.

Lemma title_shape_unique (line name code name' code' : string) :
  title_shape line name code -> title_shape line name' code' ->
  Py.strip name = Py.strip name' /\ code = code'.
Proof.
  intros (ws1 & ws2 & rest & -> & _ & Hsp1 & _ & Hname & _ & Hsp2 & _ & Hcode).
  intros (ws1' & ws2' & rest' & H & _ & Hsp1' & _ & Hname' & _ & Hsp2' & _ & Hcode').
  rewrite !app_cons, !app_empty_l in H. injection H as H.
  assert (ws1 +:+ name +:+ ws2 +:+ String "(" (code +:+ String ")" rest)
          = (ws1 +:+ name +:+ ws2) +:+ String "(" (code +:+ String ")" rest))
    as E1 by (by rewrite !app_assoc_str).
  assert (ws1' +:+ name' +:+ ws2' +:+ String "(" (code' +:+ String ")" rest')
          = (ws1' +:+ name' +:+ ws2') +:+ String "(" (code' +:+ String ")" rest'))
    as E2 by (by rewrite !app_assoc_str).
  rewrite E1, E2 in H.
  apply first_char_unique in H as [HW HX].
  - apply first_char_unique in HX as [-> _]; [|done..]. split; [|done].
    unfold Py.strip.
    rewrite <- (strip_with_between Py.isspace ws1 name ws2) by done.
    rewrite <- (strip_with_between Py.isspace ws1' name' ws2') by done.
    by rewrite HW.
  - rewrite !all_chars_app, Hname.
    rewrite (all_chars_impl _ _ ws1 space_not_paren Hsp1).
    by rewrite (all_chars_impl _ _ ws2 space_not_paren Hsp2).
  - rewrite !all_chars_app, Hname'.
    rewrite (all_chars_impl _ _ ws1' space_not_paren Hsp1').
    by rewrite (all_chars_impl _ _ ws2' space_not_paren Hsp2').
Qed.

Lemma find_title_first (pre post : list string) (line : string) :
  Forall (fun l => Re.match_title (Py.strip l) = None) pre ->
  is_Some (Re.match_title (Py.strip line)) ->
  find_title (pre ++ line :: post) = Re.match_title (Py.strip line).
Proof.
  intros Hpre [g Hg]. induction Hpre as [|l pre Hl _ IH]; simpl.
  - by rewrite Hg.
  - by rewrite Hl.
Qed.

Lemma find_title_Some (lines : list string) (groups : string * string) :
  find_title lines = Some groups ->
  exists line, line ∈ lines /\ Re.match_title (Py.strip line) = Some groups.
Proof.
  induction lines as [|l lines IH]; simpl; [done|].
  destruct (Re.match_title (Py.strip l)) as [g|] eqn:E.
  - intros [= <-]. exists l. split; [apply list_elem_of_here|done].
  - intros H. destruct (IH H) as (line & Hin & Hm).
    exists line. split; [by apply list_elem_of_further|done].
Qed.

Lemma parse_markdown_title (content : string) :
  parse_markdown content !! "ticker"
  = extract_title (Py.split Py.nl content) initial_data !! "ticker"
  /\ parse_markdown content !! "company_name"
     = extract_title (Py.split Py.nl content) initial_data !! "company_name".
Proof.
  unfold parse_markdown. rewrite !lookup_insert_ne by done.
  by rewrite !first_pass_other by solve_not_overview.
Qed.

(** X4: the title is taken from the first line that is a title line: the
    ticker is the trimmed text between the first opening parenthesis of
    that line and the closing parenthesis that follows, the company name
    the trimmed text between the heading marker and that parenthesis;
    the lines after it and the rest of the line do not count. *)
Theorem title_of_first_title_line
    (content line name code : string) (pre post : list string) :
  Py.split Py.nl content = pre ++ line :: post ->
  Forall (fun l => Re.match_title (Py.strip l) = None) pre ->
  title_shape (Py.strip line) name code ->
  parse_markdown content !! "ticker" = Some (VStr (Py.strip code))
  /\ parse_markdown content !! "company_name" = Some (VStr (Py.strip name)).
Proof.
  intros Hlines Hpre Hshape.
  destruct (match_title_complete _ _ _ Hshape) as [[name' code'] Hm].
  destruct (title_shape_unique _ _ _ _ _ Hshape (match_title_sound _ _ _ Hm))
    as [Hname Hcode]. subst code'.
  destruct (parse_markdown_title content) as [-> ->].
  unfold extract_title.
  rewrite Hlines, find_title_first, Hm by (done || by eexists).
  rewrite lookup_insert_eq, lookup_insert_ne, lookup_insert_eq by done.
  by rewrite Hname.
Qed.

Lemma title_of_first_title_line_witness :
  parse_markdown acme_document !! "ticker" = Some (VStr "ACME")
  /\ parse_markdown acme_document !! "company_name"
     = Some (VStr "Acme Robotics").
Proof.
  refine (title_of_first_title_line acme_document
    "# Acme Robotics (ACME)" "Acme Robotics" "ACME" []
    [ ""; "- **Final Classification**: Unsloppable + Beneficiary";
      "- **AI Software Vulnerability Score**: 2";
      "- **Macro Contagion Risk**: Low - little exposure to credit";
      ""; "## Moat Sources"; "Installed base and service contracts."; "";
      "## Key Insights"; "- Alpha"; "- Beta"; ""; "## Pressure Test";
      "- Gamma" ] _ _ _).
  - vm_compute. reflexivity.
  - apply Forall_nil_2.
  - exists " ", " ", "". repeat split; done.
Defined.

(** X5: a Record has a ticker that is not empty only when a line of the
    document is a title line, and the ticker is then the trimmed code of
    such a line. *)
Theorem ticker_comes_from_a_title_line (content ticker : string) :
  parse_markdown content !! "ticker" = Some (VStr ticker) ->
  ticker <> "" ->
  exists line name code,
    line ∈ Py.split Py.nl content
    /\ title_shape (Py.strip line) name code
    /\ ticker = Py.strip code.
Proof.
  intros Ht Hne. destruct (parse_markdown_title content) as [E _].
  rewrite E in Ht. unfold extract_title in Ht.
  destruct (find_title (Py.split Py.nl content)) as [[name code]|] eqn:Hf.
  - rewrite lookup_insert_eq in Ht. injection Ht as <-.
    destruct (find_title_Some _ _ Hf) as (line & Hin & Hm).
    exists line, name, code. split; [done|]. split; [|done].
    by apply match_title_sound.
  - vm_compute in Ht. by injection Ht as <-.
Qed.

Lemma ticker_comes_from_a_title_line_witness :
  exists line name code,
    line ∈ Py.split Py.nl nameless_document
    /\ title_shape (Py.strip line) name code
    /\ "ACME" = Py.strip code.
Proof.
  refine (ticker_comes_from_a_title_line nameless_document "ACME" _ _).
  - vm_compute. reflexivity.
  - discriminate.
Defined.

(** ** Moat Sources *)

Lemma paragraph_app (a b : list string) :
  paragraph (a ++ b) = paragraph a ++ paragraph b.
Proof. unfold paragraph. by rewrite map_app, filter_app. Qed.

Lemma paragraph_cons (line : string) (body : list string) :
  paragraph (line :: body)
  = (if truthy (VStr (Py.strip line)) then [Py.strip line] else [])
    ++ paragraph body.
Proof.
  unfold paragraph. rewrite map_cons.
  destruct (Py.strip line) as [|c l] eqn:E.
  - by rewrite filter_cons_False by (intros H; by apply H).
  - by rewrite filter_cons_True.
Qed.

Lemma moat_line_outside (st : section_state) (line : string) :
  Py.strip line <> "## Moat Sources" ->
  in_moat st = false ->
  in_moat (section_line st line) = false
  /\ moat_lines (section_line st line) = moat_lines st.
Proof.
  intros Hne Hout. unfold section_line.
  repeat case_decide; try done.
  destruct (Py.startswith "## Pressure" (Py.strip line)); [done|].
  rewrite Hout. cbn [andb].
  by destruct (in_insights st && Py.startswith "- " (Py.strip line)).
Qed.

Lemma moat_lines_outside (lines : list string) (st : section_state) :
  Forall (fun line => Py.strip line <> "## Moat Sources") lines ->
  in_moat st = false ->
  in_moat (foldl section_line st lines) = false
  /\ moat_lines (foldl section_line st lines) = moat_lines st.
Proof.
  intros H. revert st. induction H as [|line lines Hl _ IH]; intros st Hout; [done|].
  simpl. destruct (moat_line_outside st line Hl Hout) as [H1 H2].
  destruct (IH _ H1) as [H3 H4]. split; [done|]. by rewrite H4.
Qed.

Lemma moat_line_inside (st : section_state) (line : string) :
  is_toggle (Py.strip line) = false ->
  in_moat st = true ->
  in_moat (section_line st line) = true
  /\ moat_lines (section_line st line) = moat_lines st ++ paragraph [line].
Proof.
  intros Ht Hm. unfold is_toggle in Ht.
  apply orb_false_iff in Ht as [Ht Hp]. apply orb_false_iff in Ht as [Ht1 Ht2].
  apply bool_decide_eq_false in Ht1, Ht2.
  unfold section_line. rewrite !decide_False by done.
  rewrite Hp, Hm. cbn [andb]. rewrite paragraph_cons.
  destruct (truthy (VStr (Py.strip line))); cbn [in_moat moat_lines].
  - done.
  - rewrite !app_nil_r.
    by destruct (in_insights st && Py.startswith "- " (Py.strip line)).
Qed.

Lemma moat_lines_inside (body : list string) (st : section_state) :
  Forall (fun line => is_toggle (Py.strip line) = false) body ->
  in_moat st = true ->
  in_moat (foldl section_line st body) = true
  /\ moat_lines (foldl section_line st body) = moat_lines st ++ paragraph body.
Proof.
  intros H. revert st. induction H as [|line body Hl _ IH]; intros st Hm.
  - simpl. by rewrite app_nil_r.
  - simpl. destruct (moat_line_inside st line Hl Hm) as (H1 & H2).
    destruct (IH _ H1) as (H3 & H4). split; [done|].
    rewrite H4, H2, <- app_assoc. f_equal.
    change (line :: body) with ([line] ++ body). by rewrite paragraph_app.
Qed.

Lemma moat_line_close (st : section_state) (line : string) :
  is_toggle (Py.strip line) = true ->
  Py.strip line <> "## Moat Sources" ->
  in_moat (section_line st line) = false
  /\ moat_lines (section_line st line) = moat_lines st.
Proof.
  intros Ht Hne. unfold is_toggle in Ht. unfold section_line.
  rewrite (decide_False (P := Py.strip line = "## Moat Sources")) by done.
  rewrite (bool_decide_eq_false_2 (Py.strip line = "## Moat Sources")) in Ht by done.
  case_decide; [done|].
  rewrite bool_decide_eq_false_2 in Ht by done. cbn [orb] in Ht.
  by rewrite Ht.
Qed.

(** X6: in a document with one [## Moat Sources] heading, whose section
    runs to the next heading that sets or clears the flags (or to the end
    of the document), [moat_sources] is made of the lines of the section
    that are not blank, trimmed, joined by one space, and trimmed as a
    whole; a heading that is none of the three, and a [key: value] line,
    are part of the text. *)
Theorem moat_sources_is_the_section
    (content heading : string) (pre body post : list string) :
  Py.split Py.nl content = pre ++ heading :: body ++ post ->
  Forall (fun line => Py.strip line <> "## Moat Sources") pre ->
  Py.strip heading = "## Moat Sources" ->
  Forall (fun line => is_toggle (Py.strip line) = false) body ->
  match post with
  | [] => True
  | line :: _ => is_toggle (Py.strip line) = true
  end ->
  Forall (fun line => Py.strip line <> "## Moat Sources") post ->
  parse_markdown content !! "moat_sources"
  = Some (VStr (Py.strip (Py.join " " (paragraph body)))).
Proof.
  intros Hlines Hpre Hhead Hbody Hclose Hpost.
  unfold parse_markdown. rewrite lookup_insert_ne, lookup_insert_eq by done.
  do 4 f_equal.
  rewrite Hlines. unfold second_pass.
  rewrite foldl_app. simpl. rewrite foldl_app.
  set (st0 := foldl section_line (SectionState false false [] []) pre).
  destruct (moat_lines_outside pre (SectionState false false [] []) Hpre eq_refl)
    as [_ H0]. fold st0 in H0. simpl in H0.
  set (st1 := section_line st0 heading).
  assert (in_moat st1 = true /\ moat_lines st1 = []) as (Hm1 & Hl1).
  { unfold st1, section_line. rewrite Hhead. simpl. by rewrite H0. }
  destruct (moat_lines_inside body st1 Hbody Hm1) as (Hm2 & Hl2).
  rewrite Hl1 in Hl2. simpl in Hl2.
  set (st2 := foldl section_line st1 body) in *.
  destruct post as [|line post]; [done|].
  apply Forall_cons in Hpost as [Hline Hpost]. simpl.
  destruct (moat_line_close st2 line Hclose Hline) as [H3 H4].
  destruct (moat_lines_outside post _ Hpost H3) as [_ H5].
  by rewrite H5, H4.
Qed.

Lemma moat_sources_is_the_section_witness :
  parse_markdown
    (Py.join Py.nl
       [ "# Acme (ACME)"; "## Moat Sources"; " Brand. "; "";
         "### Switching costs"; "Churn: low"; "## Key Insights"; "- Alpha" ])
    !! "moat_sources"
  = Some (VStr "Brand. ### Switching costs Churn: low").
Proof.
  refine (moat_sources_is_the_section _ "## Moat Sources"
    [ "# Acme (ACME)" ]
    [ " Brand. "; ""; "### Switching costs"; "Churn: low" ]
    [ "## Key Insights"; "- Alpha" ] _ _ _ _ _ _).
  - vm_compute. reflexivity.
  - repeat (apply Forall_cons; split; [by vm_compute|]). apply Forall_nil_2.
  - vm_compute. reflexivity.
  - repeat (apply Forall_cons; split; [by vm_compute|]). apply Forall_nil_2.
  - vm_compute. reflexivity.
  - repeat (apply Forall_cons; split; [by vm_compute|]). apply Forall_nil_2.
Defined.

Lemma section_line_grows (st : section_state) (line : string) :
  in_moat st && in_insights st = false ->
  in_moat (section_line st line) && in_insights (section_line st line) = false
  /\ (exists m, moat_lines (section_line st line) = moat_lines st ++ m)
  /\ (exists i, insight_lines (section_line st line) = insight_lines st ++ i).
Proof.
  intros H. unfold section_line.
  repeat case_decide;
    try (split; [done|]; split; by exists []; rewrite app_nil_r).
  destruct (Py.startswith "## Pressure" (Py.strip line));
    [split; [done|]; split; by exists []; rewrite app_nil_r|].
  destruct (in_moat st && truthy (VStr (Py.strip line)));
    [split; [done|]; split; [by eexists|by exists []; rewrite app_nil_r]|].
  destruct (in_insights st && Py.startswith "- " (Py.strip line));
    [split; [done|]; split; [by exists []; rewrite app_nil_r|by eexists]|].
  split; [done|]; split; by exists []; rewrite app_nil_r.
Qed.

Lemma section_lines_grow (lines : list string) (st : section_state) :
  in_moat st && in_insights st = false ->
  in_moat (foldl section_line st lines)
  && in_insights (foldl section_line st lines) = false
  /\ (exists m, moat_lines (foldl section_line st lines) = moat_lines st ++ m)
  /\ (exists i,
        insight_lines (foldl section_line st lines) = insight_lines st ++ i).
Proof.
  revert st. induction lines as [|line lines IH]; intros st H; simpl.
  - split; [done|]. split; by exists []; rewrite app_nil_r.
  - destruct (section_line_grows st line H) as (H1 & [m Hm] & [i Hi]).
    destruct (IH _ H1) as (H2 & [m' Hm'] & [i' Hi']).
    split; [done|]. split.
    + exists (m ++ m'). by rewrite Hm', Hm, app_assoc.
    + exists (i ++ i'). by rewrite Hi', Hi, app_assoc.
Qed.

(** X7: the second scan is never in both sections at once, and it only
    appends: what it has collected from the first lines of a document, for
    the moat text and for the insights, stays at the front and in order
    whatever lines follow. *)
Theorem second_scan_only_appends (first_lines more_lines : list string) :
  in_moat (second_pass first_lines)
  && in_insights (second_pass first_lines) = false
  /\ (exists m,
        moat_lines (second_pass (first_lines ++ more_lines))
        = moat_lines (second_pass first_lines) ++ m)
  /\ (exists i,
        insight_lines (second_pass (first_lines ++ more_lines))
        = insight_lines (second_pass first_lines) ++ i).
Proof.
  unfold second_pass. rewrite foldl_app.
  destruct (section_lines_grow first_lines (SectionState false false [] []) eq_refl)
    as (H & _ & _).
  split; [done|]. by apply section_lines_grow.
Qed.

(** ** The cards and the counters of the index *)

Lemma total_assoc_set (k : string) (v : Z) (stats : list (string * Z)) :
  total (assoc_set k v stats)
  = (total stats - default 0 (assoc k stats) + v)%Z.
Proof.
  induction stats as [|[k' v'] stats IH]; simpl.
  - lia.
  - destruct (decide (k' = k)) as [->|Hne]; simpl.
    + lia.
    + rewrite IH. lia.
Qed.

Lemma total_count_class (css_class : string) (stats : list (string * Z)) :
  total (count_class css_class stats) = (total stats + 1)%Z.
Proof. unfold count_class. rewrite total_assoc_set. lia. Qed.

Lemma index_company_card (stats : list (string * Z)) (cards : list card)
    (c : gmap string val) :
  wf_record c ->
  exists stats',
    index_company (stats, cards) c = Some (stats', cards ++ [card_of c])
    /\ total stats' = (total stats + 1)%Z.
Proof.
  intros Hwf.
  destruct (index_company_wf stats cards c Hwf)
    as (s & m & css & Hs & Hm & Hl & Hi).
  exists (count_class css.2 stats). split; [|apply total_count_class].
  rewrite Hi. do 3 f_equal. unfold card_of.
  rewrite (dict_get_Some _ _ _ (VStr "") Hs), (dict_get_Some _ _ _ (VStr "") Hm).
  assert (default classification_default (assoc s CLASSIFICATION_MAP)
          = (css.1.1, css.1.2, css.2)) as Hl'
    by (unfold classification_lookup in Hl; congruence).
  cbn [py_str]. rewrite Hl'. reflexivity.
Qed.

Lemma index_companies_cards (companies : list (gmap string val)) :
  forall stats cards,
    Forall wf_record companies ->
    exists stats',
      index_companies (stats, cards) companies
      = Some (stats', cards ++ map card_of companies)
      /\ total stats' = (total stats + Z.of_nat (length companies))%Z.
Proof.
  induction companies as [|c companies IH]; intros stats cards Hwf.
  - exists stats. simpl. rewrite app_nil_r. split; [done|lia].
  - apply Forall_cons in Hwf as [Hc Hwf].
    destruct (index_company_card stats cards c Hc) as (stats1 & Hi & Ht).
    change (index_companies (stats, cards) (c :: companies))
      with (index_company (stats, cards) c
            ≫= fun acc => index_companies acc companies).
    rewrite Hi. simpl.
    destruct (IH stats1 (cards ++ [card_of c]) Hwf) as (stats' & Hrun & Ht').
    exists stats'. split.
    + by rewrite Hrun, <- app_assoc.
    + rewrite Ht', Ht. cbn [length]. lia.
Qed.

(** X8: the index has one card per Record, in the order of the Records;
    the card of a Record carries its ticker, its stored name and scores,
    the badge and the identifier of its classification and the excerpt of
    its moat text. *)
Theorem index_cards_follow_the_records
    (companies : list (gmap string val)) :
  Forall wf_record companies ->
  exists stats,
    index_companies (initial_stats, []) companies
    = Some (stats, map card_of companies).
Proof.
  intros Hwf.
  destruct (index_companies_cards companies initial_stats [] Hwf)
    as (stats & Hrun & _).
  by exists stats.
Qed.

Lemma index_cards_follow_the_records_witness :
  exists stats,
    index_companies (initial_stats, [])
      [parse_markdown acme_document; parse_markdown other_document]
    = Some (stats,
            map card_of
              [parse_markdown acme_document; parse_markdown other_document]).
Proof.
  refine (index_cards_follow_the_records
            [parse_markdown acme_document; parse_markdown other_document] _).
  solve_wf_records.
Defined.

(** X9: every Record is counted once: after the loop of the index the
    counters, the one of the empty identifier included, add up to the
    number of Records. *)
Theorem index_counters_add_up (companies : list (gmap string val)) :
  Forall wf_record companies ->
  exists stats cards,
    index_companies (initial_stats, []) companies = Some (stats, cards)
    /\ total stats = Z.of_nat (length companies).
Proof.
  intros Hwf.
  destruct (index_companies_cards companies initial_stats [] Hwf)
    as (stats & Hrun & Ht).
  exists stats, (map card_of companies). split; [done|].
  rewrite Ht. by vm_compute.
Qed.

Lemma index_counters_add_up_witness :
  exists stats cards,
    index_companies (initial_stats, [])
      [parse_markdown acme_document; parse_markdown other_document]
    = Some (stats, cards)
    /\ total stats = 2%Z.
Proof.
  refine (index_counters_add_up
            [parse_markdown acme_document; parse_markdown other_document] _).
  solve_wf_records.
Defined.

(** ** The files the driver writes *)

Lemma process_file_kept (write_ok : string -> string -> bool)
    (max_str_digits : nat) (company_template : string)
    (r : run) (content : string) :
  has_ticker content = true ->
  exists html,
    generate_company_page max_str_digits company_template
      (parse_markdown content) = Some html
    /\ process_file write_ok max_str_digits company_template r content
       = if write_ok (page_name content) html then
           Finished (Run (companies r ++ [parse_markdown content])
                       (written r ++ [(page_name content, html)]))
         else Stopped (written r).
Proof.
  intros Hk. unfold has_ticker in Hk. unfold process_file, page_name.
  destruct (generate_company_page_total max_str_digits company_template _
              (parse_markdown_wf content)) as [html Hhtml].
  exists html. split; [done|].
  destruct (parse_markdown content !! "ticker") as [ticker|] eqn:E; [|done].
  rewrite Hk, Hhtml. by rewrite (dict_get_Some _ _ _ _ E).
Qed.

Lemma process_file_dropped (write_ok : string -> string -> bool)
    (max_str_digits : nat) (company_template : string)
    (r : run) (content : string) :
  has_ticker content = false ->
  process_file write_ok max_str_digits company_template r content
  = Finished r.
Proof.
  intros Hk. unfold has_ticker in Hk. unfold process_file.
  destruct (parse_markdown content !! "ticker") as [ticker|]; [|done].
  by rewrite Hk.
Qed.

Lemma process_files_kept (write_ok : string -> string -> bool)
    (max_str_digits : nat) (company_template : string)
    (files : list string) :
  Forall (fun f => forall text, write_ok (page_name f) text = true)
    (filter (fun f => has_ticker f = true) files) ->
  forall r,
    exists pages,
      process_files write_ok max_str_digits company_template r files
      = Finished (Run (companies r
                       ++ map parse_markdown
                            (filter (fun f => has_ticker f = true) files))
                    (written r ++ pages))
      /\ Forall2
           (fun content page =>
              page.1 = page_name content
              /\ generate_company_page max_str_digits company_template
                   (parse_markdown content) = Some page.2)
           (filter (fun f => has_ticker f = true) files) pages.
Proof.
  induction files as [|content files IH]; intros Hok r.
  - exists []. simpl. rewrite !app_nil_r. split; [by destruct r|constructor].
  - cbn [process_files].
    destruct (has_ticker content) eqn:Hk.
    + destruct (process_file_kept write_ok max_str_digits company_template
                  r content Hk) as (html & Hhtml & ->).
      rewrite filter_cons_True in Hok |- * by done.
      apply Forall_cons in Hok as [Hcontent Hok].
      rewrite Hcontent.
      destruct (IH Hok (Run (companies r ++ [parse_markdown content])
                          (written r ++ [(page_name content, html)])))
        as (pages & -> & Hpages).
      exists ((page_name content, html) :: pages). simpl.
      rewrite <- !app_assoc. split; [done|]. by constructor.
    + rewrite (process_file_dropped _ _ _ _ _ Hk).
      rewrite filter_cons_False in Hok |- * by (by rewrite Hk).
      by apply IH.
Qed.

(** X10: when the file system accepts the writes, the driver writes one
    detail page for each document whose Record has a ticker that is not
    empty, named after the ticker and in the order of the documents, and
    writes [index.html] last, made from the Records of these documents in
    the same order. *)
Theorem main_writes_pages_then_index
    (write_ok : string -> string -> bool)
    (max_str_digits : nat) (company_template index_template : string)
    (files : list string) :
  Forall (fun f => forall text, write_ok (page_name f) text = true)
    (filter (fun f => has_ticker f = true) files) ->
  (forall text, write_ok "index.html" text = true) ->
  exists pages index_html,
    main write_ok max_str_digits company_template index_template files
    = Finished (pages ++ [("index.html", index_html)])
    /\ Forall2
         (fun content page =>
            page.1 = page_name content
            /\ generate_company_page max_str_digits company_template
                 (parse_markdown content) = Some page.2)
         (filter (fun f => has_ticker f = true) files) pages
    /\ generate_index index_template
         (map parse_markdown (filter (fun f => has_ticker f = true) files))
       = Some index_html.
Proof.
  intros Hok Hindex.
  destruct (process_files_kept write_ok max_str_digits company_template files
              Hok (Run [] [])) as (pages & Hrun & Hpages).
  assert (is_Some (generate_index index_template
            (map parse_markdown (filter (fun f => has_ticker f = true) files))))
    as [index_html Hhtml].
  { apply generate_index_total. apply Forall_forall.
    intros c (content & -> & _)%list_elem_of_fmap. apply parse_markdown_wf. }
  exists pages, index_html. split; [|done].
  unfold main. rewrite Hrun. simpl. by rewrite Hhtml, Hindex.
Qed.

Lemma main_writes_pages_then_index_witness :
  exists pages index_html,
    main (fun _ _ => true) 4300 "<h1>{{.Ticker}}</h1>"
      "<p>{{.UnsloppableBeneficiary}}</p>"
      [acme_document; untitled_document; other_document]
    = Finished (pages ++ [("index.html", index_html)])
    /\ map fst pages = ["ACME.html"; "BOR.html"].
Proof.
  destruct (main_writes_pages_then_index (fun _ _ => true) 4300
              "<h1>{{.Ticker}}</h1>" "<p>{{.UnsloppableBeneficiary}}</p>"
              [acme_document; untitled_document; other_document])
    as (pages & index_html & Hmain & Hpages & _).
  - apply Forall_forall. reflexivity.
  - reflexivity.
  - exists pages, index_html. split; [exact Hmain|].
    vm_compute filter in Hpages.
    apply Forall2_cons_inv_l in Hpages as (p1 & pages1 & [H1 _] & Hpages & ->).
    apply Forall2_cons_inv_l in Hpages as (p2 & pages2 & [H2 _] & Hpages & ->).
    apply Forall2_nil_inv_l in Hpages as ->.
    simpl. rewrite H1, H2. vm_compute. reflexivity.
Defined.

(** X21: the first write the file system refuses stops the run: when it
    is the page of a document, the pages of the documents before it are
    written, and neither a later page nor [index.html]. *)
Theorem main_stops_at_refused_write
    (write_ok : string -> string -> bool)
    (max_str_digits : nat) (company_template index_template : string)
    (before after : list string) (doc : string) :
  has_ticker doc = true ->
  (forall text, write_ok (page_name doc) text = false) ->
  Forall (fun f => forall text, write_ok (page_name f) text = true)
    (filter (fun f => has_ticker f = true) before) ->
  exists pages,
    main write_ok max_str_digits company_template index_template
      (before ++ doc :: after)
    = Stopped pages
    /\ Forall2
         (fun content page =>
            page.1 = page_name content
            /\ generate_company_page max_str_digits company_template
                 (parse_markdown content) = Some page.2)
         (filter (fun f => has_ticker f = true) before) pages.
Proof.
  intros Hk Hrefused Hok.
  destruct (process_files_kept write_ok max_str_digits company_template before
              Hok (Run [] [])) as (pages & Hrun & Hpages).
  exists pages. split; [|done].
  unfold main. rewrite process_files_app, Hrun. cbn [process_files].
  match goal with
  | |- context [process_file _ _ _ ?r doc] =>
      destruct (process_file_kept write_ok max_str_digits company_template
                  r doc Hk) as (html & _ & ->)
  end.
  by rewrite Hrefused.
Qed.

Lemma main_stops_at_refused_write_witness :
  exists pages,
    main (fun path _ => negb (Py.contains "/" path)) 4300
      "<h1>{{.Ticker}}</h1>" "<p>{{.UnsloppableBeneficiary}}</p>"
      ([acme_document] ++ slash_document :: [other_document])
    = Stopped pages
    /\ map fst pages = ["ACME.html"].
Proof.
  destruct (main_stops_at_refused_write
              (fun path _ => negb (Py.contains "/" path)) 4300
              "<h1>{{.Ticker}}</h1>" "<p>{{.UnsloppableBeneficiary}}</p>"
              [acme_document] [other_document] slash_document)
    as (pages & Hmain & Hpages).
  - vm_compute. reflexivity.
  - intros text. vm_compute. reflexivity.
  - vm_compute filter. apply Forall_cons. split; [|apply Forall_nil_2].
    intros text. vm_compute. reflexivity.
  - exists pages. split; [exact Hmain|].
    vm_compute filter in Hpages.
    apply Forall2_cons_inv_l in Hpages as (p1 & pages1 & [H1 _] & Hpages & ->).
    apply Forall2_nil_inv_l in Hpages as ->.
    simpl. rewrite H1. vm_compute. reflexivity.
Defined.

(** ** The tokens of the templates *)

Lemma replace_go_skip (old new a rest : string) :
  Py.replace_go old new (String.length a) (a +:+ rest)
  = Py.replace_go old new 0 rest.
Proof. induction a as [|c a IH]; [done|]. rewrite app_cons. by simpl. Qed.

(** X11: the token the detail page replaces for a key is [{.key}], with
    one brace on each side: in a template that writes the placeholder
    with two braces, [{{.key}}], the value is put between the braces
    that are left. *)
Theorem detail_token_keeps_a_brace (key value : string) :
  substitute ("{{." +:+ key +:+ "}}") (key, VStr value)
  = "{" +:+ value +:+ "}".
Proof.
  unfold substitute, Py.replace. cbn [fst snd py_str].
  rewrite !app_cons, !app_empty_l.
  cbn [Py.replace_go Py.startswith].
  destruct (ascii_dec "{" "{") as [_|Hne]; [|done].
  destruct (ascii_dec "." "{") as [Hne|_]; [done|].
  destruct (ascii_dec "." ".") as [_|Hne]; [|done].
  assert (Py.startswith (key +:+ "}") (key +:+ "}}") = true) as ->
    by (apply startswith_spec; exists "}"; by rewrite app_assoc_str).
  cbn [String.length]. f_equal. f_equal.
  assert (key +:+ "}}" = (key +:+ "}") +:+ "}") as ->
    by (by rewrite app_assoc_str).
  rewrite replace_go_skip. reflexivity.
Qed.

Lemma replace_absent (old new s : string) :
  Py.contains old s = false -> Py.replace old new s = s.
Proof.
  unfold Py.replace. induction s as [|c s IH]; simpl.
  - rewrite orb_false_r. by intros ->.
  - intros [H1 H2]%orb_false_iff. change (Py.startswith old (String c s)) with
      (Py.startswith old (String c s)) in H1.
    rewrite H1. by rewrite IH.
Qed.

(** X12: the cards go after the marker [id="companies"] of the index
    template: when the template, once its counters are filled and its
    range blocks taken out, does not hold the marker, the index page is
    that text, with no card, whatever the Records are. *)
Theorem index_without_marker_has_no_card
    (template : string) (companies : list (gmap string val))
    (stats : list (string * Z)) (cards : list card) :
  index_companies (initial_stats, []) companies = Some (stats, cards) ->
  Py.contains companies_marker
    (Re.sub_range_blocks (fill_stats stats template)) = false ->
  generate_index template companies
  = Some (Re.sub_range_blocks (fill_stats stats template)).
Proof.
  intros Hrun Hmarker. unfold generate_index. rewrite Hrun. simpl.
  by rewrite replace_absent.
Qed.

Lemma index_without_marker_has_no_card_witness :
  generate_index "<p>{{.UnsloppableBeneficiary}} companies</p>"
    [parse_markdown acme_document]
  = Some "<p>1 companies</p>".
Proof.
  refine (index_without_marker_has_no_card
            "<p>{{.UnsloppableBeneficiary}} companies</p>"
            [parse_markdown acme_document]
            (count_class "UnsloppableBeneficiary" initial_stats)
            [card_of (parse_markdown acme_document)] _ _).
  - vm_compute. reflexivity.
  - vm_compute. reflexivity.
Defined.

(** ** The lines of a document *)

Lemma join_cons_char (sep : string) (c : ascii) (h : string) (t : list string) :
  Py.join sep (String c h :: t) = String c (Py.join sep (h :: t)).
Proof. destruct t; [done|]. simpl. by rewrite app_cons. Qed.

Lemma split_go_cons (sep : string) (skip : nat) (s : string) :
  exists h t, Py.split_go sep skip s = h :: t.
Proof.
  revert skip. induction s as [|c s IH]; intros skip; simpl; [by eauto|].
  destruct skip; [|by apply IH].
  destruct (Py.startswith sep (String c s)); [by eauto|].
  destruct (Py.split_go sep 0 s); by eauto.
Qed.

Lemma split_go_nl_cons (c : ascii) (s : string) :
  Py.split_go Py.nl 0 (String c s)
  = if ascii_dec "010" c then "" :: Py.split_go Py.nl 0 s
    else match Py.split_go Py.nl 0 s with
         | h :: t => String c h :: t
         | [] => [String c ""]
         end.
Proof.
  unfold Py.nl. cbn [Py.split_go Py.startswith String.length Nat.sub].
  by destruct (ascii_dec "010" c).
Qed.

Lemma contains_nl_cons (c : ascii) (s : string) :
  Py.contains Py.nl (String c s)
  = (if ascii_dec "010" c then true else false) || Py.contains Py.nl s.
Proof.
  unfold Py.nl. cbn [Py.contains Py.startswith].
  by destruct (ascii_dec "010" c).
Qed.

(** X13: the lines the parser scans hold no line feed and, joined by line
    feeds, give back the text of the document: the split loses nothing. *)
Theorem lines_join_back (content : string) :
  Py.join Py.nl (Py.split Py.nl content) = content
  /\ Forall (fun line => Py.contains Py.nl line = false)
       (Py.split Py.nl content).
Proof.
  unfold Py.split. induction content as [|c s [IH1 IH2]].
  - split; [done|]. by repeat constructor.
  - rewrite split_go_nl_cons.
    destruct (split_go_cons Py.nl 0 s) as (h & t & E). rewrite E in *.
    destruct (ascii_dec "010" c) as [<-|Hne].
    + split; [|by constructor].
      change (Py.join Py.nl ("" :: h :: t))
        with ("" +:+ Py.nl +:+ Py.join Py.nl (h :: t)).
      by rewrite IH1.
    + split.
      * rewrite join_cons_char. by rewrite IH1.
      * apply Forall_cons in IH2 as [Hh Ht]. constructor; [|done].
        rewrite contains_nl_cons, Hh. by destruct (ascii_dec "010" c).
Qed.

Lemma split_line (line rest : string) :
  Py.contains Py.nl line = false ->
  Py.split_go Py.nl 0 (line +:+ Py.nl +:+ rest)
  = line :: Py.split_go Py.nl 0 rest.
Proof.
  induction line as [|c line IH]; intros H.
  - rewrite app_empty_l. unfold Py.nl at 2. rewrite app_cons, app_empty_l.
    rewrite split_go_nl_cons. by destruct (ascii_dec "010" "010").
  - rewrite app_cons, split_go_nl_cons.
    rewrite contains_nl_cons in H. apply orb_false_iff in H as [H1 H2].
    destruct (ascii_dec "010" c); [done|]. by rewrite IH.
Qed.

Lemma split_no_line_feed (line : string) :
  Py.contains Py.nl line = false -> Py.split_go Py.nl 0 line = [line].
Proof.
  induction line as [|c line IH]; intros H; [done|].
  rewrite contains_nl_cons in H. apply orb_false_iff in H as [H1 H2].
  rewrite split_go_nl_cons. destruct (ascii_dec "010" c); [done|].
  by rewrite IH.
Qed.

(** X14: a document written as lines joined by line feeds is scanned as
    these lines, when there is at least one line and no line holds a line
    feed. *)
Theorem joined_lines_are_the_lines (lines : list string) :
  lines <> [] ->
  Forall (fun line => Py.contains Py.nl line = false) lines ->
  Py.split Py.nl (Py.join Py.nl lines) = lines.
Proof.
  intros Hne H. unfold Py.split. induction H as [|line lines Hl Hlines IH]; [done|].
  destruct lines as [|line' lines].
  - by apply split_no_line_feed.
  - change (Py.join Py.nl (line :: line' :: lines))
      with (line +:+ Py.nl +:+ Py.join Py.nl (line' :: lines)).
    rewrite split_line by done. by rewrite IH.
Qed.

Lemma joined_lines_are_the_lines_witness :
  Py.split Py.nl untitled_document
  = [ "Acme Robotics"; "Final Classification: Unsloppable + Beneficiary" ].
Proof.
  refine (joined_lines_are_the_lines
    [ "Acme Robotics"; "Final Classification: Unsloppable + Beneficiary" ] _ _).
  - discriminate.
  - repeat (apply Forall_cons; split; [by vm_compute|]). apply Forall_nil_2.
Defined.

(** ** The markup around a key *)

Lemma length_lstrip_with (p : ascii -> bool) (s : string) :
  String.length (Py.lstrip_with p s) <= String.length s.
Proof.
  induction s as [|c s IH]; simpl; [done|]. destruct (p c); simpl; lia.
Qed.

Lemma length_rstrip_with (p : ascii -> bool) (s : string) :
  String.length (Py.rstrip_with p s) <= String.length s.
Proof.
  induction s as [|c s IH]; simpl; [done|].
  destruct (Py.rstrip_with p s); [destruct (p c)|]; simpl in *; lia.
Qed.

Lemma strip_with_fixed (p : ascii -> bool) (s : string) :
  Py.strip_with p s = s ->
  Py.lstrip_with p s = s /\ Py.rstrip_with p s = s.
Proof.
  unfold Py.strip_with. intros H.
  assert (Py.lstrip_with p s = s) as Hl.
  { destruct s as [|c s]; [done|]. simpl in *. destruct (p c); [|done].
    pose proof (length_rstrip_with p (Py.lstrip_with p s)) as H1.
    pose proof (length_lstrip_with p s) as H2.
    rewrite H in H1. simpl in H1. lia. }
  split; [done|]. by rewrite Hl in H.
Qed.

Lemma lstrip_with_app_fixed (p : ascii -> bool) (a s : string) :
  s <> "" -> Py.lstrip_with p s = s ->
  Py.lstrip_with p (a +:+ s) = Py.lstrip_with p a +:+ s.
Proof.
  intros Hne Hs. induction a as [|c a IH]; [by rewrite !app_empty_l|].
  rewrite app_cons. simpl. destruct (p c); [done|]. by rewrite app_cons.
Qed.

Lemma lstrip_with_fixed_app (p : ascii -> bool) (s b : string) :
  s <> "" -> Py.lstrip_with p s = s -> Py.lstrip_with p (s +:+ b) = s +:+ b.
Proof.
  intros Hne Hs. destruct s as [|c s]; [done|]. rewrite app_cons.
  simpl in *. destruct (p c); [|done].
  pose proof (length_lstrip_with p s) as H. rewrite Hs in H. simpl in H. lia.
Qed.

Lemma rstrip_with_fixed_tail (p : ascii -> bool) (c : ascii) (s : string) :
  s <> "" -> Py.rstrip_with p (String c s) = String c s ->
  Py.rstrip_with p s = s.
Proof.
  intros Hne. simpl. destruct (Py.rstrip_with p s) as [|c' r].
  - destruct (p c); [done|]. intros [= <-]. done.
  - by intros [= <-].
Qed.

Lemma rstrip_with_fixed_app (p : ascii -> bool) (s b : string) :
  s <> "" -> Py.rstrip_with p s = s ->
  Py.rstrip_with p (s +:+ b) = s +:+ Py.rstrip_with p b.
Proof.
  induction s as [|c s IH]; intros Hne Hs; [done|].
  rewrite !app_cons. destruct s as [|c' s].
  - rewrite !app_empty_l. simpl in *.
    destruct (Py.rstrip_with p b); [|done]. by destruct (p c).
  - cbn [Py.rstrip_with]. rewrite IH; [|done|by eapply rstrip_with_fixed_tail].
    by rewrite app_cons.
Qed.

Lemma rstrip_with_app_fixed (p : ascii -> bool) (a s : string) :
  s <> "" -> Py.rstrip_with p s = s -> Py.rstrip_with p (a +:+ s) = a +:+ s.
Proof.
  intros Hne Hs. induction a as [|c a IH]; [by rewrite app_empty_l|].
  rewrite app_cons. cbn [Py.rstrip_with]. rewrite IH.
  destruct (a +:+ s) eqn:E; [|done]. by destruct a, s.
Qed.

Lemma rstrip_with_cons (p : ascii -> bool) (c : ascii) (s : string) :
  Py.rstrip_with p (String c s)
  = match Py.rstrip_with p s with
    | EmptyString => if p c then EmptyString else String c EmptyString
    | r => String c r
    end.
Proof. reflexivity. Qed.

Lemma rstrip_with_fixed_weaken (p q : ascii -> bool) (s : string) :
  (forall c, q c = true -> p c = true) ->
  s <> "" -> Py.rstrip_with p s = s -> Py.rstrip_with q s = s.
Proof.
  intros Hqp. induction s as [|c s IH]; intros Hne Hs; [done|].
  destruct s as [|c' s].
  - simpl in *. destruct (p c) eqn:Hp; [done|].
    destruct (q c) eqn:Hq; [|done]. by rewrite (Hqp c Hq) in Hp.
  - rewrite rstrip_with_cons, IH; [done|done|].
    by eapply rstrip_with_fixed_tail.
Qed.

Lemma star_in_markup (c : ascii) :
  Py.char_in "*" c = true -> Py.char_in "-* " c = true.
Proof.
  unfold Py.char_in. destruct (ascii_dec "*" c) as [<-|]; [|done].
  intros _. by destruct (ascii_dec "-" "*").
Qed.

(** X15: the markup around a key is dropped: a key that is not empty and
    that starts and ends with a character that is neither white space, a
    dash nor a star is what is left of it when dashes, stars and spaces
    are put before and after it. *)
Theorem key_markup_is_dropped (before key after : string) :
  all_chars (Py.char_in "-* ") before = true ->
  all_chars (Py.char_in "-* ") after = true ->
  key <> "" ->
  Py.strip key = key ->
  Py.strip_with (Py.char_in "-* ") key = key ->
  clean_key (before +:+ key +:+ after) = key.
Proof.
  intros Hb Ha Hne Hsp Hmk.
  destruct (strip_with_fixed _ _ Hsp) as [Hl1 Hr1].
  destruct (strip_with_fixed _ _ Hmk) as [Hl2 Hr2].
  unfold clean_key, Py.strip, Py.strip_with at 2.
  assert (key +:+ after <> "") as Hne' by (by destruct key).
  rewrite lstrip_with_app_fixed by (done || by apply lstrip_with_fixed_app).
  rewrite <- app_assoc_str.
  assert (Py.lstrip_with Py.isspace before +:+ key <> "") as Hne''
    by (destruct (Py.lstrip_with Py.isspace before); [done|by rewrite app_cons]).
  rewrite rstrip_with_fixed_app by (done || by apply rstrip_with_app_fixed).
  rewrite rstrip_with_fixed_app.
  - rewrite app_assoc_str, strip_with_between; [done|..].
    + by apply all_chars_lstrip.
    + by do 2 apply all_chars_rstrip.
  - done.
  - apply rstrip_with_app_fixed; [done|].
    by apply (rstrip_with_fixed_weaken (Py.char_in "-* ") _ _ star_in_markup).
Qed.

Lemma key_markup_is_dropped_witness :
  clean_key ("- **" +:+ "AI Beneficiary" +:+ "** ") = "AI Beneficiary".
Proof.
  refine (key_markup_is_dropped "- **" "AI Beneficiary" "** " _ _ _ _ _);
    (reflexivity || discriminate).
Defined.

(** ** Missing lines on the pages *)

Lemma company_subs_classification (max_str_digits : nat)
    (d : gmap string val) (fc : string) :
  wf_record d ->
  d !! "final_classification" = Some (VStr fc) ->
  exists subs,
    company_subs max_str_digits d = Some subs
    /\ assoc "FinalClassification" subs = Some (VStr fc)
    /\ assoc "BadgeClass" subs
       = Some (VStr (default classification_default
                       (assoc fc CLASSIFICATION_MAP)).1.1).
Proof.
  intros Hwf Hfc.
  destruct (wf_record_string "macro_risk" d Hwf) as [risk Hrisk]; [set_solver|].
  unfold company_subs.
  rewrite (dict_get_Some _ _ _ (VStr "") Hfc).
  rewrite (dict_get_Some _ _ _ (VStr "Unknown") Hfc).
  rewrite (dict_get_Some _ _ _ (VStr "Unknown") Hrisk).
  rewrite (dict_get_Some _ _ _ (VStr "") Hrisk).
  unfold classification_lookup, before_separator, get_macro_risk_class.
  destruct (default classification_default (assoc fc CLASSIFICATION_MAP))
    as [[badge short] css].
  rewrite head_split.
  eexists. split; [reflexivity|]. split; reflexivity.
Qed.

(** X16: a document with no [Final Classification] line keeps the marker
    the Record starts with: its detail page shows the text "TEMP_MARKER"
    as the classification, with the gray badge, and its card on the index
    has the label "Unknown", the gray badge and the empty identifier. *)
Theorem missing_classification_shows_the_marker
    (max_str_digits : nat) (content : string) :
  Forall (fun line => ~ has_key "Final Classification" line)
    (Py.split Py.nl content) ->
  (exists subs,
     company_subs max_str_digits (parse_markdown content) = Some subs
     /\ assoc "FinalClassification" subs = Some (VStr "TEMP_MARKER")
     /\ assoc "BadgeClass" subs = Some (VStr "bg-gray-100 text-gray-800"))
  /\ ClassificationShort (card_of (parse_markdown content)) = "Unknown"
  /\ ClassificationClass (card_of (parse_markdown content)) = ""
  /\ BadgeClass (card_of (parse_markdown content))
     = "bg-gray-100 text-gray-800".
Proof.
  intros Hlines.
  assert (parse_markdown content !! "final_classification"
          = Some (VStr "TEMP_MARKER")) as Hfc.
  { rewrite (parse_markdown_overview_field _ "Final Classification")
      by (unfold overview_keys; apply elem_of_app; right;
          do 3 apply list_elem_of_further; apply list_elem_of_here).
    unfold first_pass.
    rewrite (scan_lines_without_key _ _ "Final Classification");
      [|done| |done].
    - simpl. by rewrite extract_title_other.
    - unfold overview_keys. apply elem_of_app. right.
      do 3 apply list_elem_of_further. apply list_elem_of_here. }
  split.
  - destruct (company_subs_classification max_str_digits _ _
                (parse_markdown_wf content) Hfc) as (subs & H1 & H2 & H3).
    exists subs. split; [done|]. split; [done|]. by rewrite H3.
  - unfold card_of. rewrite (dict_get_Some _ _ _ (VStr "") Hfc). by cbn.
Qed.

Lemma missing_classification_shows_the_marker_witness :
  exists subs,
    company_subs 4300 (parse_markdown nameless_document) = Some subs
    /\ assoc "FinalClassification" subs = Some (VStr "TEMP_MARKER")
    /\ assoc "BadgeClass" subs = Some (VStr "bg-gray-100 text-gray-800").
Proof.
  refine (proj1 (missing_classification_shows_the_marker 4300
                   nameless_document _)).
  vm_compute Py.split. solve_no_key.
Defined.

(** X17: a document with no [Macro Contagion Risk] line has an empty
    macro risk: its detail page shows no risk text and gives it the red
    class, the one of a high risk. *)
Theorem missing_macro_risk_is_red (max_str_digits : nat) (content : string) :
  Forall (fun line => ~ has_key "Macro Contagion Risk" line)
    (Py.split Py.nl content) ->
  exists subs,
    company_subs max_str_digits (parse_markdown content) = Some subs
    /\ assoc "MacroRisk" subs = Some (VStr "")
    /\ assoc "MacroRiskClass" subs = Some (VStr "text-red-600").
Proof.
  intros Hlines.
  assert (parse_markdown content !! "macro_risk" = Some (VStr "")) as Hrisk.
  { rewrite (parse_markdown_overview_field _ "Macro Contagion Risk")
      by (unfold overview_keys; apply elem_of_app; right;
          do 4 apply list_elem_of_further; apply list_elem_of_here).
    unfold first_pass.
    rewrite (scan_lines_without_key _ _ "Macro Contagion Risk");
      [|done| |done].
    - simpl. by rewrite extract_title_other.
    - unfold overview_keys. apply elem_of_app. right.
      do 4 apply list_elem_of_further. apply list_elem_of_here. }
  destruct (company_subs_wf max_str_digits _ (parse_markdown_wf content))
    as (fc & risk & subs & _ & Hrisk' & Hsubs & _ & Htext & Hclass & _).
  assert (risk = "") as -> by congruence.
  exists subs. split; [done|]. split; [exact Htext|exact Hclass].
Qed.

Lemma missing_macro_risk_is_red_witness :
  exists subs,
    company_subs 4300 (parse_markdown other_document) = Some subs
    /\ assoc "MacroRisk" subs = Some (VStr "")
    /\ assoc "MacroRiskClass" subs = Some (VStr "text-red-600").
Proof.
  refine (missing_macro_risk_is_red 4300 other_document _).
  vm_compute Py.split. solve_no_key.
Defined.

(** ** A score line without digits *)

Lemma store_pair_score (key field value : string) (d : gmap string val) :
  (key, field) ∈ score_keys ->
  store_pair key value d = set_score field value d.
Proof.
  intros Hk. unfold score_keys in Hk.
  repeat (apply elem_of_cons in Hk as [[= -> ->]|Hk]);
    [..|by apply elem_of_nil in Hk]; done.
Qed.

Lemma scan_line_keeps_score (st : scan_state) (line key field : string) :
  no_section st -> (key, field) ∈ score_keys ->
  (forall value, line_pair line = Some (key, value) -> no_digit value = true) ->
  scan_data (scan_line st line) !! field = scan_data st !! field.
Proof.
  intros Hn Hk Hl. rewrite scan_line_data by done.
  destruct (line_pair line) as [[key' value]|] eqn:E; [|done].
  destruct (decide (key' = key)) as [->|Hne].
  - rewrite (store_pair_score _ _ _ _ Hk). unfold set_score.
    by rewrite (proj2 (search_digits_None value) (Hl value eq_refl)).
  - apply store_pair_other_key with (key := key); [|done].
    unfold overview_keys. apply elem_of_app. by left.
Qed.

Lemma scan_lines_keep_score (lines : list string) (st : scan_state)
    (key field : string) :
  no_section st -> (key, field) ∈ score_keys ->
  Forall (fun line =>
            forall value,
              line_pair line = Some (key, value) -> no_digit value = true)
    lines ->
  scan_data (foldl scan_line st lines) !! field = scan_data st !! field.
Proof.
  intros Hn Hk H. revert st Hn.
  induction H as [|line lines Hl _ IH]; intros st Hn; simpl; [done|].
  rewrite IH by (by apply scan_line_no_section).
  by apply scan_line_keeps_score with (key := key).
Qed.

(** X18: a score is the first run of digits of the last line that has
    the score key and a digit in its value: a later line with the key and
    no digit in its value does not empty the score. *)
Theorem score_of_last_line_with_digits
    (content key field value run line : string) (pre post : list string) :
  (key, field) ∈ score_keys ->
  Py.split Py.nl content = pre ++ line :: post ->
  line_pair line = Some (key, value) ->
  first_digit_run value run ->
  Forall (fun line' =>
            forall value',
              line_pair line' = Some (key, value') -> no_digit value' = true)
    post ->
  parse_markdown content !! field = Some (VStr run).
Proof.
  intros Hk Hlines Hline Hrun Hpost.
  assert ((key, field) ∈ overview_keys) as Hk'
    by (unfold overview_keys; apply elem_of_app; by left).
  rewrite (parse_markdown_overview_field _ _ _ Hk'), Hlines.
  unfold first_pass. rewrite foldl_app. simpl.
  set (st := foldl scan_line _ pre).
  assert (no_section st) as Hn by (by apply scan_lines_no_section).
  rewrite (scan_lines_keep_score _ _ key) by
    (done || by apply scan_line_no_section).
  rewrite scan_line_data, Hline by done.
  rewrite (store_pair_score _ _ _ _ Hk). unfold set_score.
  rewrite (search_digits_first_run _ _ Hrun). apply lookup_insert_eq.
Qed.

Lemma score_of_last_line_with_digits_witness :
  parse_markdown
    (Py.join Py.nl
       [ "# Acme (ACME)"; "AI Software Vulnerability Score: 7/10";
         "AI Software Vulnerability Score: to be reviewed" ])
    !! "ai_score"
  = Some (VStr "7").
Proof.
  refine (score_of_last_line_with_digits _
    "AI Software Vulnerability Score" "ai_score" "7/10" "7"
    "AI Software Vulnerability Score: 7/10"
    [ "# Acme (ACME)" ]
    [ "AI Software Vulnerability Score: to be reviewed" ] _ _ _ _ _).
  - apply list_elem_of_here.
  - vm_compute. reflexivity.
  - vm_compute. reflexivity.
  - exists "", "/10". repeat split; done.
  - apply Forall_cons. split; [|apply Forall_nil_2].
    intros value' H. vm_compute in H. injection H as <-. reflexivity.
Defined.

(** ** The score lines *)

Lemma set_score_field (field value : string) (d d' : gmap string val) :
  d !! field = d' !! field ->
  set_score field value d !! field = set_score field value d' !! field.
Proof.
  intros H. unfold set_score.
  destruct (Re.search_digits value); [by rewrite !lookup_insert_eq|done].
Qed.

(** The score the first scan ends with depends on the score it starts
    with and on the lines, and on nothing else of the Record. *)
Lemma scan_lines_score_ext (lines : list string) (st st' : scan_state)
    (key field : string) :
  no_section st -> no_section st' -> (key, field) ∈ score_keys ->
  scan_data st !! field = scan_data st' !! field ->
  scan_data (foldl scan_line st lines) !! field
  = scan_data (foldl scan_line st' lines) !! field.
Proof.
  intros Hn Hn' Hk. revert st st' Hn Hn'.
  induction lines as [|line lines IH]; intros st st' Hn Hn' H; simpl; [done|].
  apply IH; [by apply scan_line_no_section..|].
  rewrite !scan_line_data by done.
  destruct (line_pair line) as [[key' value]|]; [|done].
  destruct (decide (key' = key)) as [->|Hne].
  - rewrite !(store_pair_score _ _ _ _ Hk). by apply set_score_field.
  - rewrite !(store_pair_other_key key field) by
      (done || (unfold overview_keys; apply elem_of_app; by left)).
    done.
Qed.

(** C4, as it holds of the parser: take a line of a document whose key
    is one of the two score keys.  When its value has a digit, the score
    of the Record is the first maximal run of digits of the value ("7/10"
    gives "7"), unless a later line with the key has a digit too.  When
    its value has no digit, the line leaves the score as it is, not
    empty: the score of the Record is the one of the document without the
    line, and it is empty when no other line with the key has a digit.
    The empty score, a score with no digit and any score that [int]
    refuses get the gray class. *)
Theorem score_line_extraction
    (content key field value line : string) (pre post : list string) :
  (key, field) ∈ score_keys ->
  Py.split Py.nl content = pre ++ line :: post ->
  line_pair line = Some (key, value) ->
  (forall run,
     first_digit_run value run ->
     Forall (fun line' =>
               forall value',
                 line_pair line' = Some (key, value') ->
                 no_digit value' = true)
       post ->
     parse_markdown content !! field = Some (VStr run))
  /\ (no_digit value = true ->
      forall content',
        Py.split Py.nl content' = pre ++ post ->
        parse_markdown content !! field = parse_markdown content' !! field)
  /\ (no_digit value = true ->
      Forall (fun line' =>
                forall value',
                  line_pair line' = Some (key, value') ->
                  no_digit value' = true)
        (pre ++ post) ->
      parse_markdown content !! field = Some (VStr ""))
  /\ (no_digit value = true \/ exists run, first_digit_run value run)
  /\ first_digit_run "7/10" "7"
  /\ (forall max_str_digits,
        get_score_class max_str_digits (VStr "") = "text-gray-600")
  /\ (forall max_str_digits s,
        no_digit s = true ->
        get_score_class max_str_digits (VStr s) = "text-gray-600")
  /\ (forall max_str_digits s,
        Py.int_of_str max_str_digits s = None ->
        get_score_class max_str_digits (VStr s) = "text-gray-600").
Proof.
  intros Hk Hlines Hline.
  assert ((key, field) ∈ overview_keys) as Hk'
    by (unfold overview_keys; apply elem_of_app; by left).
  destruct (overview_field_not_title _ _ Hk') as (Ht1 & Ht2 & _ & _).
  assert (forall st, no_section st -> no_digit value = true ->
            scan_data (scan_line st line) !! field = scan_data st !! field)
    as Hkeep.
  { intros st Hn Hnone. apply scan_line_keeps_score with (key := key);
      [done..|]. intros value' Hv. by simplify_eq. }
  split; [|split; [|split; [|split; [|split; [|split; [|split]]]]]].
  - intros run Hrun Hpost.
    rewrite (parse_markdown_overview_field _ _ _ Hk'), Hlines.
    unfold first_pass. rewrite foldl_app. simpl.
    set (st := foldl scan_line _ pre).
    assert (no_section st) as Hn by (by apply scan_lines_no_section).
    rewrite (scan_lines_keep_score _ _ key) by
      (done || by apply scan_line_no_section).
    rewrite scan_line_data, Hline by done.
    rewrite (store_pair_score _ _ _ _ Hk). unfold set_score.
    rewrite (search_digits_first_run _ _ Hrun). apply lookup_insert_eq.
  - intros Hnone content' Hlines'.
    rewrite !(parse_markdown_overview_field _ _ _ Hk'), Hlines, Hlines'.
    unfold first_pass. rewrite !foldl_app. simpl.
    apply scan_lines_score_ext with (key := key);
      [by apply scan_line_no_section, scan_lines_no_section
      |by apply scan_lines_no_section|done|].
    rewrite Hkeep by (done || by apply scan_lines_no_section).
    apply scan_lines_score_ext with (key := key); [done..|].
    simpl. by rewrite !extract_title_other.
  - intros Hnone Hothers.
    apply Forall_app in Hothers as [Hpre Hpost].
    rewrite (parse_markdown_overview_field _ _ _ Hk'), Hlines.
    unfold first_pass.
    rewrite (scan_lines_keep_score _ _ key); [|done|done|].
    + simpl. rewrite extract_title_other by done.
      unfold score_keys in Hk.
      repeat (apply elem_of_cons in Hk as [[= -> ->]|Hk]);
        [..|by apply elem_of_nil in Hk]; done.
    + apply Forall_app. split; [done|]. apply Forall_cons. split; [|done].
      intros value' Hv. by simplify_eq.
  - destruct (Re.search_digits value) as [run|] eqn:E.
    + right. exists run. by apply search_digits_Some.
    + left. by apply search_digits_None.
  - by apply search_digits_Some.
  - done.
  - intros lim s Hs. unfold get_score_class, int_of_value.
    by rewrite int_of_str_no_digit.
  - intros lim s Hs. unfold get_score_class, int_of_value. by rewrite Hs.
Qed.

Lemma score_line_extraction_witness :
  parse_markdown rescored_document !! "ai_score" = Some (VStr "7")
  /\ parse_markdown rescored_document !! "ai_score"
     = parse_markdown
         (Py.join Py.nl
            [ "# Acme (ACME)"; "AI Software Vulnerability Score: 7/10" ])
         !! "ai_score".
Proof.
  assert (("AI Software Vulnerability Score", "ai_score") ∈ score_keys) as Hk
    by apply list_elem_of_here.
  split.
  - refine (proj1 (score_line_extraction rescored_document
      "AI Software Vulnerability Score" "ai_score" "7/10"
      "AI Software Vulnerability Score: 7/10"
      [ "# Acme (ACME)" ]
      [ "AI Software Vulnerability Score: n/a" ] Hk _ _) "7" _ _).
    + vm_compute. reflexivity.
    + vm_compute. reflexivity.
    + exists "", "/10". repeat split; done.
    + apply Forall_cons. split; [|apply Forall_nil_2].
      intros value' H. vm_compute in H. injection H as <-. reflexivity.
  - refine (proj1 (proj2 (score_line_extraction rescored_document
      "AI Software Vulnerability Score" "ai_score" "n/a"
      "AI Software Vulnerability Score: n/a"
      [ "# Acme (ACME)"; "AI Software Vulnerability Score: 7/10" ]
      [] Hk _ _)) _ _ _).
    + vm_compute. reflexivity.
    + vm_compute. reflexivity.
    + reflexivity.
    + vm_compute. reflexivity.
Defined.

(** C4 as the specification states it fails on [rescored_document]: its
    last line has the key of the AI score and a value with no digit, and
    the score of the Record is "7", from the line before, not empty. *)
Lemma digit_free_score_line_keeps_the_score :
  Py.split Py.nl rescored_document
  = [ "# Acme (ACME)"; "AI Software Vulnerability Score: 7/10" ]
    ++ [ "AI Software Vulnerability Score: n/a" ]
  /\ line_pair "AI Software Vulnerability Score: n/a"
     = Some ("AI Software Vulnerability Score", "n/a")
  /\ no_digit "n/a" = true
  /\ parse_markdown rescored_document !! "ai_score" = Some (VStr "7")
  /\ parse_markdown rescored_document !! "ai_score" <> Some (VStr "").
Proof.
  assert (parse_markdown rescored_document !! "ai_score" = Some (VStr "7"))
    as H by (vm_compute; reflexivity).
  rewrite H.
  split; [vm_compute; reflexivity|]. split; [vm_compute; reflexivity|].
  split; [reflexivity|]. split; [reflexivity|]. discriminate.
Qed.

(** ** The block of the insights *)

Local Ltac solve_field :=
  apply (proj1 (bool_decide_eq_true _)); reflexivity.

(** X20: the block of the insights of a detail template,
    [{{range .KeyInsights}}<li>{{.}}</li>{{end}}], is rendered, for every
    Record, as one list item per insight, in order, each followed by a
    line feed, and as the empty text when there is no insight; the text of
    an insight is put in the page as it is. *)
Theorem insights_block_is_rendered
    (max_str_digits : nat) (d : gmap string val) (insights : list string) :
  wf_record d ->
  d !! "key_insights" = Some (VList insights) ->
  generate_company_page max_str_digits
    "{{range .KeyInsights}}<li>{{.}}</li>{{end}}" d
  = Some (insights_html insights).
Proof.
  intros Hwf Hl.
  pose proof (fun k Hk => wf_record_string k d Hwf Hk) as Hget.
  destruct (Hget "ticker") as [s1 H1]; [solve_field|].
  destruct (Hget "company_name") as [s2 H2]; [solve_field|].
  destruct (Hget "ai_score") as [s3 H3]; [solve_field|].
  destruct (Hget "robotics_score") as [s4 H4]; [solve_field|].
  destruct (Hget "ai_beneficiary") as [s5 H5]; [solve_field|].
  destruct (Hget "robotics_beneficiary") as [s6 H6]; [solve_field|].
  destruct (Hget "value_chain") as [s7 H7]; [solve_field|].
  destruct (Hget "final_classification") as [s8 H8]; [solve_field|].
  destruct (Hget "macro_risk") as [s9 H9]; [solve_field|].
  destruct (Hget "moat_sources") as [s10 H10]; [solve_field|].
  destruct (Hget "q1") as [t1 Q1]; [solve_field|].
  destruct (Hget "q2") as [t2 Q2]; [solve_field|].
  destruct (Hget "q3") as [t3 Q3]; [solve_field|].
  destruct (Hget "q4") as [t4 Q4]; [solve_field|].
  destruct (Hget "q5") as [t5 Q5]; [solve_field|].
  destruct (Hget "q6") as [t6 Q6]; [solve_field|].
  destruct (Hget "q7") as [t7 Q7]; [solve_field|].
  destruct (Hget "q8") as [t8 Q8]; [solve_field|].
  clear Hget.
  unfold generate_company_page, company_subs, dict_get.
  rewrite H1, H2, H3, H4, H5, H6, H7, H8, H9, H10,
    Q1, Q2, Q3, Q4, Q5, Q6, Q7, Q8, Hl.
  change (default (VStr "") (Some (VStr s8))) with (VStr s8).
  change (default (VStr "Unknown") (Some (VStr s9))) with (VStr s9).
  change (default (VStr "") (Some (VStr s9))) with (VStr s9).
  unfold classification_lookup, before_separator, get_macro_risk_class.
  destruct (default classification_default (assoc s8 CLASSIFICATION_MAP))
    as [[badge short] css].
  rewrite head_split.
  transitivity (Some (insights_html insights +:+ "")); [reflexivity|].
  by rewrite app_empty_r.
Qed.

Lemma insights_block_is_rendered_witness :
  generate_company_page 4300 "{{range .KeyInsights}}<li>{{.}}</li>{{end}}"
    (parse_markdown acme_document)
  = Some ("<li>Alpha</li>" +:+ Py.nl +:+ "<li>Beta</li>" +:+ Py.nl).
Proof.
  refine (insights_block_is_rendered 4300 (parse_markdown acme_document)
            ["Alpha"; "Beta"] _ _).
  - solve_wf_record.
  - vm_compute. reflexivity.
Defined.
